(** * A shallow embedding of the command supervisor of KiskisAgent

    Source: src/agent/KiskisAgent/src/KAThread.cpp.

    The worker is modelled as explicit state passing over a record that
    holds the fields of a [KAThread] object (and of its two
    [KAStreamReader]s) that the supervision code reads and writes.  The
    message queue is a list of responses to which every successful
    [try_send] appends; the spin on [try_send] therefore always ends with
    the message appended.  Everything the environment decides (results of
    [select] and [read], the seconds-of-minute shown by the clock, whether
    [chdir] and the user lookup succeed) is an explicit input. *)

From Stdlib Require Import ZArith Ascii String List Bool Lia.
From Stdlib Require DecimalZ.
Import ListNotations.
Open Scope string_scope.
Open Scope Z_scope.

(** ** Data model *)

(** The four modes a stream may have ([KACommand::getStandardOutput],
    [getStandardError]). *)
Inductive Mode := NO | CAPTURE | RETURN | CAPTURE_AND_RETURN.

(** [mode == "RETURN" || mode == "CAPTURE_AND_RETURN"] *)
Definition isReturn (m : Mode) : bool :=
  match m with RETURN | CAPTURE_AND_RETURN => true | _ => false end.

(** [mode == "CAPTURE" || mode == "NO"] *)
Definition isCaptureOrNo (m : Mode) : bool :=
  match m with CAPTURE | NO => true | _ => false end.

(** The fields of [KACommand] read by [KAThread], named after their
    getters. *)
Record KACommand := mkCommand {
  getUuid : string;
  getTaskUuid : string;
  getRequestSequenceNumber : Z;
  getSource : string;
  getProgram : string;
  getArguments : list string;
  getEnvironment : list (string * string);
  getWorkingDirectory : string;
  getRunAs : string;
  getStandardOutput : Mode;
  getStandardError : Mode;
  getTimeout : Z
}.

(** The messages handed to the queue. *)
Inductive Response :=
| ProgressMsg (uuid : string) (pid reqSeq count : Z) (err out : string)
    (source taskUuid : string)
| TimeoutMsg (uuid : string) (pid reqSeq count : Z) (err out : string)
    (source taskUuid : string)
| ExitMsg (uuid : string) (pid reqSeq count : Z) (source taskUuid : string)
    (exitcode : Z).

(** Modelled from the spec: [KAResponsePack::createResponseMessage], whose
    source is not part of src/.  The spec (section 4.3) describes it as a
    pure constructor taking the correlation fields and the two payloads.
    The order of the two payload parameters is the one under which every
    call site of KAThread.cpp (all of which pass [errBuff] before
    [outBuff]) gives the stdout payload of section 8, scenarios 1 and 5. *)
Definition createResponseMessage (uuid : string) (pid reqSeq count : Z)
    (error output : string) (source taskUuid : string) : Response :=
  ProgressMsg uuid pid reqSeq count error output source taskUuid.

(** Modelled from the spec: [KAResponsePack::createTimeoutMessage]. *)
Definition createTimeoutMessage (uuid : string) (pid reqSeq count : Z)
    (error output : string) (source taskUuid : string) : Response :=
  TimeoutMsg uuid pid reqSeq count error output source taskUuid.

(** Modelled from the spec: [KAResponsePack::createExitMessage]. *)
Definition createExitMessage (uuid : string) (pid reqSeq count : Z)
    (source taskUuid : string) (exitcode : Z) : Response :=
  ExitMsg uuid pid reqSeq count source taskUuid exitcode.

(** ** [KAThread::checkExecutionTimeout]

    The four pointer arguments become a record; [currentsec] is the
    seconds-of-minute read from [second_clock::local_time()] in the call.
    All four are [unsigned int]: the addition to [count] wraps at 2^32. *)
Record Timer := mkTimer {
  startsec : Z;
  overflag : bool;
  exectimeout : Z;
  count : Z
}.

Definition UINT_MOD : Z := 2 ^ 32.

Definition checkExecutionTimeout (t : Timer) (currentsec : Z) : bool * Timer :=
  if negb (exectimeout t =? 0) then
    let t1 :=
      if (startsec t <? currentsec) && negb (overflag t) then
        if negb (currentsec =? 59) then
          mkTimer currentsec (overflag t) (exectimeout t)
            ((count t + (currentsec - startsec t)) mod UINT_MOD)
        else
          mkTimer 0 true (exectimeout t)
            ((count t + (currentsec - startsec t)) mod UINT_MOD)
      else t in
    let t2 :=
      if currentsec =? 59 then mkTimer 0 true (exectimeout t1) (count t1)
      else mkTimer (startsec t1) false (exectimeout t1) (count t1) in
    (exectimeout t2 <=? count t2, t2)
  else (false, t).

(** ** The state of a [KAThread] object *)

(** The part of a [KAStreamReader] the supervisor reads: the mode set from
    the command, the stored results of [startSelection] and
    [startReading], and the read buffer. *)
Record KAStreamReader := mkReader {
  mode : Mode;
  selectResult : Z;
  readResult : Z;
  buffer : string
}.

(** Changes of the process identity made through [KAUserID]. *)
Inductive IdEvent := DoSetuid (u : Z) | UndoSetuid (u : Z).

(** The members of [KAThread].  [idlog] lists, in order, the identity
    switches this process performed; [errSeen] is a ghost field, absent
    from the source: the concatenation of all bytes ever appended to
    [errBuff]. *)
Record KAThread := mkThread {
  outputStream : KAStreamReader;
  errorStream : KAStreamReader;
  outBuff : string;
  errBuff : string;
  responsecount : Z;
  CWDERR : bool;
  UIDERR : bool;
  EXITSTATUS : Z;
  ACTFLAG : bool;
  processpid : Z;
  ruid : Z;
  euid : Z;
  argument : string;
  environment : string;
  exec : string;
  idlog : list IdEvent;
  errSeen : string
}.

(** Setters, one per member ([this->f = v]). *)
Definition set_outputStream (v : KAStreamReader) (th : KAThread) : KAThread :=
  mkThread v (errorStream th) (outBuff th) (errBuff th) (responsecount th) (CWDERR th) (UIDERR th) (EXITSTATUS th) (ACTFLAG th) (processpid th) (ruid th) (euid th) (argument th) (environment th) (exec th) (idlog th) (errSeen th).
Definition set_errorStream (v : KAStreamReader) (th : KAThread) : KAThread :=
  mkThread (outputStream th) v (outBuff th) (errBuff th) (responsecount th) (CWDERR th) (UIDERR th) (EXITSTATUS th) (ACTFLAG th) (processpid th) (ruid th) (euid th) (argument th) (environment th) (exec th) (idlog th) (errSeen th).
Definition set_outBuff (v : string) (th : KAThread) : KAThread :=
  mkThread (outputStream th) (errorStream th) v (errBuff th) (responsecount th) (CWDERR th) (UIDERR th) (EXITSTATUS th) (ACTFLAG th) (processpid th) (ruid th) (euid th) (argument th) (environment th) (exec th) (idlog th) (errSeen th).
Definition set_errBuff (v : string) (th : KAThread) : KAThread :=
  mkThread (outputStream th) (errorStream th) (outBuff th) v (responsecount th) (CWDERR th) (UIDERR th) (EXITSTATUS th) (ACTFLAG th) (processpid th) (ruid th) (euid th) (argument th) (environment th) (exec th) (idlog th) (errSeen th).
Definition set_responsecount (v : Z) (th : KAThread) : KAThread :=
  mkThread (outputStream th) (errorStream th) (outBuff th) (errBuff th) v (CWDERR th) (UIDERR th) (EXITSTATUS th) (ACTFLAG th) (processpid th) (ruid th) (euid th) (argument th) (environment th) (exec th) (idlog th) (errSeen th).
Definition set_CWDERR (v : bool) (th : KAThread) : KAThread :=
  mkThread (outputStream th) (errorStream th) (outBuff th) (errBuff th) (responsecount th) v (UIDERR th) (EXITSTATUS th) (ACTFLAG th) (processpid th) (ruid th) (euid th) (argument th) (environment th) (exec th) (idlog th) (errSeen th).
Definition set_UIDERR (v : bool) (th : KAThread) : KAThread :=
  mkThread (outputStream th) (errorStream th) (outBuff th) (errBuff th) (responsecount th) (CWDERR th) v (EXITSTATUS th) (ACTFLAG th) (processpid th) (ruid th) (euid th) (argument th) (environment th) (exec th) (idlog th) (errSeen th).
Definition set_EXITSTATUS (v : Z) (th : KAThread) : KAThread :=
  mkThread (outputStream th) (errorStream th) (outBuff th) (errBuff th) (responsecount th) (CWDERR th) (UIDERR th) v (ACTFLAG th) (processpid th) (ruid th) (euid th) (argument th) (environment th) (exec th) (idlog th) (errSeen th).
Definition set_ACTFLAG (v : bool) (th : KAThread) : KAThread :=
  mkThread (outputStream th) (errorStream th) (outBuff th) (errBuff th) (responsecount th) (CWDERR th) (UIDERR th) (EXITSTATUS th) v (processpid th) (ruid th) (euid th) (argument th) (environment th) (exec th) (idlog th) (errSeen th).
Definition set_processpid (v : Z) (th : KAThread) : KAThread :=
  mkThread (outputStream th) (errorStream th) (outBuff th) (errBuff th) (responsecount th) (CWDERR th) (UIDERR th) (EXITSTATUS th) (ACTFLAG th) v (ruid th) (euid th) (argument th) (environment th) (exec th) (idlog th) (errSeen th).
Definition set_ruid (v : Z) (th : KAThread) : KAThread :=
  mkThread (outputStream th) (errorStream th) (outBuff th) (errBuff th) (responsecount th) (CWDERR th) (UIDERR th) (EXITSTATUS th) (ACTFLAG th) (processpid th) v (euid th) (argument th) (environment th) (exec th) (idlog th) (errSeen th).
Definition set_euid (v : Z) (th : KAThread) : KAThread :=
  mkThread (outputStream th) (errorStream th) (outBuff th) (errBuff th) (responsecount th) (CWDERR th) (UIDERR th) (EXITSTATUS th) (ACTFLAG th) (processpid th) (ruid th) v (argument th) (environment th) (exec th) (idlog th) (errSeen th).
Definition set_argument (v : string) (th : KAThread) : KAThread :=
  mkThread (outputStream th) (errorStream th) (outBuff th) (errBuff th) (responsecount th) (CWDERR th) (UIDERR th) (EXITSTATUS th) (ACTFLAG th) (processpid th) (ruid th) (euid th) v (environment th) (exec th) (idlog th) (errSeen th).
Definition set_environment (v : string) (th : KAThread) : KAThread :=
  mkThread (outputStream th) (errorStream th) (outBuff th) (errBuff th) (responsecount th) (CWDERR th) (UIDERR th) (EXITSTATUS th) (ACTFLAG th) (processpid th) (ruid th) (euid th) (argument th) v (exec th) (idlog th) (errSeen th).
Definition set_exec (v : string) (th : KAThread) : KAThread :=
  mkThread (outputStream th) (errorStream th) (outBuff th) (errBuff th) (responsecount th) (CWDERR th) (UIDERR th) (EXITSTATUS th) (ACTFLAG th) (processpid th) (ruid th) (euid th) (argument th) (environment th) v (idlog th) (errSeen th).
Definition set_idlog (v : list IdEvent) (th : KAThread) : KAThread :=
  mkThread (outputStream th) (errorStream th) (outBuff th) (errBuff th) (responsecount th) (CWDERR th) (UIDERR th) (EXITSTATUS th) (ACTFLAG th) (processpid th) (ruid th) (euid th) (argument th) (environment th) (exec th) v (errSeen th).
Definition set_errSeen (v : string) (th : KAThread) : KAThread :=
  mkThread (outputStream th) (errorStream th) (outBuff th) (errBuff th) (responsecount th) (CWDERR th) (UIDERR th) (EXITSTATUS th) (ACTFLAG th) (processpid th) (ruid th) (euid th) (argument th) (environment th) (exec th) (idlog th) v.

(** [KAThread::KAThread()]: the constructor sets the flags and starts
    [responsecount] at 1; the string members start empty.  The two stream
    readers, the pid and the uid members are given, since their initial
    values come from code outside KAThread.cpp. *)
Definition KAThread_new (outS errS : KAStreamReader) (pid ruid0 euid0 : Z)
    : KAThread :=
  mkThread outS errS "" "" 1 false false 0 false pid ruid0 euid0 "" "" "" [] "".

(** ** Sending *)

(** [while(!messageQueue->try_send(...));]: the spin ends once the message
    is in the queue. *)
Definition try_send_spin (q : list Response) (m : Response) : list Response :=
  q ++ [m].

(** The message every Progress-sending branch builds from the members. *)
Definition progressMessage (command : KACommand) (th : KAThread) : Response :=
  createResponseMessage (getUuid command) (processpid th)
    (getRequestSequenceNumber command) (responsecount th) (errBuff th)
    (outBuff th) (getSource command) (getTaskUuid command).

(** Build the message, spin on the queue, then
    [getResponsecount() = getResponsecount() + 1]. *)
Definition sendProgress (command : KACommand) (th : KAThread) (q : list Response)
    : KAThread * list Response :=
  (set_responsecount (responsecount th + 1) th,
   try_send_spin q (progressMessage command th)).

(** ** [KAThread::checkAndSend] *)
Definition checkAndSend (command : KACommand) (th : KAThread) (q : list Response)
    : KAThread * list Response :=
  if isReturn (mode (outputStream th)) then
    if isCaptureOrNo (getStandardError command) then
      sendProgress command (set_errBuff "" th) q
    else
      sendProgress command th q
  else
    if isCaptureOrNo (getStandardError command) then
      (th, q)          (* Nothing will be send.. *)
    else
      sendProgress command (set_outBuff "" th) q.

(** ** [KAThread::checkAndWrite]

    The writes to the capture files (open, append, close) are not
    modelled: no response depends on them. *)
Definition MaxBuffSize : nat := 1000.

(** [s.substr(pos, len)] for [pos <= s.size()]. *)
Definition substr (s : string) (pos len : nat) : string := substring pos len s.

Definition checkAndWrite (command : KACommand) (th : KAThread) (q : list Response)
    : KAThread * list Response :=
  let outS := outputStream th in
  let errS := errorStream th in
  let th1 := set_outBuff (outBuff th ++ buffer outS) th in
  let th2 := set_outputStream (mkReader (mode outS) (selectResult outS) (readResult outS) "") th1 in
  let th3 := set_errBuff (errBuff th2 ++ buffer errS) th2 in
  let th4 := set_errSeen (errSeen th3 ++ buffer errS) th3 in
  let th5 := set_errorStream (mkReader (mode errS) (selectResult errS) (readResult errS) "") th4 in
  let outBuffsize := String.length (outBuff th5) in
  let errBuffsize := String.length (errBuff th5) in
  let th6 := if (0 <? errBuffsize)%nat then set_EXITSTATUS 1 th5 else th5 in
  if (MaxBuffSize <=? outBuffsize)%nat || (MaxBuffSize <=? errBuffsize)%nat then
    if (MaxBuffSize <=? outBuffsize)%nat && (MaxBuffSize <=? errBuffsize)%nat then
      let divisionOut := substr (outBuff th6) MaxBuffSize (outBuffsize - MaxBuffSize) in
      let th7 := set_outBuff (substr (outBuff th6) 0 MaxBuffSize) th6 in
      let divisionErr := substr (errBuff th7) MaxBuffSize (errBuffsize - MaxBuffSize) in
      let th8 := set_errBuff (substr (errBuff th7) 0 MaxBuffSize) th7 in
      let '(th9, q9) := checkAndSend command th8 q in
      (set_errBuff divisionErr (set_outBuff divisionOut th9), q9)
    else if (MaxBuffSize <=? outBuffsize)%nat then
      let divisionOut := substr (outBuff th6) MaxBuffSize (outBuffsize - MaxBuffSize) in
      let th7 := set_outBuff (substr (outBuff th6) 0 MaxBuffSize) th6 in
      let '(th9, q9) := checkAndSend command th7 q in
      (set_outBuff divisionOut (set_errBuff "" th9), q9)
    else
      let divisionErr := substr (errBuff th6) MaxBuffSize (errBuffsize - MaxBuffSize) in
      let th7 := set_errBuff (substr (errBuff th6) 0 MaxBuffSize) th6 in
      let '(th9, q9) := checkAndSend command th7 q in
      (set_errBuff divisionErr (set_outBuff "" th9), q9)
  else (th6, q).

(** ** [KAThread::lastCheckAndSend] *)
Definition lastCheckAndSend (command : KACommand) (th : KAThread) (q : list Response)
    : KAThread * list Response :=
  let outBuffsize := String.length (outBuff th) in
  let errBuffsize := String.length (errBuff th) in
  let outRet := isReturn (getStandardOutput command) in
  let errRet := isReturn (getStandardError command) in
  let clearBoth t := set_errBuff "" (set_outBuff "" t) in
  if negb (outBuffsize =? 0)%nat || negb (errBuffsize =? 0)%nat then
    if negb (outBuffsize =? 0)%nat && negb (errBuffsize =? 0)%nat then
      if outRet && errRet then
        let '(th1, q1) := sendProgress command th q in
        (set_errBuff "" (set_outBuff "" th1), q1)
      else if outRet then
        let '(th1, q1) := sendProgress command (set_errBuff "" th) q in
        (set_outBuff "" th1, q1)
      else if errRet then
        let '(th1, q1) := sendProgress command (set_outBuff "" th) q in
        (set_errBuff "" th1, q1)
      else (clearBoth th, q)
    else if negb (outBuffsize =? 0)%nat then
      if outRet then
        let '(th1, q1) := sendProgress command (set_errBuff "" th) q in
        (set_outBuff "" th1, q1)
      else (clearBoth th, q)
    else
      if errRet then
        let '(th1, q1) := sendProgress command (set_outBuff "" th) q in
        (set_errBuff "" th1, q1)
      else (clearBoth th, q)
  else (th, q).

(** ** The heartbeat branch of [KAThread::optionReadSend]
    (the body run when the heartbeat timer fires). *)
Definition sendHeartbeat (command : KACommand) (th : KAThread) (q : list Response)
    : KAThread * list Response :=
  if String.eqb (outBuff th) "" && String.eqb (errBuff th) "" then
    (set_responsecount (responsecount th + 1) th,
     try_send_spin q
       (createResponseMessage (getUuid command) (processpid th)
          (getRequestSequenceNumber command) (responsecount th) "" ""
          (getSource command) (getTaskUuid command)))
  else
    let th1 :=
      if isCaptureOrNo (getStandardOutput command)
         && isCaptureOrNo (getStandardError command) then
        set_outBuff "" (set_errBuff "" th)
      else if isCaptureOrNo (getStandardOutput command) then set_outBuff "" th
      else if isCaptureOrNo (getStandardError command) then set_errBuff "" th
      else th in
    let q1 := try_send_spin q (progressMessage command th1) in
    let th2 := set_outBuff "" (set_errBuff "" th1) in
    (set_responsecount (responsecount th2 + 1) th2, q1).

(** ** [KAThread::checkUID] and [KAThread::checkCWD]

    [lookup] is what [KAUserID::getIDs] finds for the [runAs] user:
    [Some (ruid, euid)] when the user exists.  On failure the members keep
    their previous values and [undoSetuid(ruid)] uses the old [ruid]. *)
Definition checkUID (lookup : option (Z * Z)) (th : KAThread) : bool * KAThread :=
  match lookup with
  | Some (r, e) =>
      let th1 := set_euid e (set_ruid r th) in
      (true, set_idlog (idlog th1 ++ [DoSetuid (euid th1)]) th1)
  | None =>
      (false, set_idlog (idlog th ++ [UndoSetuid (ruid th)]) th)
  end.

(** [chdir] either succeeds or fails; the directory change itself is not
    observed by any response. *)
Definition checkCWD (chdir_ok : bool) : bool := chdir_ok.

(** ** The multiplex loop of [KAThread::optionReadSend] *)

(** What [read] gives on a pipe after [clearBuffer]: the bytes read
    ([readResult] is their number, 0 at end of file), or an error
    ([readResult] is -1). *)
Inductive ReadOutcome := ReadData (s : string) | ReadError.

(** Modelled from the spec: [KAStreamReader::startReading] (section 4.2),
    whose source is not part of src/: it stores the number of bytes read
    in [readResult] and the bytes in the buffer. *)
Definition startReading (r : KAStreamReader) (o : ReadOutcome) : KAStreamReader :=
  match o with
  | ReadData s => mkReader (mode r) (selectResult r) (Z.of_nat (String.length s)) s
  | ReadError => mkReader (mode r) (selectResult r) (-1) ""
  end.

Definition clearBuffer (r : KAStreamReader) : KAStreamReader :=
  mkReader (mode r) (selectResult r) (readResult r) "".

Definition setSelectResult (v : Z) (r : KAStreamReader) : KAStreamReader :=
  mkReader (mode r) v (readResult r) (buffer r).

(** The environment of one iteration: the two [startSelection] results,
    the two read outcomes (used only when the matching select is > 0) and
    the seconds-of-minute shown by the three clock reads of the iteration
    (execution timer, heartbeat timer, heartbeat reset). *)
Record Tick := mkTick {
  selOut : Z;
  selErr : Z;
  readOut : ReadOutcome;
  readErr : ReadOutcome;
  secExec : Z;
  secHeart : Z;
  secHeartReset : Z
}.

(** The local variables of [optionReadSend] live across iterations. *)
Record LoopState := mkLoop {
  thr : KAThread;
  queue : list Response;
  execT : Timer;
  heartT : Timer
}.

(** How the loop was left: [break] after [EXECTIMEOUT = true], [return -1]
    after a select error, or [break] at the end of reading. *)
Inductive LoopExit := ExitTimeout | ExitSelectError | ExitEOF.

Definition heartbeatReset (sec : Z) : Timer := mkTimer sec false 30 0.

(** Steps 1-2 of an iteration: [startSelection] on output, then on error. *)
Definition selectPhase (t : Tick) (th : KAThread) : KAThread :=
  set_errorStream (setSelectResult (selErr t) (errorStream th))
    (set_outputStream (setSelectResult (selOut t) (outputStream th)) th).

(** Step 4 of an iteration: reset the heartbeat timer after activity, or
    advance it and send a heartbeat when it fires. *)
Definition heartbeatPhase (command : KACommand) (t : Tick) (th : KAThread)
    (q : list Response) (ht : Timer) : KAThread * list Response * Timer :=
  if ACTFLAG th then
    (set_ACTFLAG false th, q, heartbeatReset (secHeartReset t))
  else
    let '(hb, ht1) := checkExecutionTimeout ht (secHeart t) in
    if hb then
      let '(th', q') := sendHeartbeat command th q in
      (th', q', heartbeatReset (secHeartReset t))
    else (th, q, ht1).

(** Step 5: read the streams whose select returned > 0, and set [ACTFLAG]. *)
Definition readPhase (t : Tick) (th : KAThread) : KAThread :=
  let th2 := if 0 <? selOut t then
               set_outputStream (startReading (clearBuffer (outputStream th)) (readOut t)) th
             else th in
  let th3 := if 0 <? selErr t then
               set_errorStream (startReading (clearBuffer (errorStream th2)) (readErr t)) th2
             else th2 in
  if (0 <? selOut t) || (0 <? selErr t) then set_ACTFLAG true th3 else th3.

(** One iteration of [while(true)]: either the loop is left, or the next
    state is returned. *)
Definition loopStep (command : KACommand) (t : Tick) (s : LoopState)
    : (LoopExit * LoopState) + LoopState :=
  let th0 := selectPhase t (thr s) in
  let '(fired, et) := checkExecutionTimeout (execT s) (secExec t) in
  if fired then inl (ExitTimeout, mkLoop th0 (queue s) et (heartT s))
  else
    let '(th1, q1, ht) := heartbeatPhase command t th0 (queue s) (heartT s) in
    if (selOut t =? -1) || (selErr t =? -1) then
      inl (ExitSelectError, mkLoop th1 q1 et ht)
    else
      let th4 := readPhase t th1 in
      if (0 <? readResult (outputStream th4)) || (0 <? readResult (errorStream th4)) then
        let '(th5, q5) := checkAndWrite command th4 q1 in
        inr (mkLoop th5 q5 et ht)
      else inl (ExitEOF, mkLoop th4 q1 et ht).

(** The loop over the iterations the environment provides; [None] when
    the loop is still running after all of them. *)
Fixpoint multiplex (command : KACommand) (ticks : list Tick) (s : LoopState)
    : option (LoopExit * LoopState) :=
  match ticks with
  | [] => None
  | t :: ts =>
      match loopStep command t s with
      | inl r => Some r
      | inr s' => multiplex command ts s'
      end
  end.

(** ** [KAThread::optionReadSend]

    The pid discovery through [pgrep] is not unfolded: [ppid] is the pid it
    ends with.  [chdir_ok] and [lookup] are what the parent-side
    [checkCWD] and [checkUID] see; [sec0] and [secHeart0] are the two clock
    reads before the loop.  The [kill] after a timeout sends no response
    and is not modelled. *)
Record Outcome := mkOutcome {
  ret : Z;
  final : KAThread;
  sent : list Response
}.

Definition preChecks (command : KACommand) (ppid : Z) (chdir_ok : bool)
    (lookup : option (Z * Z)) (th : KAThread) (q : list Response)
    : KAThread * list Response :=
  let th1 := set_processpid ppid th in
  let '(th2, q2) :=
    if negb (checkCWD chdir_ok) then
      (set_CWDERR true th1,
       try_send_spin q
         (createResponseMessage (getUuid command) (processpid th1)
            (getRequestSequenceNumber command) 1
            "Working Directory Does Not Exist on System" ""
            (getSource command) (getTaskUuid command)))
    else (th1, q) in
  let '(ok, th3) := checkUID lookup th2 in
  if negb ok then
    (set_UIDERR true th3,
     try_send_spin q2
       (createResponseMessage (getUuid command) (processpid th3)
          (getRequestSequenceNumber command) 1
          "User Does Not Exist on System" ""
          (getSource command) (getTaskUuid command)))
  else (th3, q2).

(** What follows the loop, first block: [if(EXECTIMEOUT == true)]. *)
Definition timeoutBranch (command : KACommand) (e : LoopExit) (th : KAThread)
    (q : list Response) : KAThread * list Response :=
  match e with
  | ExitTimeout =>
      let '(th', q') := lastCheckAndSend command th q in
      (th', try_send_spin q'
              (createTimeoutMessage (getUuid command) (processpid th')
                 (getRequestSequenceNumber command) (responsecount th') "" ""
                 (getSource command) (getTaskUuid command)))
  | _ => (th, q)
  end.

(** The [exitcode] computed before the Exit response. *)
Definition exitcode (th : KAThread) : Z :=
  if negb (EXITSTATUS th =? 0) || CWDERR th || UIDERR th then 1 else 0.

(** What follows the loop, second block: the Exit response when both
    streams read end of file; [optionReadSend] then returns [true]. *)
Definition exitBranch (command : KACommand) (th : KAThread) (q : list Response)
    : Outcome :=
  if (readResult (errorStream th) =? 0) && (readResult (outputStream th) =? 0) then
    let code := exitcode th in
    let '(th6, q6) := lastCheckAndSend command th q in
    mkOutcome 1 th6
      (try_send_spin q6
         (createExitMessage (getUuid command) (processpid th6)
            (getRequestSequenceNumber command) (responsecount th6)
            (getSource command) (getTaskUuid command) code))
  else mkOutcome 1 th q.

Definition afterLoop (command : KACommand) (e : LoopExit) (th : KAThread)
    (q : list Response) : Outcome :=
  let '(th5, q5) := timeoutBranch command e th q in
  exitBranch command th5 q5.

Definition optionReadSend (command : KACommand) (ppid : Z) (chdir_ok : bool)
    (lookup : option (Z * Z)) (sec0 secHeart0 : Z) (ticks : list Tick)
    (th : KAThread) (q : list Response) : option Outcome :=
  let '(th4, q4) := preChecks command ppid chdir_ok lookup th q in
  let s0 := mkLoop th4 q4 (mkTimer sec0 false (getTimeout command) 0)
              (mkTimer secHeart0 false 30 0) in
  match multiplex command ticks s0 with
  | None => None
  | Some (ExitSelectError, s) => Some (mkOutcome (-1) (thr s) (queue s))
  | Some (e, s) => Some (afterLoop command e (thr s) (queue s))
  end.

(** ** [KAThread::createExecString] *)

(** The C string held by a buffer: its bytes up to the first NUL. *)
Fixpoint cstr (s : string) : string :=
  match s with
  | String c r => if Ascii.eqb c "000"%char then "" else String c (cstr r)
  | EmptyString => ""
  end.

Fixpoint appendArguments (argument : string) (args : list string) : string :=
  match args with
  | [] => argument
  | arg :: rest => appendArguments (argument ++ arg ++ " ") rest
  end.

Fixpoint appendEnvironment (environment : string) (env : list (string * string))
    : string :=
  match env with
  | [] => environment
  | (arg, e) :: rest =>
      appendEnvironment (environment ++ " export " ++ cstr arg ++ "=" ++ cstr e ++ " && ") rest
  end.

Definition createExecString (command : KACommand) (th : KAThread)
    : string * KAThread :=
  let th0 := set_exec "" th in
  let argument' := appendArguments (argument th0) (getArguments command) in
  let environment' := appendEnvironment (environment th0) (getEnvironment command) in
  let exec' :=
    if String.eqb environment' "" then getProgram command ++ " " ++ argument'
    else environment' ++ getProgram command ++ " " ++ argument' in
  (exec', set_exec exec' (set_environment environment' (set_argument argument' th0))).

(** ** The worker branch of [KAThread::threadFunction]

    The events of the top-level worker (the child of the first [fork]),
    after the stream readers received their modes and paths. *)
Inductive WorkerEvent :=
| EvOpenPipe (which : string) (ok : bool)
| EvLog (level : Z) (text : string)
| EvFork
| EvIdentity (e : IdEvent)
| EvSystem (execString : string)
| EvKillSelf
| EvExit (status : Z)
| EvOptionReadSend
| EvReturn (b : bool).

(** The inner child: [PreparePipe], [closePipe(0)], the two checks (a
    failed one ends in [kill(getpid(),SIGKILL)]), then
    [system(createExecString(command))] and [exit(EXIT_SUCCESS)]. *)
Definition innerChild (command : KACommand) (chdir_ok : bool)
    (lookup : option (Z * Z)) (th : KAThread) : list WorkerEvent :=
  if negb (checkCWD chdir_ok) then [EvKillSelf]
  else
    let '(ok, th1) := checkUID lookup th in
    let ids := map EvIdentity (skipn (length (idlog th)) (idlog th1)) in
    if negb ok then ids ++ [EvKillSelf]
    else ids ++ [EvSystem (fst (createExecString command th1)); EvExit 0].

(** [openPipe()] on output, then on error: [||] evaluates left to right,
    so the error pipe is not opened after the output pipe failed. *)
Definition openPipes (outPipeOk errPipeOk : bool) : list WorkerEvent :=
  if outPipeOk then [EvOpenPipe "output" true; EvOpenPipe "error" errPipeOk]
  else [EvOpenPipe "output" false].

Definition pipeErrorLog : WorkerEvent :=
  EvLog 6 "<KAThread::threadFunction> Error opening pipes!!".

(** The parent branch ends in [kill(getpid(),SIGKILL)], so its
    [return true] is not reached. *)
Definition threadFunction_worker (command : KACommand) (outPipeOk errPipeOk : bool)
    (newpid : Z) (chdir_ok : bool) (lookup : option (Z * Z)) (th : KAThread)
    : list WorkerEvent :=
  let failed := negb outPipeOk || negb errPipeOk in
  openPipes outPipeOk errPipeOk
  ++ (if failed then [pipeErrorLog] else [])
  ++ [EvFork]
  ++ (if newpid =? 0 then innerChild command chdir_ok lookup th
      else if newpid =? -1 then [EvReturn false]
      else [EvOptionReadSend; EvKillSelf]).

(** ** [toString] (both [KAThread::toString] and [KALogger::toString]):
    [ostringstream << int], the shortest decimal numeral with a leading
    ['-'] for a negative value. *)
Fixpoint uintString (d : Decimal.uint) : string :=
  match d with
  | Decimal.Nil => ""
  | Decimal.D0 r => String "0"%char (uintString r)
  | Decimal.D1 r => String "1"%char (uintString r)
  | Decimal.D2 r => String "2"%char (uintString r)
  | Decimal.D3 r => String "3"%char (uintString r)
  | Decimal.D4 r => String "4"%char (uintString r)
  | Decimal.D5 r => String "5"%char (uintString r)
  | Decimal.D6 r => String "6"%char (uintString r)
  | Decimal.D7 r => String "7"%char (uintString r)
  | Decimal.D8 r => String "8"%char (uintString r)
  | Decimal.D9 r => String "9"%char (uintString r)
  end.

Definition toString (intcont : Z) : string :=
  match Z.to_int intcont with
  | Decimal.Pos d => uintString d
  | Decimal.Neg d => String "-"%char (uintString d)
  end.

(** ** [atoi], as glibc defines it: [(int) strtol(nptr, NULL, 10)].
    [strtol] skips the white space of [isspace], takes an optional sign
    and the longest run of decimal digits (none gives 0), and clamps to
    the range of a 64-bit [long]; the conversion to [int] keeps the low
    32 bits. *)
Definition isspace (c : Ascii.ascii) : bool :=
  match Ascii.nat_of_ascii c with 32 | 9 | 10 | 11 | 12 | 13 => true | _ => false end%nat.

Definition digitValue (c : Ascii.ascii) : option Z :=
  let n := Ascii.nat_of_ascii c in
  if (48 <=? n)%nat && (n <=? 57)%nat then Some (Z.of_nat n - 48) else None.

Fixpoint skipSpace (s : string) : string :=
  match s with
  | String c r => if isspace c then skipSpace r else s
  | EmptyString => s
  end.

Fixpoint digitsAcc (acc : Z) (s : string) : Z :=
  match s with
  | String c r =>
      match digitValue c with
      | Some v => digitsAcc (acc * 10 + v) r
      | None => acc
      end
  | EmptyString => acc
  end.

Definition strtolValue (s : string) : Z :=
  match skipSpace s with
  | String c r =>
      if Ascii.eqb c "-"%char then - digitsAcc 0 r
      else if Ascii.eqb c "+"%char then digitsAcc 0 r
      else digitsAcc 0 (String c r)
  | EmptyString => 0
  end.

Definition clampLong (v : Z) : Z := Z.max (- 2 ^ 63) (Z.min (2 ^ 63 - 1) v).

Definition wrapInt (v : Z) : Z :=
  let m := v mod 2 ^ 32 in if 2 ^ 31 <=? m then m - 2 ^ 32 else m.

Definition atoi (s : string) : Z := wrapInt (clampLong (strtolValue s)).

(** ** [KAThread::getProcessPid]

    [popen] either fails or gives the whole output of the command.
    [fgets(buffer, 128, pipe)] reads at most 127 bytes and stops after a
    newline; [buffer[strlen(buffer)-1] = '\0'] then drops the last byte
    of the C string, which ends at the first NUL byte.  A chunk whose
    first byte is NUL makes [strlen(buffer)-1] index [buffer[-1]]: the
    behaviour is undefined, and the model gives [None]. *)
Inductive PopenResult := PopenFail | PopenOut (output : string).

Fixpoint fgetsChunk (k : nat) (s : string) : string * string :=
  match k, s with
  | O, _ => ("", s)
  | _, EmptyString => ("", "")
  | S k', String c r =>
      if Ascii.eqb c "010"%char then (String c "", r)
      else let '(a, b) := fgetsChunk k' r in (String c a, b)
  end.

(** The successive lines [fgets] returns, up to end of file ([fuel] is
    the length of the output: every chunk takes at least one byte). *)
Fixpoint fgetsChunks (fuel : nat) (s : string) : list string :=
  match fuel, s with
  | O, _ => []
  | _, EmptyString => []
  | S f, _ => let '(a, b) := fgetsChunk 127 s in a :: fgetsChunks f b
  end.

Fixpoint dropLast (s : string) : string :=
  match s with
  | String c EmptyString => ""
  | String c r => String c (dropLast r)
  | EmptyString => ""
  end.

Fixpoint readLoop (result : option string) (chunks : list string) : option string :=
  match chunks with
  | [] => result
  | c :: cs =>
      match result with
      | None => None
      | Some _ =>
          let z := cstr c in
          readLoop (if String.eqb z "" then None else Some (dropLast z)) cs
      end
  end.

Definition getProcessPid (p : PopenResult) : option string :=
  match p with
  | PopenFail => Some "ERROR"
  | PopenOut out => readLoop (Some "") (fgetsChunks (String.length out) out)
  end.

(** ** Finding the pid of the command ([KAThread::optionReadSend], first
    block)

    Each iteration of [while ((result = waitpid(newpid, ...)) == 0)] sees
    what that [waitpid] returns and what [popen] gives for each command
    line.  The loop ends with the pid parsed from the grandchild lookup
    when it is nonzero, or with [newpid] once [waitpid] is nonzero.  The
    result is [None] when the iterations run out or a [getProcessPid] is
    undefined. *)
Record PidIter := mkPidIter {
  waitResult : Z;
  popenOf : string -> PopenResult
}.

Fixpoint findPid (newpid : Z) (iters : list PidIter) : option Z :=
  match iters with
  | [] => None
  | it :: rest =>
      if waitResult it =? 0 then
        match getProcessPid (popenOf it ("pgrep -P " ++ toString newpid)) with
        | None => None
        | Some cmd1 =>
            match getProcessPid (popenOf it ("pgrep -P " ++ cmd1)) with
            | None => None
            | Some cmd2 =>
                if negb (atoi cmd2 =? 0) then Some (atoi cmd2) else findPid newpid rest
            end
        end
      else Some newpid
  end.

(** ** [KALogger]

    The clock fields read by [getLocaltime] and [openLogFile]. *)
Record Clock := mkClock {
  year : Z; month : Z; day : Z;
  hours : Z; minutes : Z; seconds : Z;
  total_milliseconds : Z
}.

Definition getLocaltime (now : Clock) : string :=
  toString (day now) ++ "-" ++ toString (month now) ++ "-" ++ toString (year now) ++ " "
  ++ toString (hours now) ++ ":" ++ toString (minutes now) ++ ":" ++ toString (seconds now).

(** The name [openLogFile(pid, requestSequenceNumber)] opens. *)
Definition logFileName (now : Clock) (pid requestSequenceNumber : Z) : string :=
  "/var/log/ksks-agent/"
  ++ toString (year now) ++ toString (month now) ++ toString (day now)
  ++ "-" ++ toString (total_milliseconds now)
  ++ "-" ++ toString pid ++ "-" ++ toString requestSequenceNumber.

(** The string ["\n"]. *)
Definition newline : string := String "010"%char "".

(** [KALogger::writeLog]: the nested [switch] on [loglevel], then on
    [level]; [fputs] writes the C string of [log], i.e. up to its first NUL
    byte.  The log file is the text written so far. *)
Definition writeLog (loglevel : Z) (now : Clock) (level : Z) (log : string)
    (logFile : string) : string :=
  let put tag := logFile ++ cstr (getLocaltime now ++ tag ++ log ++ newline) in
  if loglevel =? 7 then
    if level =? 7 then put " <DEBUG>"
    else if level =? 6 then put " <INFO>"
    else if level =? 5 then put " <NOTICE>"
    else if level =? 4 then put " <WARNING>"
    else if level =? 3 then put " <ERROR>"
    else if level =? 2 then put " <CRITICAL>"
    else if level =? 1 then put " <ALERT>"
    else if level =? 0 then put " <EMERGENCY>"
    else logFile
  else if loglevel =? 6 then
    if level =? 6 then put " <INFO>"
    else if level =? 5 then put " <NOTICE>"
    else if level =? 4 then put " <WARNING>"
    else if level =? 3 then put " <ERROR>"
    else if level =? 2 then put " <CRITICAL>"
    else if level =? 1 then put " <ALERT>"
    else if level =? 0 then put " <EMERGENCY>"
    else logFile
  else if loglevel =? 5 then
    if level =? 5 then put " <NOTICE>"
    else if level =? 4 then put " <WARNING>"
    else if level =? 3 then put " <ERROR>"
    else if level =? 2 then put " <CRITICAL>"
    else if level =? 1 then put " <ALERT>"
    else if level =? 0 then put " <EMERGENCY>"
    else logFile
  else if loglevel =? 4 then
    if level =? 4 then put " <WARNING>"
    else if level =? 3 then put " <ERROR>"
    else if level =? 2 then put " <CRITICAL>"
    else if level =? 1 then put " <ALERT>"
    else if level =? 0 then put " <EMERGENCY>"
    else logFile
  else if loglevel =? 3 then
    if level =? 3 then put " <ERROR>"
    else if level =? 2 then put " <CRITICAL>"
    else if level =? 1 then put " <ALERT>"
    else if level =? 0 then put " <EMERGENCY>"
    else logFile
  else if loglevel =? 2 then
    if level =? 2 then put " <CRITICAL>"
    else if level =? 1 then put " <ALERT>"
    else if level =? 0 then put " <EMERGENCY>"
    else logFile
  else if loglevel =? 1 then
    if level =? 1 then put " <ALERT>"
    else if level =? 0 then put " <EMERGENCY>"
    else logFile
  else if loglevel =? 0 then
    if level =? 0 then put " <EMERGENCY>"
    else logFile
  else logFile.

(** * Properties *)

(** ** The tick-delta update *)

(** C7 (counterexample): at [currentsec = 59], with [startsec = 10] and
    the latch off, [currentsec > startsec] holds but the latch does not
    stay off: it is armed, while the count advances by 49. *)
Lemma checkExecutionTimeout_latch_armed_at_59 :
  let r := checkExecutionTimeout (mkTimer 10 false 5 0) 59 in
  overflag (snd r) = true /\ count (snd r) = 49 /\ startsec (snd r) = 0.
Proof. vm_compute. repeat split. Qed.

(** C7 (amended): for a nonzero [exectimeout], a call with
    [startsec < currentsec] and the latch off advances [count] by exactly
    [currentsec - startsec] (as [unsigned int]), at 59 as well; when
    [currentsec <> 59] it also moves [startsec] to [currentsec] and leaves
    the latch off.  A call at [currentsec = 59] arms the latch and resets
    [startsec] to 0, so the latch does not stay off at 59.  Every call adds
    between 0 and 59 seconds to [count], keeps [exectimeout], and reports a
    timeout exactly when [count] reaches [exectimeout].  With
    [exectimeout = 0] the call changes nothing and reports no timeout. *)
Theorem checkExecutionTimeout_contract (t : Timer) (currentsec : Z)
    (Hstart : 0 <= startsec t) (Hsec : 0 <= currentsec <= 59)
    (Hcount : 0 <= count t < UINT_MOD) :
  let r := checkExecutionTimeout t currentsec in
  (exectimeout t = 0 -> r = (false, t)) /\
  (exectimeout t <> 0 ->
     (startsec t < currentsec -> overflag t = false ->
        count (snd r) = (count t + (currentsec - startsec t)) mod UINT_MOD /\
        (currentsec <> 59 -> startsec (snd r) = currentsec /\ overflag (snd r) = false)) /\
     (currentsec = 59 -> startsec (snd r) = 0 /\ overflag (snd r) = true) /\
     (exists d, 0 <= d <= 59 /\ count (snd r) = (count t + d) mod UINT_MOD) /\
     exectimeout (snd r) = exectimeout t /\
     fst r = (exectimeout t <=? count (snd r))).
Proof.
  destruct t as [s o e c]; simpl in *.
  unfold checkExecutionTimeout; simpl.
  split.
  - intros ->. reflexivity.
  - intros He.
    destruct (Z.eqb_spec e 0) as [|_]; [contradiction|]; simpl.
    destruct (Z.ltb_spec s currentsec) as [Hlt|Hge]; destruct o; simpl;
      destruct (Z.eqb_spec currentsec 59) as [H59|H59]; simpl.
    all: repeat match goal with
                | |- _ /\ _ => split
                | |- _ -> _ => intro
                end; try reflexivity; try lia; try discriminate.
    all: first
      [ exists (currentsec - s); split; [lia | reflexivity]
      | exists 0; split; [lia | rewrite Z.add_0_r, Z.mod_small; [reflexivity | exact Hcount]] ].
Qed.

Lemma checkExecutionTimeout_contract_witness :
  ((0 <= startsec (mkTimer 10 false 5 0) /\ 0 <= 30 <= 59 /\
    0 <= count (mkTimer 10 false 5 0) < UINT_MOD) /\
   (let r := checkExecutionTimeout (mkTimer 10 false 5 0) 30 in
    (exectimeout (mkTimer 10 false 5 0) = 0 -> r = (false, mkTimer 10 false 5 0)) /\
    (exectimeout (mkTimer 10 false 5 0) <> 0 ->
       (startsec (mkTimer 10 false 5 0) < 30 -> overflag (mkTimer 10 false 5 0) = false ->
          count (snd r) = (count (mkTimer 10 false 5 0) + (30 - startsec (mkTimer 10 false 5 0)))
                            mod UINT_MOD /\
          (30 <> 59 -> startsec (snd r) = 30 /\ overflag (snd r) = false)) /\
       (30 = 59 -> startsec (snd r) = 0 /\ overflag (snd r) = true) /\
       (exists d, 0 <= d <= 59 /\
          count (snd r) = (count (mkTimer 10 false 5 0) + d) mod UINT_MOD) /\
       exectimeout (snd r) = exectimeout (mkTimer 10 false 5 0) /\
       fst r = (exectimeout (mkTimer 10 false 5 0) <=? count (snd r))))) /\
  ((0 <= startsec (mkTimer 10 false 5 0) /\ 0 <= 59 <= 59 /\
    0 <= count (mkTimer 10 false 5 0) < UINT_MOD) /\
   (let r := checkExecutionTimeout (mkTimer 10 false 5 0) 59 in
    (exectimeout (mkTimer 10 false 5 0) = 0 -> r = (false, mkTimer 10 false 5 0)) /\
    (exectimeout (mkTimer 10 false 5 0) <> 0 ->
       (startsec (mkTimer 10 false 5 0) < 59 -> overflag (mkTimer 10 false 5 0) = false ->
          count (snd r) = (count (mkTimer 10 false 5 0) + (59 - startsec (mkTimer 10 false 5 0)))
                            mod UINT_MOD /\
          (59 <> 59 -> startsec (snd r) = 59 /\ overflag (snd r) = false)) /\
       (59 = 59 -> startsec (snd r) = 0 /\ overflag (snd r) = true) /\
       (exists d, 0 <= d <= 59 /\
          count (snd r) = (count (mkTimer 10 false 5 0) + d) mod UINT_MOD) /\
       exectimeout (snd r) = exectimeout (mkTimer 10 false 5 0) /\
       fst r = (exectimeout (mkTimer 10 false 5 0) <=? count (snd r))))).
Proof.
  split; (split; [simpl; unfold UINT_MOD; lia|]).
  - apply (checkExecutionTimeout_contract (mkTimer 10 false 5 0) 30);
      simpl; unfold UINT_MOD; lia.
  - apply (checkExecutionTimeout_contract (mkTimer 10 false 5 0) 59);
      simpl; unfold UINT_MOD; lia.
Defined.

(** ** The execution string *)

Lemma str_app_assoc (a b c : string) : a ++ (b ++ c) = (a ++ b) ++ c.
Proof. induction a as [|x a IH]; simpl; [reflexivity|now rewrite IH]. Qed.

Lemma str_app_nil_r (a : string) : a ++ "" = a.
Proof. induction a as [|x a IH]; simpl; [reflexivity|now rewrite IH]. Qed.

Lemma str_length_app (a b : string) :
  String.length (a ++ b) = (String.length a + String.length b)%nat.
Proof. induction a as [|x a IH]; simpl; [reflexivity|now rewrite IH]. Qed.

Lemma str_app_nil_l (a : string) : "" ++ a = a.
Proof. reflexivity. Qed.

Lemma appendArguments_acc (acc : string) (args : list string) :
  appendArguments acc args = acc ++ appendArguments "" args.
Proof.
  revert acc; induction args as [|a args IH]; intros acc; cbn [appendArguments].
  - now rewrite str_app_nil_r.
  - rewrite (IH (acc ++ a ++ " ")), (IH ("" ++ a ++ " ")), str_app_nil_l.
    now rewrite !str_app_assoc.
Qed.

Lemma appendEnvironment_acc (acc : string) (env : list (string * string)) :
  appendEnvironment acc env = acc ++ appendEnvironment "" env.
Proof.
  revert acc; induction env as [|[k v] env IH]; intros acc; cbn [appendEnvironment].
  - now rewrite str_app_nil_r.
  - rewrite (IH (acc ++ " export " ++ cstr k ++ "=" ++ cstr v ++ " && ")),
            (IH ("" ++ " export " ++ cstr k ++ "=" ++ cstr v ++ " && ")), str_app_nil_l.
    now rewrite !str_app_assoc.
Qed.

Lemma appendArguments_nonempty (args : list string) :
  args <> [] -> (0 < String.length (appendArguments "" args))%nat.
Proof.
  destruct args as [|a args]; [congruence|]; intros _; simpl.
  rewrite appendArguments_acc, !str_length_app; simpl; lia.
Qed.

Lemma appendEnvironment_nonempty (env : list (string * string)) :
  env <> [] -> (0 < String.length (appendEnvironment "" env))%nat.
Proof.
  destruct env as [|[k v] env]; [congruence|]; intros _; simpl.
  rewrite appendEnvironment_acc, !str_length_app; simpl; lia.
Qed.

Lemma str_eqb_empty_length (s : string) :
  String.eqb s "" = true <-> String.length s = 0%nat.
Proof.
  destruct s; simpl; split; intros H; try reflexivity; discriminate.
Qed.

(** C10: [argument] and [environment] are members that
    [createExecString] appends to and never clears (only [exec] is
    cleared).  On a freshly constructed [KAThread], with [A] the
    [" export K=V && "] fragments of the command and [B] its arguments
    each followed by a space, the first call returns [A ++ program ++ " "
    ++ B] and a second call on the same object returns
    [A ++ A ++ program ++ " " ++ B ++ B], which is strictly longer as soon
    as the command has an argument or an environment pair. *)
Theorem createExecString_second_call_doubles (command : KACommand)
    (outS errS : KAStreamReader) (pid r e : Z)
    (Hne : getArguments command <> [] \/ getEnvironment command <> []) :
  let A := appendEnvironment "" (getEnvironment command) in
  let B := appendArguments "" (getArguments command) in
  let call1 := createExecString command (KAThread_new outS errS pid r e) in
  let call2 := createExecString command (snd call1) in
  fst call1 = A ++ getProgram command ++ " " ++ B /\
  fst call2 = A ++ A ++ getProgram command ++ " " ++ B ++ B /\
  (String.length (fst call1) < String.length (fst call2))%nat.
Proof.
  intros A B call1 call2.
  assert (Hlen : (0 < String.length A + String.length B)%nat).
  { unfold A, B; destruct Hne as [H|H];
      [pose proof (appendArguments_nonempty _ H) | pose proof (appendEnvironment_nonempty _ H)];
      lia. }
  unfold call2, call1, createExecString.
  cbn [fst snd argument environment set_exec set_environment set_argument KAThread_new].
  rewrite (appendArguments_acc (appendArguments "" _)),
          (appendEnvironment_acc (appendEnvironment "" _)).
  fold A B.
  destruct (String.eqb A "") eqn:HA.
  - apply str_eqb_empty_length in HA.
    destruct A; [|discriminate]; rewrite !str_app_nil_l.
    repeat split.
    cbn [String.eqb]; rewrite !str_length_app; simpl in *; lia.
  - assert (HAA : String.eqb (A ++ A) "" = false).
    { destruct (String.eqb (A ++ A) "") eqn:E; [|reflexivity].
      apply str_eqb_empty_length in E; rewrite str_length_app in E.
      destruct A; [discriminate|simpl in E; lia]. }
    rewrite HAA.
    repeat split; try now rewrite !str_app_assoc.
    rewrite !str_length_app; simpl; lia.
Qed.

Lemma createExecString_second_call_doubles_witness :
  (["-l"] <> [] \/ ([] : list (string * string)) <> []) /\
  (let c := mkCommand "u" "t" 1 "s" "ls" ["-l"] [] "/tmp" "root" RETURN RETURN 0 in
   let A := appendEnvironment "" (getEnvironment c) in
   let B := appendArguments "" (getArguments c) in
   let call1 := createExecString c (KAThread_new (mkReader RETURN 0 0 "")
                                      (mkReader RETURN 0 0 "") 0 0 0) in
   let call2 := createExecString c (snd call1) in
   fst call1 = A ++ getProgram c ++ " " ++ B /\
   fst call2 = A ++ A ++ getProgram c ++ " " ++ B ++ B /\
   (String.length (fst call1) < String.length (fst call2))%nat).
Proof.
  split; [left; discriminate|].
  apply (createExecString_second_call_doubles
           (mkCommand "u" "t" 1 "s" "ls" ["-l"] [] "/tmp" "root" RETURN RETURN 0));
  simpl; left; discriminate.
Defined.

(** ** Messages emitted by the supervision loop *)

Definition isProgress (m : Response) : bool :=
  match m with ProgressMsg _ _ _ _ _ _ _ _ => true | _ => false end.

Definition isTimeout (m : Response) : bool :=
  match m with TimeoutMsg _ _ _ _ _ _ _ _ => true | _ => false end.

Definition isExit (m : Response) : bool :=
  match m with ExitMsg _ _ _ _ _ _ _ => true | _ => false end.

(** A Progress carries no payload for a stream whose mode is CAPTURE or NO. *)
Definition redacted (command : KACommand) (m : Response) : Prop :=
  match m with
  | ProgressMsg _ _ _ _ err out _ _ =>
      (isCaptureOrNo (getStandardOutput command) = true -> out = "") /\
      (isCaptureOrNo (getStandardError command) = true -> err = "")
  | _ => True
  end.

Definition goodMsg (command : KACommand) (m : Response) : Prop :=
  isProgress m = true /\ redacted command m.

(** [q'] is [q] followed by redacted Progress messages only. *)
Definition Ext (command : KACommand) (q q' : list Response) : Prop :=
  exists ext, q' = (q ++ ext)%list /\ Forall (goodMsg command) ext.

Lemma Ext_refl (command : KACommand) (q : list Response) : Ext command q q.
Proof. exists []. rewrite app_nil_r. split; [reflexivity|constructor]. Qed.

Lemma Ext_trans (command : KACommand) (q1 q2 q3 : list Response) :
  Ext command q1 q2 -> Ext command q2 q3 -> Ext command q1 q3.
Proof.
  intros [e1 [-> H1]] [e2 [-> H2]]. exists (e1 ++ e2)%list.
  rewrite app_assoc. split; [reflexivity|]. now apply Forall_app.
Qed.

Lemma Ext_send (command : KACommand) (q : list Response) (m : Response) :
  goodMsg command m -> Ext command q (try_send_spin q m).
Proof. intros H. exists [m]. split; [reflexivity|]. now constructor. Qed.

Lemma isReturn_not_captureOrNo (m : Mode) : isReturn m = negb (isCaptureOrNo m).
Proof. now destruct m. Qed.

(** What checkAndSend, lastCheckAndSend and the heartbeat leave alone:
    the stream readers, the flags, the pid, and [errBuff] unless it is
    cleared. *)
Definition Frame (th th' : KAThread) : Prop :=
  outputStream th' = outputStream th /\ errorStream th' = errorStream th /\
  CWDERR th' = CWDERR th /\ UIDERR th' = UIDERR th /\
  EXITSTATUS th' = EXITSTATUS th /\ errSeen th' = errSeen th /\
  processpid th' = processpid th /\
  (errBuff th' = errBuff th \/ errBuff th' = "").

Ltac simpl_thread :=
  cbn [set_outputStream set_errorStream set_outBuff set_errBuff set_responsecount
       set_CWDERR set_UIDERR set_EXITSTATUS set_ACTFLAG set_processpid set_ruid
       set_euid set_argument set_environment set_exec set_idlog set_errSeen
       outputStream errorStream outBuff errBuff responsecount CWDERR UIDERR
       EXITSTATUS ACTFLAG processpid ruid euid argument environment exec idlog
       errSeen mode selectResult readResult buffer fst snd clearBuffer
       setSelectResult] in *.

Ltac break_ifs :=
  cbv beta zeta;
  repeat match goal with
  | |- context [if ?b then _ else _] =>
      lazymatch b with
      | context [if _ then _ else _] => fail
      | _ => destruct b eqn:?
      end
  end.

Ltac frame_tac := unfold Frame; simpl; repeat split; auto.

Ltac good_tac :=
  unfold goodMsg, redacted; simpl;
  repeat match goal with
  | H : _ && _ = true |- _ => apply andb_prop in H; destruct H
  | H : isReturn _ = _ |- _ => rewrite isReturn_not_captureOrNo in H
  end;
  split; [reflexivity|];
  split; intros; try reflexivity;
  repeat match goal with
  | H : negb _ = _ |- _ => apply (f_equal negb) in H; rewrite Bool.negb_involutive in H; simpl in H
  end; try congruence; try (simpl in *; congruence).

Lemma sendProgress_good (command : KACommand) (th : KAThread) (q : list Response) :
  redacted command (progressMessage command th) ->
  Ext command q (snd (sendProgress command th q)) /\
  Frame th (fst (sendProgress command th q)).
Proof.
  intros H. split.
  - apply Ext_send. split; [reflexivity|exact H].
  - frame_tac.
Qed.

Ltac emit_tac :=
  split; [ first [ apply Ext_refl | apply Ext_send; good_tac ] | frame_tac ].

Lemma checkAndSend_good (command : KACommand) (th : KAThread) (q : list Response)
    (Hm : mode (outputStream th) = getStandardOutput command) :
  Ext command q (snd (checkAndSend command th q)) /\
  Frame th (fst (checkAndSend command th q)).
Proof.
  unfold checkAndSend, sendProgress, progressMessage, createResponseMessage.
  rewrite Hm. break_ifs; simpl; emit_tac.
Qed.

Lemma lastCheckAndSend_good (command : KACommand) (th : KAThread) (q : list Response) :
  Ext command q (snd (lastCheckAndSend command th q)) /\
  Frame th (fst (lastCheckAndSend command th q)).
Proof.
  unfold lastCheckAndSend, sendProgress, progressMessage, createResponseMessage.
  break_ifs; simpl; emit_tac.
Qed.

Lemma sendHeartbeat_good (command : KACommand) (th : KAThread) (q : list Response) :
  Ext command q (snd (sendHeartbeat command th q)) /\
  Frame th (fst (sendHeartbeat command th q)).
Proof.
  unfold sendHeartbeat, progressMessage, createResponseMessage.
  break_ifs; simpl; emit_tac.
Qed.

(** What checkAndWrite leaves alone. *)
Definition StreamFrame (th th' : KAThread) : Prop :=
  mode (outputStream th') = mode (outputStream th) /\
  mode (errorStream th') = mode (errorStream th) /\
  readResult (outputStream th') = readResult (outputStream th) /\
  readResult (errorStream th') = readResult (errorStream th) /\
  CWDERR th' = CWDERR th /\ UIDERR th' = UIDERR th /\
  processpid th' = processpid th.

Ltac use_checkAndSend :=
  match goal with
  | |- context [checkAndSend ?c ?t ?q] =>
      let HS := fresh "HS" in
      let th9 := fresh "th9" in
      let q9 := fresh "q9" in
      assert (HS : Ext c q (snd (checkAndSend c t q)) /\ Frame t (fst (checkAndSend c t q)))
        by (apply checkAndSend_good; simpl_thread; assumption);
      destruct (checkAndSend c t q) as [th9 q9];
      let HE := fresh "HE" in
      let F1 := fresh "F" in let F2 := fresh "F" in let F3 := fresh "F" in
      let F4 := fresh "F" in let F5 := fresh "F" in let F6 := fresh "F" in
      let F7 := fresh "F" in let HF := fresh "HF" in
      destruct HS as [HE [F1 [F2 [F3 [F4 [F5 [F6 [F7 HF]]]]]]]];
      simpl_thread
  end.

Ltac rewrite_frame :=
  repeat match goal with
  | H : ?f ?t = _ |- context [?f ?t] => is_var t; rewrite H
  end; simpl_thread.

Lemma checkAndWrite_good (command : KACommand) (th : KAThread) (q : list Response)
    (Hm : mode (outputStream th) = getStandardOutput command) :
  Ext command q (snd (checkAndWrite command th q)) /\
  StreamFrame th (fst (checkAndWrite command th q)).
Proof.
  unfold checkAndWrite. cbv beta zeta. simpl_thread.
  break_ifs; try use_checkAndSend; simpl_thread;
    (split; [first [assumption | apply Ext_refl]
            | unfold StreamFrame; simpl_thread; rewrite_frame; repeat split]).
Qed.

Lemma str_length_zero (s : string) : String.length s = 0%nat -> s = "".
Proof. destruct s; [reflexivity|discriminate]. Qed.

Lemma checkAndWrite_errors (command : KACommand) (th : KAThread) (q : list Response)
    (Hm : mode (outputStream th) = getStandardOutput command) :
  let th' := fst (checkAndWrite command th q) in
  let appended := errBuff th ++ buffer (errorStream th) in
  EXITSTATUS th' =
    (if (0 <? String.length appended)%nat then 1 else EXITSTATUS th) /\
  errSeen th' = errSeen th ++ buffer (errorStream th) /\
  (errBuff th' = "" \/ (0 < String.length appended)%nat).
Proof.
  unfold checkAndWrite. cbv beta zeta. simpl_thread.
  break_ifs; try use_checkAndSend; simpl_thread; rewrite_frame;
    repeat match goal with
    | H : (_ <=? _)%nat = true |- _ => apply Nat.leb_le in H
    | H : (_ || _) = true |- _ => apply orb_prop in H; destruct H
    | H : (_ && _) = true |- _ => apply andb_prop in H; destruct H
    | H : (_ <? _)%nat = true |- _ => apply Nat.ltb_lt in H
    | H : (_ <? _)%nat = false |- _ => apply Nat.ltb_ge in H
    | H : false = true |- _ => discriminate H
    end;
    (split; [try reflexivity|split; [reflexivity|]]);
    unfold MaxBuffSize in *; try (right; lia); try (left; reflexivity);
    try (left; apply str_length_zero; lia).
Qed.

(** [EXITSTATUS] records whether any stderr byte was ever appended. *)
Definition ErrInv (th : KAThread) : Prop :=
  (EXITSTATUS th = 0 /\ errSeen th = "" /\ errBuff th = "") \/
  (EXITSTATUS th = 1 /\ errSeen th <> "").

(** What no step of the loop changes. *)
Definition Keep (th th' : KAThread) : Prop :=
  mode (outputStream th') = mode (outputStream th) /\
  mode (errorStream th') = mode (errorStream th) /\
  CWDERR th' = CWDERR th /\ UIDERR th' = UIDERR th /\
  processpid th' = processpid th.

Lemma Keep_refl (th : KAThread) : Keep th th.
Proof. unfold Keep; repeat split. Qed.

Lemma Keep_trans (a b c : KAThread) : Keep a b -> Keep b c -> Keep a c.
Proof. unfold Keep; intros; intuition congruence. Qed.

Lemma Frame_Keep (th th' : KAThread) : Frame th th' -> Keep th th'.
Proof. unfold Frame, Keep; intros (H1 & H2 & H3 & H4 & _ & _ & H7 & _); rewrite H1, H2; auto. Qed.

Lemma StreamFrame_Keep (th th' : KAThread) : StreamFrame th th' -> Keep th th'.
Proof. unfold StreamFrame, Keep; intuition. Qed.

Lemma Frame_ErrInv (th th' : KAThread) : Frame th th' -> ErrInv th -> ErrInv th'.
Proof.
  unfold Frame, ErrInv; intros (_ & _ & _ & _ & -> & -> & _ & Hb) Hinv.
  destruct Hinv as [(H0 & Hs & He) | H]; [left | right; exact H].
  repeat split; auto. destruct Hb as [Hb|Hb]; congruence.
Qed.

Lemma str_app_eq_nil (a b : string) : a ++ b = "" -> a = "" /\ b = "".
Proof. destruct a, b; simpl; intros H; try discriminate; auto. Qed.

Lemma checkAndWrite_ErrInv (command : KACommand) (th : KAThread) (q : list Response)
    (Hm : mode (outputStream th) = getStandardOutput command) :
  ErrInv th -> ErrInv (fst (checkAndWrite command th q)).
Proof.
  destruct (checkAndWrite_errors command th q Hm) as (HX & HS & HB).
  cbv zeta in HX, HB.
  unfold ErrInv; rewrite HX, HS.
  intros [(H0 & Hs & He) | (H1 & Hs)].
  - rewrite He, Hs in *. rewrite !str_app_nil_l in *.
    destruct (Nat.ltb_spec 0 (String.length (buffer (errorStream th)))) as [Hlt|Hge].
    + right. split; [reflexivity|]. intros E; rewrite E in Hlt; simpl in Hlt; lia.
    + left. assert (Hb : buffer (errorStream th) = "") by (apply str_length_zero; lia).
      rewrite Hb, H0. repeat split. destruct HB as [HB|HB]; [exact HB|lia].
  - right. split.
    + destruct (0 <? _)%nat; [reflexivity|exact H1].
    + intros E; apply str_app_eq_nil in E as [E _]; contradiction.
Qed.

Lemma startReading_mode (r : KAStreamReader) (o : ReadOutcome) :
  mode (startReading r o) = mode r.
Proof. now destruct o. Qed.

Lemma heartbeatPhase_good (command : KACommand) (t : Tick) (th : KAThread)
    (q : list Response) (ht : Timer) :
  let '(th1, q1, _) := heartbeatPhase command t th q ht in
  Ext command q q1 /\ Keep th th1 /\ (ErrInv th -> ErrInv th1).
Proof.
  unfold heartbeatPhase. destruct (ACTFLAG th).
  - split; [apply Ext_refl|]. split; [unfold Keep; simpl_thread; repeat split|].
    unfold ErrInv; simpl_thread; exact (fun H => H).
  - destruct (checkExecutionTimeout ht (secHeart t)) as [[|] ht1].
    + destruct (sendHeartbeat_good command th q) as [HE HF].
      destruct (sendHeartbeat command th q) as [th' q']; simpl in *.
      split; [exact HE|]. split; [now apply Frame_Keep|]. now apply Frame_ErrInv.
    + split; [apply Ext_refl|]. split; [apply Keep_refl|exact (fun H => H)].
Qed.

Lemma readPhase_keep (t : Tick) (th : KAThread) :
  Keep th (readPhase t th) /\ (ErrInv th -> ErrInv (readPhase t th)).
Proof.
  unfold readPhase, Keep, ErrInv. cbv zeta. break_ifs; simpl_thread;
    rewrite ?startReading_mode; simpl_thread; split; auto; repeat split.
Qed.

Lemma selectPhase_keep (t : Tick) (th : KAThread) :
  Keep th (selectPhase t th) /\ (ErrInv th -> ErrInv (selectPhase t th)).
Proof. unfold selectPhase, Keep, ErrInv; simpl_thread; split; auto; repeat split. Qed.

(** The state a step continues with, whether or not the loop is left. *)
Definition stepState (r : (LoopExit * LoopState) + LoopState) : LoopState :=
  match r with inl (_, s') => s' | inr s' => s' end.

Lemma loopStep_good (command : KACommand) (t : Tick) (s : LoopState)
    (Hm : mode (outputStream (thr s)) = getStandardOutput command) :
  let s' := stepState (loopStep command t s) in
  Ext command (queue s) (queue s') /\ Keep (thr s) (thr s') /\
  (ErrInv (thr s) -> ErrInv (thr s')).
Proof.
  destruct (selectPhase_keep t (thr s)) as [K0 I0].
  unfold loopStep.
  destruct (checkExecutionTimeout (execT s) (secExec t)) as [[|] et].
  - simpl. split; [apply Ext_refl|]. split; [exact K0|exact I0].
  - pose proof (heartbeatPhase_good command t (selectPhase t (thr s)) (queue s) (heartT s)) as HB.
    destruct (heartbeatPhase command t (selectPhase t (thr s)) (queue s) (heartT s))
      as [[th1 q1] ht].
    destruct HB as (E1 & K1 & I1).
    destruct ((selOut t =? -1) || (selErr t =? -1)).
    + simpl. split; [exact E1|]. split; [eapply Keep_trans; [exact K0|exact K1]|auto].
    + destruct (readPhase_keep t th1) as [K2 I2].
      destruct ((0 <? readResult (outputStream (readPhase t th1)))
                || (0 <? readResult (errorStream (readPhase t th1)))).
      * assert (Hm4 : mode (outputStream (readPhase t th1)) = getStandardOutput command).
        { destruct K0 as [K0 _]; destruct K1 as [K1 _]; destruct K2 as [K2 _]; congruence. }
        destruct (checkAndWrite_good command (readPhase t th1) q1 Hm4) as [E3 K3].
        pose proof (checkAndWrite_ErrInv command (readPhase t th1) q1 Hm4) as I3.
        destruct (checkAndWrite command (readPhase t th1) q1) as [th5 q5]; simpl in *.
        split; [eapply Ext_trans; eassumption|].
        split; [|auto].
        eapply Keep_trans; [exact K0|]. eapply Keep_trans; [exact K1|].
        eapply Keep_trans; [exact K2|]. now apply StreamFrame_Keep.
      * simpl. split; [exact E1|].
        split; [|auto].
        eapply Keep_trans; [exact K0|]. eapply Keep_trans; [exact K1|exact K2].
Qed.

Lemma multiplex_good (command : KACommand) (ticks : list Tick) (s : LoopState)
    (e : LoopExit) (s' : LoopState)
    (Hm : mode (outputStream (thr s)) = getStandardOutput command) :
  multiplex command ticks s = Some (e, s') ->
  Ext command (queue s) (queue s') /\ Keep (thr s) (thr s') /\
  (ErrInv (thr s) -> ErrInv (thr s')).
Proof.
  revert s Hm; induction ticks as [|t ts IH]; intros s Hm H; simpl in H; [discriminate|].
  pose proof (loopStep_good command t s Hm) as G.
  destruct (loopStep command t s) as [[e0 s0]|s1]; simpl in G.
  - injection H as <- <-. exact G.
  - destruct G as (E1 & K1 & I1).
    assert (Hm1 : mode (outputStream (thr s1)) = getStandardOutput command)
      by (destruct K1 as [K1 _]; congruence).
    destruct (IH s1 Hm1 H) as (E2 & K2 & I2).
    split; [eapply Ext_trans; eassumption|].
    split; [eapply Keep_trans; eassumption|auto].
Qed.

Lemma Frame_trans (a b c : KAThread) : Frame a b -> Frame b c -> Frame a c.
Proof.
  unfold Frame; intros (A1 & A2 & A3 & A4 & A5 & A6 & A7 & A8)
    (B1 & B2 & B3 & B4 & B5 & B6 & B7 & B8).
  repeat split; try congruence.
  destruct B8 as [B8|B8]; [destruct A8|]; [left|right|right]; congruence.
Qed.

Lemma Frame_refl (th : KAThread) : Frame th th.
Proof. unfold Frame; repeat split; auto. Qed.

(** The exit code carried by an Exit response. *)
Definition exitCodeOf (m : Response) : option Z :=
  match m with ExitMsg _ _ _ _ _ _ c => Some c | _ => None end.

Lemma timeoutBranch_spec (command : KACommand) (e : LoopExit) (th : KAThread)
    (q : list Response) :
  let '(th5, q5) := timeoutBranch command e th q in
  exists ext tmo,
    q5 = (q ++ ext ++ tmo)%list /\ Forall (goodMsg command) ext /\
    (match e with
     | ExitTimeout => exists m, tmo = [m] /\ isTimeout m = true
     | _ => tmo = []
     end) /\
    Frame th th5.
Proof.
  destruct e; simpl.
  - destruct (lastCheckAndSend_good command th q) as [[ext [E1 G1]] F1].
    destruct (lastCheckAndSend command th q) as [th' q']; simpl in *.
    eexists ext, _. split; [unfold try_send_spin; rewrite E1, app_assoc; reflexivity|].
    split; [exact G1|]. split; [eexists; split; reflexivity|exact F1].
  - exists [], []. rewrite !app_nil_r. split; [reflexivity|].
    split; [constructor|]. split; [reflexivity|apply Frame_refl].
  - exists [], []. rewrite !app_nil_r. split; [reflexivity|].
    split; [constructor|]. split; [reflexivity|apply Frame_refl].
Qed.

Lemma exitBranch_spec (command : KACommand) (th : KAThread) (q : list Response) :
  let o := exitBranch command th q in
  ret o = 1 /\
  exists ext ex,
    sent o = (q ++ ext ++ ex)%list /\ Forall (goodMsg command) ext /\
    (if (readResult (errorStream th) =? 0) && (readResult (outputStream th) =? 0)
     then exists m, ex = [m] /\ isExit m = true /\ exitCodeOf m = Some (exitcode th)
     else ex = []) /\
    Frame th (final o).
Proof.
  unfold exitBranch.
  destruct ((readResult (errorStream th) =? 0) && (readResult (outputStream th) =? 0)).
  - destruct (lastCheckAndSend_good command th q) as [[ext [E1 G1]] F1].
    destruct (lastCheckAndSend command th q) as [th' q']; simpl in *.
    split; [reflexivity|]. eexists ext, _.
    split; [unfold try_send_spin; rewrite E1, app_assoc; reflexivity|].
    split; [exact G1|]. split; [eexists; split; [reflexivity|split; reflexivity]|exact F1].
  - simpl. split; [reflexivity|]. exists [], []. rewrite !app_nil_r.
    split; [reflexivity|]. split; [constructor|]. split; [reflexivity|apply Frame_refl].
Qed.

(** The synthetic Progress responses of the parent-side checks. *)
Definition syntheticMsgs (command : KACommand) (ppid : Z) (chdir_ok : bool)
    (lookup : option (Z * Z)) : list Response :=
  ((if chdir_ok then []
    else [createResponseMessage (getUuid command) ppid
            (getRequestSequenceNumber command) 1
            "Working Directory Does Not Exist on System" ""
            (getSource command) (getTaskUuid command)]) ++
   (match lookup with
    | Some _ => []
    | None => [createResponseMessage (getUuid command) ppid
                 (getRequestSequenceNumber command) 1
                 "User Does Not Exist on System" ""
                 (getSource command) (getTaskUuid command)]
    end))%list.

Definition idEventOf (lookup : option (Z * Z)) (th : KAThread) : IdEvent :=
  match lookup with Some (_, e) => DoSetuid e | None => UndoSetuid (ruid th) end.

Definition isNone {A : Type} (o : option A) : bool :=
  match o with None => true | Some _ => false end.

Lemma preChecks_spec (command : KACommand) (ppid : Z) (chdir_ok : bool)
    (lookup : option (Z * Z)) (th : KAThread) (q : list Response) :
  let '(th4, q4) := preChecks command ppid chdir_ok lookup th q in
  q4 = (q ++ syntheticMsgs command ppid chdir_ok lookup)%list /\
  outputStream th4 = outputStream th /\ errorStream th4 = errorStream th /\
  CWDERR th4 = (CWDERR th || negb chdir_ok) /\
  UIDERR th4 = (UIDERR th || isNone lookup) /\
  EXITSTATUS th4 = EXITSTATUS th /\ errSeen th4 = errSeen th /\
  errBuff th4 = errBuff th /\ processpid th4 = ppid /\
  idlog th4 = (idlog th ++ [idEventOf lookup th])%list.
Proof.
  unfold preChecks, syntheticMsgs, checkCWD, checkUID, idEventOf, try_send_spin.
  destruct chdir_ok, lookup as [[r e]|]; simpl; simpl_thread;
    rewrite ?orb_false_r, ?orb_true_r, ?app_nil_r;
    repeat split; rewrite <- ?app_assoc; reflexivity.
Qed.

Lemma afterLoop_shape (command : KACommand) (e : LoopExit) (th : KAThread)
    (q : list Response) :
  let o := afterLoop command e th q in
  ret o = 1 /\ Frame th (final o) /\
  exists ext1 tmo ext2 ex,
    sent o = (q ++ ext1 ++ tmo ++ ext2 ++ ex)%list /\
    Forall (goodMsg command) ext1 /\ Forall (goodMsg command) ext2 /\
    (tmo = [] \/ exists m, tmo = [m] /\ isTimeout m = true) /\
    (if (readResult (errorStream (final o)) =? 0)
        && (readResult (outputStream (final o)) =? 0)
     then exists m, ex = [m] /\ isExit m = true /\
                    exitCodeOf m = Some (exitcode (final o))
     else ex = []).
Proof.
  unfold afterLoop.
  pose proof (timeoutBranch_spec command e th q) as T.
  destruct (timeoutBranch command e th q) as [th5 q5].
  destruct T as (ext1 & tmo & Eq1 & G1 & Tm & F1).
  destruct (exitBranch_spec command th5 q5) as (R & ext2 & ex & Eq2 & G2 & Ex & F2).
  split; [exact R|]. split; [eapply Frame_trans; eassumption|].
  exists ext1, tmo, ext2, ex.
  split; [rewrite Eq2, Eq1; rewrite <- !app_assoc; reflexivity|].
  split; [exact G1|]. split; [exact G2|].
  split; [destruct e; auto|].
  destruct F2 as (S1 & S2 & S3 & S4 & S5 & _).
  unfold exitcode. rewrite S1, S2, S3, S4, S5. exact Ex.
Qed.

(** The responses of one run of [optionReadSend]: the synthetic Progress
    responses, redacted Progress responses, at most one Timeout, more
    redacted Progress responses, and at most one Exit, last. *)
Lemma optionReadSend_shape (command : KACommand) (ppid : Z) (chdir_ok : bool)
    (lookup : option (Z * Z)) (sec0 secHeart0 : Z) (ticks : list Tick)
    (th : KAThread) (q : list Response) (o : Outcome)
    (Hm : mode (outputStream th) = getStandardOutput command)
    (H : optionReadSend command ppid chdir_ok lookup sec0 secHeart0 ticks th q = Some o) :
  CWDERR (final o) = (CWDERR th || negb chdir_ok) /\
  UIDERR (final o) = (UIDERR th || isNone lookup) /\
  (ErrInv th -> ErrInv (final o)) /\
  exists ext1 tmo ext2 ex,
    sent o = (q ++ syntheticMsgs command ppid chdir_ok lookup
                ++ ext1 ++ tmo ++ ext2 ++ ex)%list /\
    Forall (goodMsg command) ext1 /\ Forall (goodMsg command) ext2 /\
    (tmo = [] \/ exists m, tmo = [m] /\ isTimeout m = true) /\
    ((ret o = -1 /\ tmo = [] /\ ext2 = [] /\ ex = []) \/
     (ret o = 1 /\
      if (readResult (errorStream (final o)) =? 0)
         && (readResult (outputStream (final o)) =? 0)
      then exists m, ex = [m] /\ isExit m = true /\
                     exitCodeOf m = Some (exitcode (final o))
      else ex = [])).
Proof.
  unfold optionReadSend in H.
  pose proof (preChecks_spec command ppid chdir_ok lookup th q) as P.
  destruct (preChecks command ppid chdir_ok lookup th q) as [th4 q4].
  destruct P as (Pq & Po & Pe & Pc & Pu & Px & Ps & Pb & _).
  assert (Hm4 : mode (outputStream th4) = getStandardOutput command) by congruence.
  assert (I4 : ErrInv th -> ErrInv th4) by (unfold ErrInv; rewrite Px, Ps, Pb; auto).
  destruct (multiplex command ticks (mkLoop th4 q4 (mkTimer sec0 false (getTimeout command) 0)
              (mkTimer secHeart0 false 30 0))) as [[e s]|] eqn:M; [|discriminate].
  destruct (multiplex_good command ticks (mkLoop th4 q4 (mkTimer sec0 false (getTimeout command) 0) (mkTimer secHeart0 false 30 0)) e s Hm4 M) as (E1 & K1 & I1); simpl in E1, K1, I1.
  destruct E1 as [ext0 [Eq0 G0]].
  destruct K1 as (_ & _ & KC & KU & _).
  cbn [thr queue] in Eq0, KC, KU, I1.
  destruct e.
  2: { injection H as <-; simpl.
       split; [congruence|]. split; [congruence|]. split; [auto|].
       exists ext0, [], [], []. rewrite Eq0, Pq, <- !app_assoc, !app_nil_r.
       split; [reflexivity|]. split; [exact G0|]. split; [constructor|].
       split; [left; reflexivity|]. left; repeat split. }
  all: injection H as <-;
       match goal with |- context [afterLoop _ ?e _ _] =>
         destruct (afterLoop_shape command e (thr s) (queue s))
         as (R & F & ext1 & tmo & ext2 & ex & Eq1 & G1 & G2 & Tm & Ex) end;
       destruct F as (_ & _ & FC & FU & FX & FS & _ & FB);
       (split; [congruence|]); (split; [congruence|]);
       (split; [intros HI; specialize (I1 (I4 HI)); revert I1; unfold ErrInv;
                rewrite FX, FS; intuition congruence|]);
       exists (ext0 ++ ext1)%list, tmo, ext2, ex;
       (split; [rewrite Eq1, Eq0, Pq; rewrite <- !app_assoc; reflexivity|]);
       (split; [now apply Forall_app|]); (split; [exact G2|]);
       (split; [exact Tm|]); right; split; [exact R|exact Ex].
Qed.

(** ** The identity calls of the parent: nothing after the checks calls
    [doSetuid] or [undoSetuid]. *)

Lemma lastCheckAndSend_idlog (command : KACommand) (th : KAThread) (q : list Response) :
  idlog (fst (lastCheckAndSend command th q)) = idlog th.
Proof. unfold lastCheckAndSend, sendProgress. break_ifs; simpl_thread; reflexivity. Qed.

Lemma checkAndWrite_idlog (command : KACommand) (th : KAThread) (q : list Response) :
  idlog (fst (checkAndWrite command th q)) = idlog th.
Proof.
  unfold checkAndWrite, checkAndSend, sendProgress. break_ifs; simpl_thread; reflexivity.
Qed.

Lemma loopStep_idlog (command : KACommand) (t : Tick) (s : LoopState) :
  idlog (thr (stepState (loopStep command t s))) = idlog (thr s).
Proof.
  unfold loopStep.
  destruct (checkExecutionTimeout (execT s) (secExec t)) as [[|] et]; [reflexivity|].
  assert (HB : let '(th1, _, _) := heartbeatPhase command t (selectPhase t (thr s))
                                     (queue s) (heartT s) in idlog th1 = idlog (thr s)).
  { unfold heartbeatPhase, sendHeartbeat.
    destruct (ACTFLAG (selectPhase t (thr s))); [reflexivity|].
    destruct (checkExecutionTimeout (heartT s) (secHeart t)) as [[|] ht1]; [|reflexivity].
    break_ifs; simpl_thread; reflexivity. }
  destruct (heartbeatPhase command t (selectPhase t (thr s)) (queue s) (heartT s))
    as [[th1 q1] ht].
  assert (HR : idlog (readPhase t th1) = idlog th1)
    by (unfold readPhase; break_ifs; simpl_thread; reflexivity).
  destruct ((selOut t =? -1) || (selErr t =? -1)); [exact HB|].
  pose proof (checkAndWrite_idlog command (readPhase t th1) q1) as HW.
  destruct ((0 <? readResult (outputStream (readPhase t th1)))
            || (0 <? readResult (errorStream (readPhase t th1)))).
  - destruct (checkAndWrite command (readPhase t th1) q1) as [th5 q5].
    simpl in *. congruence.
  - simpl. congruence.
Qed.

Lemma multiplex_idlog (command : KACommand) (ticks : list Tick) (s : LoopState)
    (e : LoopExit) (s' : LoopState) :
  multiplex command ticks s = Some (e, s') -> idlog (thr s') = idlog (thr s).
Proof.
  revert s; induction ticks as [|t ts IH]; intros s H; simpl in H; [discriminate|].
  pose proof (loopStep_idlog command t s) as G.
  destruct (loopStep command t s) as [[e0 s0]|s1]; simpl in G.
  - injection H as <- <-. exact G.
  - rewrite (IH s1 H). exact G.
Qed.

Lemma afterLoop_idlog (command : KACommand) (e : LoopExit) (th : KAThread)
    (q : list Response) :
  idlog (final (afterLoop command e th q)) = idlog th.
Proof.
  unfold afterLoop.
  assert (T : idlog (fst (timeoutBranch command e th q)) = idlog th).
  { destruct e; simpl; [|reflexivity..].
    pose proof (lastCheckAndSend_idlog command th q) as L.
    destruct (lastCheckAndSend command th q) as [th' q']; exact L. }
  destruct (timeoutBranch command e th q) as [th5 q5]; simpl in T.
  unfold exitBranch. destruct (_ && _); [|exact T]. cbv zeta.
  pose proof (lastCheckAndSend_idlog command th5 q5) as L.
  destruct (lastCheckAndSend command th5 q5) as [th6 q6]; simpl in *. congruence.
Qed.

(** ** Counting the responses of a run *)

Definition countBy (f : Response -> bool) (l : list Response) : nat :=
  length (filter f l).

Lemma countBy_app (f : Response -> bool) (a b : list Response) :
  countBy f (a ++ b) = (countBy f a + countBy f b)%nat.
Proof. unfold countBy. now rewrite filter_app, length_app. Qed.

Lemma countBy_good (command : KACommand) (l : list Response) :
  Forall (goodMsg command) l ->
  countBy isTimeout l = 0%nat /\ countBy isExit l = 0%nat.
Proof.
  induction 1 as [|m l [Hp _] _ [IH1 IH2]]; [split; reflexivity|].
  unfold countBy in *; destruct m; simpl in *; try discriminate; auto.
Qed.

Lemma countBy_synthetic (command : KACommand) (ppid : Z) (chdir_ok : bool)
    (lookup : option (Z * Z)) :
  countBy isTimeout (syntheticMsgs command ppid chdir_ok lookup) = 0%nat /\
  countBy isExit (syntheticMsgs command ppid chdir_ok lookup) = 0%nat.
Proof. destruct chdir_ok, lookup as [[]|]; split; reflexivity. Qed.

Lemma countBy_tmo (tmo : list Response) :
  (tmo = [] \/ exists m, tmo = [m] /\ isTimeout m = true) ->
  (countBy isTimeout tmo <= 1)%nat /\ countBy isExit tmo = 0%nat.
Proof.
  unfold countBy; intros [->|[m [-> Hm]]]; [split; simpl; lia|].
  destruct m; simpl in *; try discriminate; split; lia.
Qed.

(** Where an Exit response of a run can be: it is the one after the loop. *)
Lemma exit_in_run (command : KACommand) (ppid : Z) (chdir_ok : bool)
    (lookup : option (Z * Z)) (ext1 tmo ext2 ex : list Response) (m : Response) :
  Forall (goodMsg command) ext1 -> Forall (goodMsg command) ext2 ->
  (tmo = [] \/ exists m', tmo = [m'] /\ isTimeout m' = true) ->
  isExit m = true ->
  In m (syntheticMsgs command ppid chdir_ok lookup ++ ext1 ++ tmo ++ ext2 ++ ex)%list ->
  In m ex.
Proof.
  intros G1 G2 Tm Hx Hin.
  assert (NP : forall l, Forall (goodMsg command) l -> ~ In m l).
  { intros l G Hl. rewrite Forall_forall in G. destruct (G m Hl) as [Hp _].
    destruct m; discriminate. }
  rewrite !in_app_iff in Hin.
  destruct Hin as [Hs|[H1|[Ht|[H2|He]]]]; auto.
  - exfalso. unfold syntheticMsgs, createResponseMessage in Hs.
    destruct chdir_ok, lookup as [[]|]; simpl in Hs;
      repeat (destruct Hs as [Hs|Hs]; [subst m; discriminate|]); contradiction.
  - exfalso; exact (NP _ G1 H1).
  - exfalso. destruct Tm as [->|[m' [-> Hm']]]; [contradiction|].
    destruct Ht as [->|[]]. destruct m; discriminate.
  - exfalso; exact (NP _ G2 H2).
Qed.

Lemma heartbeatPhase_streams (command : KACommand) (t : Tick) (th : KAThread)
    (q : list Response) (ht : Timer) :
  let '(th1, _, _) := heartbeatPhase command t th q ht in
  outputStream th1 = outputStream th /\ errorStream th1 = errorStream th.
Proof.
  unfold heartbeatPhase, sendHeartbeat.
  destruct (ACTFLAG th); [split; reflexivity|].
  destruct (checkExecutionTimeout ht (secHeart t)) as [[|] ht1]; [|split; reflexivity].
  break_ifs; simpl_thread; split; reflexivity.
Qed.

Lemma checkAndWrite_reads (command : KACommand) (th : KAThread) (q : list Response) :
  readResult (outputStream (fst (checkAndWrite command th q))) = readResult (outputStream th) /\
  readResult (errorStream (fst (checkAndWrite command th q))) = readResult (errorStream th).
Proof.
  unfold checkAndWrite, checkAndSend, sendProgress. break_ifs; simpl_thread; split; reflexivity.
Qed.

(** The read results an iteration leaves: unchanged when the execution
    timer fires, none positive when the loop ends at the reads, and one
    positive when the loop goes on. *)
Lemma loopStep_reads (command : KACommand) (t : Tick) (s : LoopState) :
  match loopStep command t s with
  | inl (ExitTimeout, s') =>
      readResult (outputStream (thr s')) = readResult (outputStream (thr s)) /\
      readResult (errorStream (thr s')) = readResult (errorStream (thr s))
  | inl (ExitEOF, s') =>
      readResult (outputStream (thr s')) <= 0 /\ readResult (errorStream (thr s')) <= 0
  | inl (ExitSelectError, _) => True
  | inr s' => 0 < readResult (outputStream (thr s')) \/ 0 < readResult (errorStream (thr s'))
  end.
Proof.
  unfold loopStep.
  destruct (checkExecutionTimeout (execT s) (secExec t)) as [[|] et].
  - cbn [thr]. unfold selectPhase. simpl_thread. cbn [readResult setSelectResult].
    split; reflexivity.
  - pose proof (heartbeatPhase_streams command t (selectPhase t (thr s)) (queue s) (heartT s))
      as HB.
    destruct (heartbeatPhase command t (selectPhase t (thr s)) (queue s) (heartT s))
      as [[th1 q1] ht].
    destruct ((selOut t =? -1) || (selErr t =? -1)); [exact I|].
    destruct ((0 <? readResult (outputStream (readPhase t th1)))
              || (0 <? readResult (errorStream (readPhase t th1)))) eqn:Hr.
    + pose proof (checkAndWrite_reads command (readPhase t th1) q1) as [W1 W2].
      destruct (checkAndWrite command (readPhase t th1) q1) as [th5 q5]; cbn [thr fst] in *.
      rewrite W1, W2. apply orb_true_iff in Hr. rewrite !Z.ltb_lt in Hr. exact Hr.
    + cbn [thr]. apply orb_false_iff in Hr. rewrite !Z.ltb_ge in Hr. exact Hr.
Qed.

Lemma multiplex_reads (command : KACommand) (ticks : list Tick) (s : LoopState)
    (e : LoopExit) (s' : LoopState) :
  multiplex command ticks s = Some (e, s') ->
  (e = ExitEOF ->
     readResult (outputStream (thr s')) <= 0 /\ readResult (errorStream (thr s')) <= 0) /\
  (e = ExitTimeout ->
     (readResult (outputStream (thr s')) = readResult (outputStream (thr s)) /\
      readResult (errorStream (thr s')) = readResult (errorStream (thr s))) \/
     0 < readResult (outputStream (thr s')) \/ 0 < readResult (errorStream (thr s'))).
Proof.
  revert s; induction ticks as [|t ts IH]; intros s H; cbn [multiplex] in H; [discriminate|].
  pose proof (loopStep_reads command t s) as R.
  destruct (loopStep command t s) as [[e0 s0]|s1].
  - injection H as <- <-.
    destruct e0; (split; intros Ee; [try discriminate Ee|try discriminate Ee]); auto.
  - destruct (IH s1 H) as [I1 I2]. split; [exact I1|].
    intros Ee. destruct (I2 Ee) as [[-> ->]|P]; auto.
Qed.

(** The Timeouts and the read results of what follows the loop. *)
Lemma afterLoop_terminal (command : KACommand) (e : LoopExit) (th : KAThread)
    (q : list Response) :
  let o := afterLoop command e th q in
  countBy isTimeout (sent o) =
    (countBy isTimeout q + match e with ExitTimeout => 1 | _ => 0 end)%nat /\
  readResult (outputStream (final o)) = readResult (outputStream th) /\
  readResult (errorStream (final o)) = readResult (errorStream th).
Proof.
  unfold afterLoop.
  pose proof (timeoutBranch_spec command e th q) as T.
  destruct (timeoutBranch command e th q) as [th5 q5].
  destruct T as (ext1 & tmo & Eq1 & G1 & Tm & F1).
  destruct (exitBranch_spec command th5 q5) as (_ & ext2 & ex & Eq2 & G2 & Ex & F2).
  destruct F1 as (O1 & E1 & _). destruct F2 as (O2 & E2 & _).
  rewrite O2, E2, O1, E1. split; [|split; reflexivity].
  rewrite Eq2, Eq1, !countBy_app.
  destruct (countBy_good command ext1 G1) as [A1 _].
  destruct (countBy_good command ext2 G2) as [B1 _].
  rewrite A1, B1.
  assert (countBy isTimeout ex = 0%nat).
  { destruct (_ && _); [destruct Ex as (m & -> & Hx & _)|subst ex]; unfold countBy;
      [destruct m; try discriminate; reflexivity|reflexivity]. }
  destruct e.
  - destruct Tm as (m & -> & Hm). destruct m; try discriminate Hm. cbn. lia.
  - subst tmo. cbn. lia.
  - subst tmo. cbn. lia.
Qed.

(** A run that returns 1 sent a Timeout exactly when the execution timer
    ended the loop; without a Timeout no read result is positive at the
    end, and with one the read results are those the run started with or
    one of them is positive. *)
Lemma optionReadSend_reads (command : KACommand) (ppid : Z) (chdir_ok : bool)
    (lookup : option (Z * Z)) (sec0 secHeart0 : Z) (ticks : list Tick)
    (th : KAThread) (q : list Response) (o : Outcome)
    (Hm : mode (outputStream th) = getStandardOutput command)
    (H : optionReadSend command ppid chdir_ok lookup sec0 secHeart0 ticks th q = Some o) :
  ret o = 1 ->
  (countBy isTimeout (sent o) = countBy isTimeout q ->
     readResult (outputStream (final o)) <= 0 /\ readResult (errorStream (final o)) <= 0) /\
  (countBy isTimeout (sent o) = S (countBy isTimeout q) ->
     (readResult (outputStream (final o)) = readResult (outputStream th) /\
      readResult (errorStream (final o)) = readResult (errorStream th)) \/
     0 < readResult (outputStream (final o)) \/ 0 < readResult (errorStream (final o))).
Proof.
  unfold optionReadSend in H.
  pose proof (preChecks_spec command ppid chdir_ok lookup th q) as P.
  destruct (preChecks command ppid chdir_ok lookup th q) as [th4 q4].
  destruct P as (Pq & Po & Pe & _).
  assert (Hm4 : mode (outputStream th4) = getStandardOutput command) by congruence.
  set (s0 := mkLoop th4 q4 (mkTimer sec0 false (getTimeout command) 0)
               (mkTimer secHeart0 false 30 0)) in H.
  destruct (multiplex command ticks s0) as [[e s]|] eqn:M; [|discriminate].
  destruct (multiplex_good command ticks s0 e s Hm4 M) as ([ext0 [Eq0 G0]] & _).
  destruct (multiplex_reads command ticks s0 e s M) as [RE RT].
  cbn [thr queue s0] in Eq0, RE, RT.
  destruct (countBy_good command ext0 G0) as [C0 _].
  destruct (countBy_synthetic command ppid chdir_ok lookup) as [CS _].
  assert (Cq : countBy isTimeout (queue s) = countBy isTimeout q)
    by (rewrite Eq0, Pq, !countBy_app, C0, CS; lia).
  destruct e.
  - injection H as <-.
    destruct (afterLoop_terminal command ExitTimeout (thr s) (queue s)) as (T & O & E).
    intros _. rewrite T, Cq, O, E, <- Po, <- Pe. split; [lia|].
    intros _. apply RT. reflexivity.
  - injection H as <-. cbn [ret]. lia.
  - injection H as <-.
    destruct (afterLoop_terminal command ExitEOF (thr s) (queue s)) as (T & O & E).
    intros _. rewrite T, Cq, O, E. split; [intros _; apply RE; reflexivity|lia].
Qed.

(** ** Terminal responses *)

(** A command with both streams returned, used by the concrete runs. *)
Definition sampleCommand (runAs : string) (out err : Mode) : KACommand :=
  mkCommand "u1" "t1" 7 "src" "echo" [] [] "/tmp" runAs out err 0.

(** A fresh [KAThread] whose readers have the given modes and no data. *)
Definition sampleThread (out err : Mode) : KAThread :=
  KAThread_new (mkReader out 0 0 "") (mkReader err 0 0 "") 0 1000 1000.

(** A command like [sampleCommand] with an execution timeout of one
    second. *)
Definition sampleTimedCommand : KACommand :=
  mkCommand "u1" "t1" 7 "src" "echo" [] [] "/tmp" "root" RETURN RETURN 1.

(** C2 (counterexample): three runs from a fresh [KAThread].  When
    [select] fails on the output pipe in the first iteration,
    [optionReadSend] returns -1 and sends no Timeout and no Exit.  When the
    first [read] of the output pipe fails, it returns 1 and again sends
    neither.  When the execution timer fires in the first iteration, while
    both readers still hold the read result 0 they start with, the Timeout
    is followed by an Exit. *)
Lemma optionReadSend_select_error_no_terminal :
  (option_map (fun o => (ret o, sent o))
     (optionReadSend (sampleCommand "root" RETURN RETURN) 42 true (Some (0, 0)) 5 5
        [mkTick (-1) 1 (ReadData "") (ReadData "") 5 6 6]
        (sampleThread RETURN RETURN) []) = Some (-1, [])) /\
  (option_map (fun o => (ret o, sent o))
     (optionReadSend (sampleCommand "root" RETURN RETURN) 42 true (Some (0, 0)) 5 5
        [mkTick 1 1 ReadError (ReadData "") 5 6 6]
        (sampleThread RETURN RETURN) []) = Some (1, [])) /\
  (option_map (fun o => (ret o, sent o))
     (optionReadSend sampleTimedCommand 42 true (Some (0, 0)) 5 5
        [mkTick 1 1 (ReadData "") (ReadData "") 6 6 6]
        (sampleThread RETURN RETURN) []) =
   Some (1, [TimeoutMsg "u1" 42 7 1 "" "" "src" "t1"; ExitMsg "u1" 42 7 1 "src" "t1" 0])).
Proof. vm_compute. repeat split. Qed.

(** The counts of terminal responses of a run of [optionReadSend]. *)
Lemma terminal_responses_counts (command : KACommand) (ppid : Z)
    (chdir_ok : bool) (lookup : option (Z * Z)) (sec0 secHeart0 : Z)
    (ticks : list Tick) (th : KAThread) (o : Outcome)
    (Hm : mode (outputStream th) = getStandardOutput command)
    (H : optionReadSend command ppid chdir_ok lookup sec0 secHeart0 ticks th [] = Some o) :
  (ret o = -1 /\ countBy isTimeout (sent o) = 0%nat /\ countBy isExit (sent o) = 0%nat) \/
  (ret o = 1 /\ (countBy isTimeout (sent o) <= 1)%nat /\
   countBy isExit (sent o) =
     (if (readResult (errorStream (final o)) =? 0)
         && (readResult (outputStream (final o)) =? 0) then 1%nat else 0%nat) /\
   (countBy isExit (sent o) = 1%nat ->
      exists pre m, sent o = (pre ++ [m])%list /\ isExit m = true /\
                    countBy isExit pre = 0%nat)).
Proof.
  destruct (optionReadSend_shape command ppid chdir_ok lookup sec0 secHeart0 ticks th []
              o Hm H) as (_ & _ & _ & ext1 & tmo & ext2 & ex & Eq & G1 & G2 & Tm & R).
  destruct (countBy_synthetic command ppid chdir_ok lookup) as [S1 S2].
  destruct (countBy_good command ext1 G1) as [A1 A2].
  destruct (countBy_good command ext2 G2) as [B1 B2].
  destruct (countBy_tmo tmo Tm) as [T1 T2].
  rewrite Eq. simpl app. rewrite !countBy_app, S1, S2, A1, A2, B1, B2, T2.
  destruct R as [(R & -> & -> & ->) | (R & Ex)].
  - left. split; [exact R|]. simpl. split; reflexivity.
  - right. split; [exact R|]. split.
    + assert (countBy isTimeout ex = 0%nat).
      { destruct (_ && _); [destruct Ex as (m & -> & Hx & _)|subst ex]; unfold countBy;
          [destruct m; simpl in *; try discriminate|]; reflexivity. }
      lia.
    + destruct (_ && _).
      * destruct Ex as (m & -> & Hx & _).
        assert (Hc : countBy isExit [m] = 1%nat) by (unfold countBy; simpl; rewrite Hx; reflexivity).
        rewrite Hc.
        split; [reflexivity|]. intros _.
        exists (syntheticMsgs command ppid chdir_ok lookup ++ ext1 ++ tmo ++ ext2)%list, m.
        split; [rewrite <- !app_assoc; reflexivity|]. split; [exact Hx|].
        rewrite !countBy_app, S2, A2, B2, T2. reflexivity.
      * subst ex. split; [reflexivity|]. intros Hc. discriminate Hc.
Qed.

(** C2 (amended): a run of [optionReadSend] either returns -1 after a
    [select] error, having sent no Timeout and no Exit, or returns 1.  Then
    it has sent at most one Timeout, and one Exit exactly when both last
    read results are 0; that Exit is the last response.  A run without a
    Timeout ends with no read result positive, so when it sends no Exit one
    read result is negative: a [read] error.  A run that sends both a
    Timeout and an Exit started with both read results 0. *)
Theorem optionReadSend_terminal_responses (command : KACommand) (ppid : Z)
    (chdir_ok : bool) (lookup : option (Z * Z)) (sec0 secHeart0 : Z)
    (ticks : list Tick) (th : KAThread) (o : Outcome)
    (Hm : mode (outputStream th) = getStandardOutput command)
    (H : optionReadSend command ppid chdir_ok lookup sec0 secHeart0 ticks th [] = Some o) :
  (ret o = -1 /\ countBy isTimeout (sent o) = 0%nat /\ countBy isExit (sent o) = 0%nat) \/
  (ret o = 1 /\ (countBy isTimeout (sent o) <= 1)%nat /\
   countBy isExit (sent o) =
     (if (readResult (errorStream (final o)) =? 0)
         && (readResult (outputStream (final o)) =? 0) then 1%nat else 0%nat) /\
   (countBy isExit (sent o) = 1%nat ->
      exists pre m, sent o = (pre ++ [m])%list /\ isExit m = true /\
                    countBy isExit pre = 0%nat) /\
   (countBy isTimeout (sent o) = 0%nat ->
      readResult (outputStream (final o)) <= 0 /\ readResult (errorStream (final o)) <= 0) /\
   (countBy isTimeout (sent o) = 1%nat -> countBy isExit (sent o) = 1%nat ->
      readResult (outputStream th) = 0 /\ readResult (errorStream th) = 0)).
Proof.
  destruct (terminal_responses_counts command ppid chdir_ok lookup sec0 secHeart0 ticks th o
              Hm H) as [L|(R & T & X & L)]; [left; exact L|right].
  pose proof (optionReadSend_reads command ppid chdir_ok lookup sec0 secHeart0 ticks th []
                o Hm H R) as [N Y].
  cbn [countBy filter length] in N, Y.
  split; [exact R|]. split; [exact T|]. split; [exact X|]. split; [exact L|].
  split; [exact N|].
  intros H1 H2. rewrite H2 in X.
  destruct (readResult (errorStream (final o)) =? 0) eqn:E1; [|discriminate].
  destruct (readResult (outputStream (final o)) =? 0) eqn:E2; [|discriminate].
  apply Z.eqb_eq in E1, E2.
  destruct (Y H1) as [[A B]|[A|A]]; lia.
Qed.

Lemma optionReadSend_terminal_responses_witness :
  exists o,
    optionReadSend sampleTimedCommand 42 true (Some (0, 0)) 5 5
      [mkTick 1 1 (ReadData "") (ReadData "") 6 6 6] (sampleThread RETURN RETURN) []
      = Some o /\
    ((ret o = -1 /\ countBy isTimeout (sent o) = 0%nat /\ countBy isExit (sent o) = 0%nat) \/
     (ret o = 1 /\ (countBy isTimeout (sent o) <= 1)%nat /\
      countBy isExit (sent o) =
        (if (readResult (errorStream (final o)) =? 0)
            && (readResult (outputStream (final o)) =? 0) then 1%nat else 0%nat) /\
      (countBy isExit (sent o) = 1%nat ->
         exists pre m, sent o = (pre ++ [m])%list /\ isExit m = true /\
                       countBy isExit pre = 0%nat) /\
      (countBy isTimeout (sent o) = 0%nat ->
         readResult (outputStream (final o)) <= 0 /\ readResult (errorStream (final o)) <= 0) /\
      (countBy isTimeout (sent o) = 1%nat -> countBy isExit (sent o) = 1%nat ->
         readResult (outputStream (sampleThread RETURN RETURN)) = 0 /\
         readResult (errorStream (sampleThread RETURN RETURN)) = 0))).
Proof.
  eexists. split; [vm_compute; reflexivity|].
  apply (optionReadSend_terminal_responses sampleTimedCommand 42 true
           (Some (0, 0)) 5 5 [mkTick 1 1 (ReadData "") (ReadData "") 6 6 6]
           (sampleThread RETURN RETURN)); vm_compute; reflexivity.
Defined.

(** The exit code of the Exit response of a run that starts from a fresh
    [KAThread]. *)
Lemma exit_code_of_run (command : KACommand) (ppid : Z) (chdir_ok : bool)
    (lookup : option (Z * Z)) (sec0 secHeart0 : Z) (ticks : list Tick)
    (outS errS : KAStreamReader) (pid r0 e0 : Z) (o : Outcome) (m : Response)
    (Hm : mode outS = getStandardOutput command)
    (H : optionReadSend command ppid chdir_ok lookup sec0 secHeart0 ticks
           (KAThread_new outS errS pid r0 e0) [] = Some o)
    (Hin : In m (sent o)) (Hx : isExit m = true) :
  exitCodeOf m = Some (exitcode (final o)) /\
  CWDERR (final o) = negb chdir_ok /\ UIDERR (final o) = isNone lookup /\
  ErrInv (final o).
Proof.
  destruct (optionReadSend_shape command ppid chdir_ok lookup sec0 secHeart0 ticks
              (KAThread_new outS errS pid r0 e0) [] o Hm H) as (HC & HU & HI & ext1 & tmo & ext2 & ex & Eq & G1 & G2 & Tm & R).
  simpl in HC, HU. split; [|split; [exact HC|split; [exact HU|]]].
  - rewrite Eq in Hin. simpl app in Hin.
    pose proof (exit_in_run command ppid chdir_ok lookup ext1 tmo ext2 ex m G1 G2 Tm Hx Hin)
      as Hex.
    destruct R as [(_ & _ & _ & ->) | (_ & Ex)]; [destruct Hex|].
    destruct (_ && _); [|subst ex; destruct Hex].
    destruct Ex as (m' & -> & _ & Hc). destruct Hex as [<-|[]]. exact Hc.
  - apply HI. left. repeat split.
Qed.

(** C3: the Exit response of a run from a fresh [KAThread] carries exit
    code 0 exactly when no stderr byte was ever appended to [errBuff], the
    working directory exists and the [runAs] user resolves; when
    [EXITSTATUS], [CWDERR] or [UIDERR] is set at the end it carries 1. *)
Theorem optionReadSend_exit_code (command : KACommand) (ppid : Z) (chdir_ok : bool)
    (lookup : option (Z * Z)) (sec0 secHeart0 : Z) (ticks : list Tick)
    (outS errS : KAStreamReader) (pid r0 e0 : Z) (o : Outcome)
    (uuid : string) (pid' reqSeq cnt : Z) (source taskUuid : string) (code : Z)
    (Hm : mode outS = getStandardOutput command)
    (H : optionReadSend command ppid chdir_ok lookup sec0 secHeart0 ticks
           (KAThread_new outS errS pid r0 e0) [] = Some o)
    (Hin : In (ExitMsg uuid pid' reqSeq cnt source taskUuid code) (sent o)) :
  (code = 0 <-> errSeen (final o) = "" /\ chdir_ok = true /\ lookup <> None) /\
  (EXITSTATUS (final o) <> 0 \/ CWDERR (final o) = true \/ UIDERR (final o) = true ->
   code = 1).
Proof.
  destruct (exit_code_of_run command ppid chdir_ok lookup sec0 secHeart0 ticks outS errS
              pid r0 e0 o _ Hm H Hin eq_refl) as (Hc & HC & HU & HI).
  simpl in Hc. injection Hc as ->. unfold exitcode. rewrite HC, HU.
  destruct HI as [(X & S & _) | (X & S)]; rewrite X.
  - rewrite S. destruct chdir_ok, lookup; simpl;
      (split; [split; [intros E; try discriminate; repeat split; congruence
                      |intros (_ & E1 & E2); try discriminate; try congruence]
              |intros [E|[E|E]]; try lia; try discriminate; reflexivity]).
  - destruct chdir_ok, lookup; simpl;
      (split; [split; [discriminate|intros (E & _); contradiction]|reflexivity]).
Qed.

Lemma optionReadSend_exit_code_witness :
  exists o,
    optionReadSend (sampleCommand "root" RETURN RETURN) 42 true (Some (0, 0)) 5 5
      [mkTick 1 1 (ReadData "") (ReadData "") 5 6 6] (sampleThread RETURN RETURN) []
      = Some o /\
    In (ExitMsg "u1" 42 7 1 "src" "t1" 0) (sent o) /\
    (0 = 0 <-> errSeen (final o) = "" /\ true = true /\ Some (0, 0) <> None) /\
    (EXITSTATUS (final o) <> 0 \/ CWDERR (final o) = true \/ UIDERR (final o) = true ->
     0 = 1).
Proof.
  eexists. split; [vm_compute; reflexivity|].
  split; [vm_compute; left; reflexivity|].
  apply (optionReadSend_exit_code (sampleCommand "root" RETURN RETURN) 42 true (Some (0, 0))
           5 5 [mkTick 1 1 (ReadData "") (ReadData "") 5 6 6] (mkReader RETURN 0 0 "")
           (mkReader RETURN 0 0 "") 0 1000 1000 _ "u1" 42 7 1 "src" "t1" 0);
    [reflexivity|vm_compute; reflexivity|vm_compute; left; reflexivity].
Defined.

(** ** Redaction of the Progress responses *)

Lemma no_return_sends_nothing (command : KACommand) (th : KAThread) (q : list Response)
    (Hm : mode (outputStream th) = getStandardOutput command)
    (Ho : isCaptureOrNo (getStandardOutput command) = true)
    (He : isCaptureOrNo (getStandardError command) = true) :
  snd (checkAndSend command th q) = q /\ snd (lastCheckAndSend command th q) = q.
Proof.
  unfold checkAndSend, lastCheckAndSend.
  rewrite !isReturn_not_captureOrNo, Hm, Ho, He. simpl.
  split; [reflexivity|]. break_ifs; reflexivity.
Qed.

(** C5 (counterexample): with both stream modes NO, a heartbeat that
    fires still sends a Progress response (with empty payloads). *)
Lemma heartbeat_progress_without_returned_streams :
  option_map sent
    (optionReadSend (sampleCommand "root" NO NO) 42 true (Some (0, 0)) 5 5
       [mkTick 1 1 (ReadData "") (ReadData "") 5 40 40] (sampleThread NO NO) [])
  = Some [ProgressMsg "u1" 42 7 1 "" "" "src" "t1"; ExitMsg "u1" 42 7 2 "src" "t1" 0].
Proof. vm_compute. reflexivity. Qed.

(** C5 (amended): after the synthetic responses of the parent-side
    checks, every Progress response of a run (from checkAndSend, from a
    heartbeat, or from lastCheckAndSend) has an empty payload for each
    stream whose mode is CAPTURE or NO; and when both modes are CAPTURE or
    NO, checkAndSend and lastCheckAndSend send nothing, so only heartbeats
    send Progress responses, with both payloads empty. *)
Theorem optionReadSend_progress_redacted (command : KACommand) (ppid : Z)
    (chdir_ok : bool) (lookup : option (Z * Z)) (sec0 secHeart0 : Z)
    (ticks : list Tick) (th : KAThread) (o : Outcome)
    (Hm : mode (outputStream th) = getStandardOutput command)
    (H : optionReadSend command ppid chdir_ok lookup sec0 secHeart0 ticks th [] = Some o) :
  (exists rest,
     sent o = (syntheticMsgs command ppid chdir_ok lookup ++ rest)%list /\
     Forall (fun m => isProgress m = true -> redacted command m) rest) /\
  (isCaptureOrNo (getStandardOutput command) = true ->
   isCaptureOrNo (getStandardError command) = true ->
   forall th' q, mode (outputStream th') = getStandardOutput command ->
   snd (checkAndSend command th' q) = q /\ snd (lastCheckAndSend command th' q) = q).
Proof.
  split; [|intros Ho He th' q Hm'; now apply no_return_sends_nothing].
  destruct (optionReadSend_shape command ppid chdir_ok lookup sec0 secHeart0 ticks th []
              o Hm H) as (_ & _ & _ & ext1 & tmo & ext2 & ex & Eq & G1 & G2 & Tm & R).
  exists (ext1 ++ tmo ++ ext2 ++ ex)%list. split; [exact Eq|].
  assert (GR : forall l, Forall (goodMsg command) l ->
                 Forall (fun m => isProgress m = true -> redacted command m) l).
  { intros l G. eapply Forall_impl; [|exact G]. intros m [_ Hr] _. exact Hr. }
  assert (EX : ex = [] \/ exists m, ex = [m] /\ isExit m = true).
  { destruct R as [(_ & _ & _ & ->)|(_ & Ex)]; [now left|].
    destruct (_ && _); [|now left]. right. destruct Ex as (m & -> & Hx & _). eauto. }
  apply Forall_app; split; [now apply GR|].
  apply Forall_app; split.
  - destruct Tm as [->|(m & -> & Hm1)]; constructor; [|constructor].
    intros Hp; destruct m; discriminate.
  - apply Forall_app; split; [now apply GR|].
    destruct EX as [->|(m & -> & Hm1)]; constructor; [|constructor].
    intros Hp; destruct m; discriminate.
Qed.

Lemma optionReadSend_progress_redacted_witness :
  exists o,
    optionReadSend (sampleCommand "root" NO NO) 42 true (Some (0, 0)) 5 5
      [mkTick 1 1 (ReadData "") (ReadData "") 5 40 40] (sampleThread NO NO) [] = Some o /\
    (exists rest,
       sent o = (syntheticMsgs (sampleCommand "root" NO NO) 42 true (Some (0, 0)) ++ rest)%list /\
       Forall (fun m => isProgress m = true -> redacted (sampleCommand "root" NO NO) m) rest) /\
    (isCaptureOrNo (getStandardOutput (sampleCommand "root" NO NO)) = true ->
     isCaptureOrNo (getStandardError (sampleCommand "root" NO NO)) = true ->
     forall th' q, mode (outputStream th') = getStandardOutput (sampleCommand "root" NO NO) ->
     snd (checkAndSend (sampleCommand "root" NO NO) th' q) = q /\
     snd (lastCheckAndSend (sampleCommand "root" NO NO) th' q) = q).
Proof.
  eexists. split; [vm_compute; reflexivity|].
  apply (optionReadSend_progress_redacted (sampleCommand "root" NO NO) 42 true (Some (0, 0))
           5 5 [mkTick 1 1 (ReadData "") (ReadData "") 5 40 40] (sampleThread NO NO));
    [reflexivity|vm_compute; reflexivity].
Defined.

(** ** The missing user *)

(** C6 (counterexample): when the [runAs] user does not exist, the
    synthetic Progress response carries the literal in the payload slot
    that carries the stderr bytes at every other call site: in this run
    the child writes "oops" to stderr, and the literal and "oops" are both
    the fifth argument of [createResponseMessage], with an empty sixth
    (stdout) argument.  The literal is therefore not in the stdout payload
    wherever stderr bytes are in the stderr payload. *)
Lemma missing_user_literal_in_error_payload :
  option_map sent
    (optionReadSend (sampleCommand "nosuchuser" RETURN RETURN) 42 true None 5 5
       [mkTick 1 1 (ReadData "") (ReadData "oops") 5 6 6;
        mkTick 1 1 (ReadData "") (ReadData "") 5 6 6] (sampleThread RETURN RETURN) [])
  = Some [createResponseMessage "u1" 42 7 1 "User Does Not Exist on System" "" "src" "t1";
          createResponseMessage "u1" 42 7 1 "oops" "" "src" "t1";
          ExitMsg "u1" 42 7 2 "src" "t1" 1].
Proof. vm_compute. reflexivity. Qed.

(** C6 (amended): when the [runAs] user does not resolve, a run from a
    fresh [KAThread] first sends the synthetic Progress of a missing
    working directory, if any, and then a Progress response with response
    count 1 whose stderr payload (the slot [errBuff] takes at every other
    call site) is the literal "User Does Not Exist on System" and whose
    stdout payload is empty; every response of the loop and every Exit
    comes after it, and every Exit response carries exit code 1. *)
Theorem optionReadSend_missing_user (command : KACommand) (ppid : Z) (chdir_ok : bool)
    (sec0 secHeart0 : Z) (ticks : list Tick) (outS errS : KAStreamReader)
    (pid r0 e0 : Z) (o : Outcome)
    (Hm : mode outS = getStandardOutput command)
    (H : optionReadSend command ppid chdir_ok None sec0 secHeart0 ticks
           (KAThread_new outS errS pid r0 e0) [] = Some o) :
  (exists rest,
     sent o = ((if chdir_ok then []
                else [ProgressMsg (getUuid command) ppid (getRequestSequenceNumber command) 1
                        "Working Directory Does Not Exist on System" "" (getSource command)
                        (getTaskUuid command)]) ++
               [ProgressMsg (getUuid command) ppid (getRequestSequenceNumber command) 1
                  "User Does Not Exist on System" "" (getSource command)
                  (getTaskUuid command)] ++ rest)%list) /\
  (forall m, In m (sent o) -> isExit m = true -> exitCodeOf m = Some 1).
Proof.
  split.
  - destruct (optionReadSend_shape command ppid chdir_ok None sec0 secHeart0 ticks
                (KAThread_new outS errS pid r0 e0) [] o Hm H)
      as (_ & _ & _ & ext1 & tmo & ext2 & ex & Eq & _).
    exists (ext1 ++ tmo ++ ext2 ++ ex)%list.
    rewrite Eq. unfold syntheticMsgs. simpl app at 1. rewrite <- !app_assoc.
    destruct chdir_ok; reflexivity.
  - intros m Hin Hx.
    destruct (exit_code_of_run command ppid chdir_ok None sec0 secHeart0 ticks outS errS
                pid r0 e0 o m Hm H Hin Hx) as (Hc & _ & HU & _).
    rewrite Hc. unfold exitcode. rewrite HU. simpl. rewrite orb_true_r. reflexivity.
Qed.

Lemma optionReadSend_missing_user_witness :
  exists o,
    optionReadSend (sampleCommand "nosuchuser" RETURN RETURN) 42 false None 5 5
      [mkTick 1 1 (ReadData "x") (ReadData "") 5 6 6;
       mkTick 1 1 (ReadData "") (ReadData "") 5 6 6] (sampleThread RETURN RETURN) [] = Some o /\
    (exists rest,
       sent o = ([ProgressMsg "u1" 42 7 1 "Working Directory Does Not Exist on System" ""
                    "src" "t1"] ++
                 [ProgressMsg "u1" 42 7 1 "User Does Not Exist on System" "" "src" "t1"]
                   ++ rest)%list) /\
    (forall m, In m (sent o) -> isExit m = true -> exitCodeOf m = Some 1).
Proof.
  eexists. split; [vm_compute; reflexivity|].
  apply (optionReadSend_missing_user (sampleCommand "nosuchuser" RETURN RETURN) 42 false 5 5
           [mkTick 1 1 (ReadData "x") (ReadData "") 5 6 6;
            mkTick 1 1 (ReadData "") (ReadData "") 5 6 6] (mkReader RETURN 0 0 "")
           (mkReader RETURN 0 0 "") 0 1000 1000);
    [reflexivity|vm_compute; reflexivity].
Defined.

(** ** Response counts *)

Definition responseCountOf (m : Response) : Z :=
  match m with
  | ProgressMsg _ _ _ c _ _ _ _ => c
  | TimeoutMsg _ _ _ c _ _ _ _ => c
  | ExitMsg _ _ _ c _ _ _ => c
  end.

(** C1: when the [runAs] user does not exist and the child ends at once,
    the synthetic Progress response and the Exit response both carry
    response count 1: the synthetic responses use the literal 1 and do not
    increment [responsecount]. *)
Theorem missing_user_response_counts_repeat :
  option_map (fun o => map responseCountOf (sent o))
    (optionReadSend (sampleCommand "nosuchuser" RETURN RETURN) 42 true None 5 5
       [mkTick 1 1 (ReadData "") (ReadData "") 5 6 6] (sampleThread RETURN RETURN) [])
  = Some [1; 1].
Proof. vm_compute. reflexivity. Qed.

(** ** Identity calls *)

Lemma skipn_length_app {A : Type} (l l' : list A) : skipn (length l) (l ++ l') = l'.
Proof. induction l as [|x l IH]; simpl; auto. Qed.

(** C8 (counterexample): the parent-side [checkUID] of [optionReadSend]
    calls [doSetuid(euid)] when the user exists. *)
Lemma parent_calls_doSetuid :
  option_map (fun o => idlog (final o))
    (optionReadSend (sampleCommand "root" RETURN RETURN) 42 true (Some (1000, 1001)) 5 5
       [mkTick 1 1 (ReadData "") (ReadData "") 5 6 6] (sampleThread RETURN RETURN) [])
  = Some [DoSetuid 1001].
Proof. vm_compute. reflexivity. Qed.

(** C8 (amended): every run of [optionReadSend] makes exactly one
    identity call in the parent: [doSetuid(euid)] when the [runAs] user
    resolves, [undoSetuid(ruid)] otherwise; and the inner child, when the
    working directory exists and the user resolves, calls
    [doSetuid(euid)] before it runs the command. *)
Theorem identity_calls (command : KACommand) (ppid : Z) (chdir_ok : bool)
    (lookup : option (Z * Z)) (sec0 secHeart0 : Z) (ticks : list Tick)
    (th : KAThread) (q : list Response) (o : Outcome)
    (H : optionReadSend command ppid chdir_ok lookup sec0 secHeart0 ticks th q = Some o) :
  idlog (final o) = (idlog th ++ [idEventOf lookup th])%list /\
  (forall r e, lookup = Some (r, e) -> chdir_ok = true ->
   exists s, innerChild command chdir_ok lookup th
             = [EvIdentity (DoSetuid e); EvSystem s; EvExit 0]).
Proof.
  split.
  - unfold optionReadSend in H.
    pose proof (preChecks_spec command ppid chdir_ok lookup th q) as P.
    destruct (preChecks command ppid chdir_ok lookup th q) as [th4 q4].
    destruct P as (_ & _ & _ & _ & _ & _ & _ & _ & _ & Pi).
    destruct (multiplex command ticks (mkLoop th4 q4 (mkTimer sec0 false (getTimeout command) 0)
                (mkTimer secHeart0 false 30 0))) as [[e s]|] eqn:M; [|discriminate].
    apply multiplex_idlog in M. cbn [thr] in M.
    destruct e; injection H as <-; rewrite ?afterLoop_idlog; simpl; congruence.
  - intros r e -> ->. unfold innerChild, checkUID. simpl.
    rewrite skipn_length_app. eexists. reflexivity.
Qed.

Lemma identity_calls_witness :
  exists o,
    optionReadSend (sampleCommand "root" RETURN RETURN) 42 true (Some (1000, 1001)) 5 5
      [mkTick 1 1 (ReadData "") (ReadData "") 5 6 6] (sampleThread RETURN RETURN) [] = Some o /\
    idlog (final o) = (idlog (sampleThread RETURN RETURN)
                        ++ [idEventOf (Some (1000, 1001)) (sampleThread RETURN RETURN)])%list /\
    (forall r e, Some (1000, 1001) = Some (r, e) -> true = true ->
     exists s, innerChild (sampleCommand "root" RETURN RETURN) true (Some (1000, 1001))
                 (sampleThread RETURN RETURN)
               = [EvIdentity (DoSetuid e); EvSystem s; EvExit 0]).
Proof.
  eexists. split; [vm_compute; reflexivity|].
  apply (identity_calls (sampleCommand "root" RETURN RETURN) 42 true (Some (1000, 1001)) 5 5
           [mkTick 1 1 (ReadData "") (ReadData "") 5 6 6] (sampleThread RETURN RETURN) []).
  vm_compute. reflexivity.
Defined.

(** ** Pipe failures *)

(** C9 (counterexample): when the output pipe cannot be opened, the
    worker logs the error and still forks; its parent branch runs
    [optionReadSend]. *)
Lemma pipe_failure_still_forks :
  threadFunction_worker (sampleCommand "root" RETURN RETURN) false true 7 true
    (Some (1000, 1001)) (sampleThread RETURN RETURN)
  = [EvOpenPipe "output" false; pipeErrorLog; EvFork; EvOptionReadSend; EvKillSelf].
Proof. reflexivity. Qed.

(** C9 (amended): when opening either pipe fails, the worker only logs
    the error at level 6 and then does what it does when both pipes open:
    it forks, the inner child runs the checks and the command, and the
    parent branch runs [optionReadSend]. *)
Theorem pipe_failure_only_logged (command : KACommand) (outPipeOk errPipeOk : bool)
    (newpid : Z) (chdir_ok : bool) (lookup : option (Z * Z)) (th : KAThread)
    (Hfail : negb outPipeOk || negb errPipeOk = true) :
  threadFunction_worker command outPipeOk errPipeOk newpid chdir_ok lookup th
  = (openPipes outPipeOk errPipeOk ++ pipeErrorLog
       :: skipn 2 (threadFunction_worker command true true newpid chdir_ok lookup th))%list.
Proof.
  unfold threadFunction_worker. rewrite Hfail. reflexivity.
Qed.

Lemma pipe_failure_only_logged_witness :
  negb false || negb true = true /\
  threadFunction_worker (sampleCommand "root" RETURN RETURN) false true 7 true
    (Some (1000, 1001)) (sampleThread RETURN RETURN)
  = (openPipes false true ++ pipeErrorLog
       :: skipn 2 (threadFunction_worker (sampleCommand "root" RETURN RETURN) true true 7 true
                     (Some (1000, 1001)) (sampleThread RETURN RETURN)))%list.
Proof.
  split; [reflexivity|].
  apply (pipe_failure_only_logged (sampleCommand "root" RETURN RETURN) false true 7 true
           (Some (1000, 1001)) (sampleThread RETURN RETURN)).
  reflexivity.
Defined.

(** ** Numbering of the responses *)

(** [numbered c l]: the responses of [l] carry the counts [c], [c+1], ...,
    where a Progress response moves to the next count and a Timeout or
    Exit response does not; the result is the count after [l]. *)
Fixpoint numbered (c : Z) (l : list Response) : option Z :=
  match l with
  | [] => Some c
  | m :: rest =>
      if responseCountOf m =? c then numbered (if isProgress m then c + 1 else c) rest
      else None
  end.

Lemma numbered_app (c : Z) (a b : list Response) :
  numbered c (a ++ b) =
  match numbered c a with Some c' => numbered c' b | None => None end.
Proof.
  revert c; induction a as [|m a IH]; intros c; simpl; [reflexivity|].
  destruct (responseCountOf m =? c); [apply IH|reflexivity].
Qed.

(** A step that appends to the queue responses numbered from the
    thread's count on, and leaves the thread at the count after them. *)
Definition NumStep (th : KAThread) (q : list Response) (th' : KAThread)
    (q' : list Response) : Prop :=
  exists ext, q' = (q ++ ext)%list /\ numbered (responsecount th) ext = Some (responsecount th').

Lemma NumStep_refl (th : KAThread) (q : list Response) : NumStep th q th q.
Proof. exists []. rewrite app_nil_r. split; [reflexivity|]. simpl. reflexivity. Qed.

Lemma NumStep_trans (th1 th2 th3 : KAThread) (q1 q2 q3 : list Response) :
  NumStep th1 q1 th2 q2 -> NumStep th2 q2 th3 q3 -> NumStep th1 q1 th3 q3.
Proof.
  intros [e1 [-> N1]] [e2 [-> N2]]. exists (e1 ++ e2)%list.
  rewrite app_assoc. split; [reflexivity|]. rewrite numbered_app, N1. exact N2.
Qed.

Lemma NumStep_same (th th' : KAThread) (q : list Response) :
  responsecount th' = responsecount th -> NumStep th q th' q.
Proof. intros E. exists []. rewrite app_nil_r, E. split; reflexivity. Qed.

Ltac num_tac :=
  first
    [ apply NumStep_same; simpl_thread; reflexivity
    | eexists; split;
        [ unfold try_send_spin; reflexivity
        | unfold progressMessage, createResponseMessage; simpl_thread; simpl;
          rewrite Z.eqb_refl; reflexivity ] ].

Lemma checkAndSend_num (command : KACommand) (th : KAThread) (q : list Response) :
  NumStep th q (fst (checkAndSend command th q)) (snd (checkAndSend command th q)).
Proof. unfold checkAndSend, sendProgress. break_ifs; simpl; num_tac. Qed.

Lemma lastCheckAndSend_num (command : KACommand) (th : KAThread) (q : list Response) :
  NumStep th q (fst (lastCheckAndSend command th q)) (snd (lastCheckAndSend command th q)).
Proof. unfold lastCheckAndSend, sendProgress. break_ifs; simpl; num_tac. Qed.

Lemma sendHeartbeat_num (command : KACommand) (th : KAThread) (q : list Response) :
  NumStep th q (fst (sendHeartbeat command th q)) (snd (sendHeartbeat command th q)).
Proof. unfold sendHeartbeat. break_ifs; simpl; num_tac. Qed.

Lemma checkAndWrite_num (command : KACommand) (th : KAThread) (q : list Response) :
  NumStep th q (fst (checkAndWrite command th q)) (snd (checkAndWrite command th q)).
Proof.
  unfold checkAndWrite. cbv beta zeta. simpl_thread.
  break_ifs; try (apply NumStep_same; simpl; simpl_thread; reflexivity).
  all: match goal with
       | |- context [checkAndSend ?c ?t ?q] =>
           let N := fresh "N" in
           pose proof (checkAndSend_num c t q) as N;
           destruct (checkAndSend c t q) as [th9 q9]; simpl in N |- *;
           destruct N as [ext [E N]]; exists ext; simpl_thread; split; [exact E|exact N]
       end.
Qed.

Lemma heartbeatPhase_num (command : KACommand) (t : Tick) (th : KAThread)
    (q : list Response) (ht : Timer) :
  let '(th1, q1, _) := heartbeatPhase command t th q ht in NumStep th q th1 q1.
Proof.
  unfold heartbeatPhase. destruct (ACTFLAG th).
  - apply NumStep_same; simpl_thread; reflexivity.
  - destruct (checkExecutionTimeout ht (secHeart t)) as [[|] ht1].
    + pose proof (sendHeartbeat_num command th q) as N.
      destruct (sendHeartbeat command th q); exact N.
    + apply NumStep_refl.
Qed.

Lemma readPhase_count (t : Tick) (th : KAThread) :
  responsecount (readPhase t th) = responsecount th.
Proof. unfold readPhase. break_ifs; simpl_thread; reflexivity. Qed.

Lemma loopStep_num (command : KACommand) (t : Tick) (s : LoopState) :
  let s' := stepState (loopStep command t s) in
  NumStep (thr s) (queue s) (thr s') (queue s').
Proof.
  assert (C0 : responsecount (selectPhase t (thr s)) = responsecount (thr s))
    by (unfold selectPhase; simpl_thread; reflexivity).
  unfold loopStep.
  destruct (checkExecutionTimeout (execT s) (secExec t)) as [[|] et].
  - simpl. apply NumStep_same; exact C0.
  - pose proof (heartbeatPhase_num command t (selectPhase t (thr s)) (queue s) (heartT s)) as HB.
    destruct (heartbeatPhase command t (selectPhase t (thr s)) (queue s) (heartT s))
      as [[th1 q1] ht].
    assert (N1 : NumStep (thr s) (queue s) th1 q1).
    { destruct HB as [ext [E N]]. exists ext. rewrite <- C0. split; assumption. }
    destruct ((selOut t =? -1) || (selErr t =? -1)); [exact N1|].
    destruct ((0 <? readResult (outputStream (readPhase t th1)))
              || (0 <? readResult (errorStream (readPhase t th1)))).
    + pose proof (checkAndWrite_num command (readPhase t th1) q1) as N3.
      destruct (checkAndWrite command (readPhase t th1) q1) as [th5 q5]; simpl in *.
      eapply NumStep_trans; [exact N1|].
      destruct N3 as [ext [E N]]. exists ext. rewrite readPhase_count in N. split; assumption.
    + simpl. eapply NumStep_trans; [exact N1|]. apply NumStep_same, readPhase_count.
Qed.

Lemma multiplex_num (command : KACommand) (ticks : list Tick) (s : LoopState)
    (e : LoopExit) (s' : LoopState) :
  multiplex command ticks s = Some (e, s') ->
  NumStep (thr s) (queue s) (thr s') (queue s').
Proof.
  revert s; induction ticks as [|t ts IH]; intros s H; simpl in H; [discriminate|].
  pose proof (loopStep_num command t s) as G.
  destruct (loopStep command t s) as [[e0 s0]|s1]; simpl in G.
  - injection H as <- <-. exact G.
  - eapply NumStep_trans; [exact G|exact (IH s1 H)].
Qed.

Lemma afterLoop_num (command : KACommand) (e : LoopExit) (th : KAThread)
    (q : list Response) :
  NumStep th q (final (afterLoop command e th q)) (sent (afterLoop command e th q)).
Proof.
  unfold afterLoop.
  assert (T : NumStep th q (fst (timeoutBranch command e th q))
                           (snd (timeoutBranch command e th q))).
  { destruct e; simpl; try apply NumStep_refl.
    pose proof (lastCheckAndSend_num command th q) as N.
    destruct (lastCheckAndSend command th q) as [th' q']; simpl in *.
    eapply NumStep_trans; [exact N|].
    exists [createTimeoutMessage (getUuid command) (processpid th')
              (getRequestSequenceNumber command) (responsecount th') "" ""
              (getSource command) (getTaskUuid command)].
    split; [reflexivity|]. simpl. rewrite Z.eqb_refl. reflexivity. }
  destruct (timeoutBranch command e th q) as [th5 q5]; simpl in T.
  eapply NumStep_trans; [exact T|].
  unfold exitBranch.
  destruct ((readResult (errorStream th5) =? 0) && (readResult (outputStream th5) =? 0));
    [|apply NumStep_refl].
  pose proof (lastCheckAndSend_num command th5 q5) as N.
  destruct (lastCheckAndSend command th5 q5) as [th6 q6]; simpl in *.
  eapply NumStep_trans; [exact N|].
  eexists [_]. split; [reflexivity|]. simpl. rewrite Z.eqb_refl. reflexivity.
Qed.

Lemma preChecks_count (command : KACommand) (ppid : Z) (chdir_ok : bool)
    (lookup : option (Z * Z)) (th : KAThread) (q : list Response) :
  responsecount (fst (preChecks command ppid chdir_ok lookup th q)) = responsecount th.
Proof.
  unfold preChecks, checkCWD, checkUID.
  destruct chdir_ok, lookup as [[r e]|]; simpl; simpl_thread; reflexivity.
Qed.

(** X1: numbering over one run of [optionReadSend].  After the synthetic
    responses of the parent-side checks, the responses carry the counts
    [responsecount th], [responsecount th + 1], ...: each Progress takes the
    current count and moves to the next one, a Timeout or Exit takes the
    current count; the final thread holds the count after the last one. *)
Theorem optionReadSend_numbering (command : KACommand) (ppid : Z) (chdir_ok : bool)
    (lookup : option (Z * Z)) (sec0 secHeart0 : Z) (ticks : list Tick)
    (th : KAThread) (q : list Response) (o : Outcome)
    (H : optionReadSend command ppid chdir_ok lookup sec0 secHeart0 ticks th q = Some o) :
  exists rest,
    sent o = (q ++ syntheticMsgs command ppid chdir_ok lookup ++ rest)%list /\
    numbered (responsecount th) rest = Some (responsecount (final o)).
Proof.
  unfold optionReadSend in H.
  pose proof (preChecks_spec command ppid chdir_ok lookup th q) as P.
  pose proof (preChecks_count command ppid chdir_ok lookup th q) as C.
  destruct (preChecks command ppid chdir_ok lookup th q) as [th4 q4]; simpl in C.
  destruct P as [Eq4 _].
  match type of H with
  | match multiplex ?c ?ts ?s0 with _ => _ end = _ =>
      pose proof (multiplex_num c ts s0) as M; destruct (multiplex c ts s0) as [[e s]|]
  end; [|discriminate].
  specialize (M e s eq_refl). cbn [thr queue] in M.
  assert (N : NumStep th4 q4 (final o) (sent o)).
  { destruct e; injection H as <-; simpl;
      try (eapply NumStep_trans; [exact M|apply afterLoop_num]); exact M. }
  destruct N as [rest [E R]]. exists rest.
  rewrite E, Eq4, <- app_assoc, <- C. split; [reflexivity|exact R].
Qed.

(** ** Payloads of the responses *)

Definition errOf (m : Response) : string :=
  match m with
  | ProgressMsg _ _ _ _ e _ _ _ | TimeoutMsg _ _ _ _ e _ _ _ => e
  | ExitMsg _ _ _ _ _ _ _ => ""
  end.

Definition outOf (m : Response) : string :=
  match m with
  | ProgressMsg _ _ _ _ _ o _ _ | TimeoutMsg _ _ _ _ _ o _ _ => o
  | ExitMsg _ _ _ _ _ _ _ => ""
  end.

(** The bytes a list of responses carries on stderr, resp. stdout, in
    order. *)
Fixpoint errPayloads (l : list Response) : string :=
  match l with [] => "" | m :: r => errOf m ++ errPayloads r end.

Fixpoint outPayloads (l : list Response) : string :=
  match l with [] => "" | m :: r => outOf m ++ outPayloads r end.

Lemma errPayloads_app (a b : list Response) :
  errPayloads (a ++ b) = errPayloads a ++ errPayloads b.
Proof.
  induction a as [|m a IH]; simpl; [reflexivity|]. rewrite IH, str_app_assoc. reflexivity.
Qed.

Lemma substring_full (s : string) : substring 0 (String.length s) s = s.
Proof. induction s as [|a s IH]; simpl; [reflexivity|]. rewrite IH. reflexivity. Qed.

Lemma substr_split (s : string) (n : nat) :
  (n <= String.length s)%nat ->
  substr s 0 n ++ substr s n (String.length s - n) = s.
Proof.
  unfold substr. revert n; induction s as [|a s IH]; intros n Hn; simpl in *.
  - assert (n = 0%nat) by lia. subst. reflexivity.
  - destruct n as [|n]; simpl.
    + rewrite substring_full. reflexivity.
    + f_equal. apply IH. lia.
Qed.

Lemma substring_length_le (s : string) (n m : nat) :
  (String.length (substring n m s) <= m)%nat.
Proof.
  revert n m; induction s as [|a s IH]; intros n m.
  - destruct n, m; simpl; lia.
  - destruct n as [|n]; [destruct m as [|m]|]; simpl.
    + lia.
    + specialize (IH 0%nat m). lia.
    + apply IH.
Qed.

Ltac bool_facts :=
  repeat match goal with
  | H : (_ && _)%bool = true |- _ => apply andb_true_iff in H; destruct H
  | H : (_ || _)%bool = false |- _ => apply orb_false_iff in H; destruct H
  | H : (_ <=? _)%nat = true |- _ => apply Nat.leb_le in H
  | H : (_ <=? _)%nat = false |- _ => apply Nat.leb_gt in H
  end.
Ltac payload_tac :=
  first [ exists []; split; [rewrite app_nil_r; reflexivity|]
        | eexists [_]; split; [reflexivity|] ];
  simpl; rewrite ?str_app_nil_r;
  first [ reflexivity | apply substr_split; assumption ].

Lemma checkAndWrite_err (command : KACommand) (th : KAThread) (q : list Response)
    (He : isCaptureOrNo (getStandardError command) = false) :
  exists ext, snd (checkAndWrite command th q) = (q ++ ext)%list /\
    errPayloads ext ++ errBuff (fst (checkAndWrite command th q)) =
    errBuff th ++ buffer (errorStream th).
Proof.
  unfold checkAndWrite, checkAndSend, sendProgress, try_send_spin, progressMessage,
    createResponseMessage. cbv beta zeta. simpl_thread.
  break_ifs; simpl; simpl_thread; rewrite ?He in *; try discriminate; cbn [orb andb] in *; bool_facts.
  all: payload_tac.
Qed.

(** X2: every Progress response [checkAndWrite] hands to the queue carries
    at most [MaxBuffSize] (1000) bytes of stderr and at most 1000 bytes of
    stdout, whatever the sizes of the buffers and of the bytes just read. *)
Theorem checkAndWrite_packet_bound (command : KACommand) (th : KAThread)
    (q : list Response) :
  exists ext, snd (checkAndWrite command th q) = (q ++ ext)%list /\
    Forall (fun m => (String.length (errOf m) <= MaxBuffSize)%nat /\
                     (String.length (outOf m) <= MaxBuffSize)%nat) ext.
Proof.
  unfold checkAndWrite, checkAndSend, sendProgress, try_send_spin, progressMessage,
    createResponseMessage. cbv beta zeta. simpl_thread.
  break_ifs; simpl; simpl_thread; cbn [orb andb] in *; bool_facts.
  all: first [ exists []; split; [rewrite app_nil_r; reflexivity|constructor]
             | eexists [_]; split; [reflexivity|constructor; [|constructor]] ];
       simpl; split; unfold substr;
       first [apply substring_length_le | lia].
Qed.

(** X3: with a returned stdout ([RETURN] or [CAPTURE_AND_RETURN]),
    [checkAndWrite] loses no stdout byte: the stdout payloads it sends,
    followed by what it leaves in [outBuff], are the old [outBuff]
    followed by the bytes just read. *)
Theorem checkAndWrite_stdout_conserved (command : KACommand) (th : KAThread)
    (q : list Response) (Ho : isReturn (mode (outputStream th)) = true) :
  exists ext, snd (checkAndWrite command th q) = (q ++ ext)%list /\
    outPayloads ext ++ outBuff (fst (checkAndWrite command th q)) =
    outBuff th ++ buffer (outputStream th).
Proof.
  unfold checkAndWrite, checkAndSend, sendProgress, try_send_spin, progressMessage,
    createResponseMessage. cbv beta zeta. simpl_thread.
  break_ifs; simpl; simpl_thread; rewrite ?Ho in *; try discriminate; cbn [orb andb] in *; bool_facts.
  all: payload_tac.
Qed.

(** X5: [lastCheckAndSend] always leaves both buffers empty.  It sends one
    Progress response exactly when a returned stream has buffered bytes;
    that response carries the buffered bytes of each returned stream and
    an empty payload for the other. *)
Theorem lastCheckAndSend_flush (command : KACommand) (th : KAThread)
    (q : list Response) :
  let '(th', q') := lastCheckAndSend command th q in
  outBuff th' = "" /\ errBuff th' = "" /\
  responsecount th' =
    (if (isReturn (getStandardOutput command) && negb (String.eqb (outBuff th) ""))
        || (isReturn (getStandardError command) && negb (String.eqb (errBuff th) ""))
     then responsecount th + 1 else responsecount th) /\
  q' =
    (if (isReturn (getStandardOutput command) && negb (String.eqb (outBuff th) ""))
        || (isReturn (getStandardError command) && negb (String.eqb (errBuff th) ""))
     then q ++ [createResponseMessage (getUuid command) (processpid th)
                  (getRequestSequenceNumber command) (responsecount th)
                  (if isReturn (getStandardError command) then errBuff th else "")
                  (if isReturn (getStandardOutput command) then outBuff th else "")
                  (getSource command) (getTaskUuid command)]
     else q)%list.
Proof.
  unfold lastCheckAndSend, sendProgress, try_send_spin, progressMessage.
  destruct (outBuff th) as [|a s] eqn:EO, (errBuff th) as [|b t] eqn:EE,
    (isReturn (getStandardOutput command)), (isReturn (getStandardError command));
    simpl; simpl_thread; rewrite ?EO, ?EE; repeat split.
Qed.

(** X6: a heartbeat always sends exactly one Progress response, numbered
    with the current count, and leaves both buffers empty and the count
    one higher.  The response carries the buffered bytes of each stream
    that is not [CAPTURE] or [NO], and an empty payload otherwise. *)
Theorem sendHeartbeat_one_progress (command : KACommand) (th : KAThread)
    (q : list Response) :
  let '(th', q') := sendHeartbeat command th q in
  outBuff th' = "" /\ errBuff th' = "" /\ responsecount th' = responsecount th + 1 /\
  q' = (q ++ [createResponseMessage (getUuid command) (processpid th)
                (getRequestSequenceNumber command) (responsecount th)
                (if isCaptureOrNo (getStandardError command) then "" else errBuff th)
                (if isCaptureOrNo (getStandardOutput command) then "" else outBuff th)
                (getSource command) (getTaskUuid command)])%list.
Proof.
  unfold sendHeartbeat, try_send_spin, progressMessage.
  destruct (outBuff th) as [|a s] eqn:EO, (errBuff th) as [|b t] eqn:EE,
    (isCaptureOrNo (getStandardOutput command)), (isCaptureOrNo (getStandardError command));
    simpl; simpl_thread; rewrite ?EO, ?EE; repeat split.
Qed.

(** ** Conservation of stderr over a run *)

(** A step conserves stderr when the bytes it records as read from stderr
    ([errSeen] grows by [D]) are, together with the old [errBuff], exactly
    the stderr payloads it sends followed by the new [errBuff]. *)
Definition ErrCons (th : KAThread) (q : list Response) (th' : KAThread)
    (q' : list Response) : Prop :=
  exists ext D, q' = (q ++ ext)%list /\ errSeen th' = errSeen th ++ D /\
    errPayloads ext ++ errBuff th' = errBuff th ++ D.

Lemma ErrCons_refl (th : KAThread) (q : list Response) : ErrCons th q th q.
Proof.
  exists [], "". simpl. rewrite app_nil_r, !str_app_nil_r. repeat split.
Qed.

Lemma ErrCons_same (th th' : KAThread) (q : list Response) :
  errSeen th' = errSeen th -> errBuff th' = errBuff th -> ErrCons th q th' q.
Proof.
  intros E1 E2. exists [], "". simpl. rewrite app_nil_r, !str_app_nil_r, E1, E2.
  repeat split.
Qed.

Lemma ErrCons_trans (th1 th2 th3 : KAThread) (q1 q2 q3 : list Response) :
  ErrCons th1 q1 th2 q2 -> ErrCons th2 q2 th3 q3 -> ErrCons th1 q1 th3 q3.
Proof.
  intros (e1 & D1 & -> & S1 & P1) (e2 & D2 & -> & S2 & P2).
  exists (e1 ++ e2)%list, (D1 ++ D2). split; [symmetry; apply app_assoc|].
  split; [rewrite S2, S1; symmetry; apply str_app_assoc|].
  rewrite errPayloads_app, <- str_app_assoc, P2, str_app_assoc, P1, str_app_assoc.
  reflexivity.
Qed.

Ltac errcons_tac :=
  first
    [ solve [ exists [], ""; simpl; rewrite ?app_nil_r, ?str_app_nil_r;
              repeat split; simpl_thread; congruence ]
    | solve [ eexists [_], ""; split; [reflexivity|]; simpl; rewrite ?str_app_nil_r;
              repeat split; simpl_thread; congruence ] ].

Section StderrReturned.

Variable command : KACommand.
Hypothesis He : isCaptureOrNo (getStandardError command) = false.

Lemma checkAndWrite_errcons (th : KAThread) (q : list Response) :
  ErrCons th q (fst (checkAndWrite command th q)) (snd (checkAndWrite command th q)).
Proof.
  destruct (checkAndWrite_err command th q He) as [ext [E P]].
  exists ext, (buffer (errorStream th)). split; [exact E|]. split; [|exact P].
  unfold checkAndWrite, checkAndSend, sendProgress. cbv beta zeta. simpl_thread.
  break_ifs; simpl; simpl_thread; reflexivity.
Qed.

Lemma lastCheckAndSend_errcons (th : KAThread) (q : list Response) :
  ErrCons th q (fst (lastCheckAndSend command th q)) (snd (lastCheckAndSend command th q)).
Proof.
  unfold lastCheckAndSend, sendProgress, try_send_spin, progressMessage,
    createResponseMessage.
  rewrite (isReturn_not_captureOrNo (getStandardError command)), He.
  destruct (outBuff th) as [|a s] eqn:EO, (errBuff th) as [|b t] eqn:EE,
    (isReturn (getStandardOutput command));
    simpl; simpl_thread; rewrite ?EO, ?EE; errcons_tac.
Qed.

Lemma sendHeartbeat_errcons (th : KAThread) (q : list Response) :
  ErrCons th q (fst (sendHeartbeat command th q)) (snd (sendHeartbeat command th q)).
Proof.
  unfold sendHeartbeat, try_send_spin, progressMessage, createResponseMessage.
  rewrite He.
  destruct (outBuff th) as [|a s] eqn:EO, (errBuff th) as [|b t] eqn:EE,
    (isCaptureOrNo (getStandardOutput command));
    simpl; simpl_thread; rewrite ?EO, ?EE; errcons_tac.
Qed.

Lemma heartbeatPhase_errcons (t : Tick) (th : KAThread) (q : list Response) (ht : Timer) :
  let '(th1, q1, _) := heartbeatPhase command t th q ht in ErrCons th q th1 q1.
Proof.
  unfold heartbeatPhase. destruct (ACTFLAG th).
  - apply ErrCons_same; simpl_thread; reflexivity.
  - destruct (checkExecutionTimeout ht (secHeart t)) as [[|] ht1].
    + pose proof (sendHeartbeat_errcons th q) as N.
      destruct (sendHeartbeat command th q); exact N.
    + apply ErrCons_refl.
Qed.

Lemma loopStep_errcons (t : Tick) (s : LoopState) :
  let s' := stepState (loopStep command t s) in
  ErrCons (thr s) (queue s) (thr s') (queue s').
Proof.
  assert (C0 : ErrCons (thr s) (queue s) (selectPhase t (thr s)) (queue s))
    by (apply ErrCons_same; unfold selectPhase; simpl_thread; reflexivity).
  unfold loopStep.
  destruct (checkExecutionTimeout (execT s) (secExec t)) as [[|] et]; [exact C0|].
  pose proof (heartbeatPhase_errcons t (selectPhase t (thr s)) (queue s) (heartT s)) as HB.
  destruct (heartbeatPhase command t (selectPhase t (thr s)) (queue s) (heartT s))
    as [[th1 q1] ht].
  pose proof (ErrCons_trans _ _ _ _ _ _ C0 HB) as N1.
  assert (R : ErrCons th1 q1 (readPhase t th1) q1)
    by (apply ErrCons_same; unfold readPhase; break_ifs; simpl_thread; reflexivity).
  destruct ((selOut t =? -1) || (selErr t =? -1)); [exact N1|].
  destruct ((0 <? readResult (outputStream (readPhase t th1)))
            || (0 <? readResult (errorStream (readPhase t th1)))).
  - pose proof (checkAndWrite_errcons (readPhase t th1) q1) as N3.
    destruct (checkAndWrite command (readPhase t th1) q1) as [th5 q5]; simpl in *.
    exact (ErrCons_trans _ _ _ _ _ _ N1 (ErrCons_trans _ _ _ _ _ _ R N3)).
  - exact (ErrCons_trans _ _ _ _ _ _ N1 R).
Qed.

Lemma multiplex_errcons (ticks : list Tick) (s : LoopState) (e : LoopExit)
    (s' : LoopState) :
  multiplex command ticks s = Some (e, s') -> ErrCons (thr s) (queue s) (thr s') (queue s').
Proof.
  revert s; induction ticks as [|t ts IH]; intros s H; simpl in H; [discriminate|].
  pose proof (loopStep_errcons t s) as G.
  destruct (loopStep command t s) as [[e0 s0]|s1]; simpl in G.
  - injection H as <- <-. exact G.
  - exact (ErrCons_trans _ _ _ _ _ _ G (IH s1 H)).
Qed.

Lemma afterLoop_errcons (e : LoopExit) (th : KAThread) (q : list Response) :
  ErrCons th q (final (afterLoop command e th q)) (sent (afterLoop command e th q)).
Proof.
  unfold afterLoop.
  assert (T : ErrCons th q (fst (timeoutBranch command e th q))
                           (snd (timeoutBranch command e th q))).
  { destruct e; simpl; try apply ErrCons_refl.
    pose proof (lastCheckAndSend_errcons th q) as N.
    destruct (lastCheckAndSend command th q) as [th' q']; simpl in *.
    eapply ErrCons_trans; [exact N|].
    eexists [_], ""; split; [reflexivity|]. simpl. rewrite !str_app_nil_r. split; reflexivity. }
  destruct (timeoutBranch command e th q) as [th5 q5]; simpl in T.
  eapply ErrCons_trans; [exact T|].
  unfold exitBranch.
  destruct ((readResult (errorStream th5) =? 0) && (readResult (outputStream th5) =? 0));
    [|apply ErrCons_refl].
  pose proof (lastCheckAndSend_errcons th5 q5) as N.
  destruct (lastCheckAndSend command th5 q5) as [th6 q6]; simpl in *.
  eapply ErrCons_trans; [exact N|].
  eexists [_], ""; split; [reflexivity|]. simpl. rewrite !str_app_nil_r. split; reflexivity.
Qed.

End StderrReturned.

Lemma lastCheckAndSend_empties (command : KACommand) (th : KAThread) (q : list Response) :
  errBuff (fst (lastCheckAndSend command th q)) = "" \/
  (fst (lastCheckAndSend command th q) = th /\ errBuff th = "").
Proof.
  unfold lastCheckAndSend, sendProgress.
  destruct (outBuff th) as [|a s] eqn:EO, (errBuff th) as [|b t] eqn:EE,
    (isReturn (getStandardOutput command)), (isReturn (getStandardError command));
    simpl; simpl_thread; auto.
Qed.

Lemma afterLoop_flushed (command : KACommand) (e : LoopExit) (th : KAThread)
    (q : list Response) :
  let o := afterLoop command e th q in
  readResult (errorStream (final o)) = 0 -> readResult (outputStream (final o)) = 0 ->
  errBuff (final o) = "".
Proof.
  assert (L : forall th q, errBuff (fst (lastCheckAndSend command th q)) = "" \/
                           errBuff th = "" /\ fst (lastCheckAndSend command th q) = th)
    by (intros th0 q0; destruct (lastCheckAndSend_empties command th0 q0) as [A|[A B]];
        auto).
  unfold afterLoop, exitBranch; simpl.
  destruct e; simpl.
  - pose proof (L th q) as L0.
    destruct (lastCheckAndSend command th q) as [th5 q5]; simpl in L0.
    assert (E5 : errBuff th5 = "")
      by (destruct L0 as [A|[A <-]]; assumption).
    destruct ((readResult (errorStream th5) =? 0) && (readResult (outputStream th5) =? 0)).
    + pose proof (L th5 (try_send_spin q5
         (createTimeoutMessage (getUuid command) (processpid th5)
            (getRequestSequenceNumber command) (responsecount th5) "" ""
            (getSource command) (getTaskUuid command)))) as L1.
      destruct (lastCheckAndSend command th5 _) as [th6 q6]; simpl in *.
      intros _ _. destruct L1 as [A|[A <-]]; assumption.
    + intros _ _. exact E5.
  - destruct ((readResult (errorStream th) =? 0) && (readResult (outputStream th) =? 0))
      eqn:R.
    + pose proof (L th q) as L1.
      destruct (lastCheckAndSend command th q) as [th6 q6]; simpl in *.
      intros _ _. destruct L1 as [A|[A <-]]; assumption.
    + simpl. intros A B. rewrite A, B in R. discriminate.
  - destruct ((readResult (errorStream th) =? 0) && (readResult (outputStream th) =? 0))
      eqn:R.
    + pose proof (L th q) as L1.
      destruct (lastCheckAndSend command th q) as [th6 q6]; simpl in *.
      intros _ _. destruct L1 as [A|[A <-]]; assumption.
    + simpl. intros A B. rewrite A, B in R. discriminate.
Qed.

(** X4: with a returned stderr ([RETURN] or [CAPTURE_AND_RETURN]), a run
    of [optionReadSend] loses no stderr byte.  After the synthetic
    responses of the parent-side checks, the stderr payloads sent,
    followed by what is left in [errBuff], are the old [errBuff] followed
    by every byte the run took from the stderr reader ([errSeen] grows by
    exactly these bytes).  When the run returns 1 with both streams at end
    of file, [errBuff] is left empty, so every byte was sent. *)
Theorem optionReadSend_stderr_conserved (command : KACommand) (ppid : Z)
    (chdir_ok : bool) (lookup : option (Z * Z)) (sec0 secHeart0 : Z)
    (ticks : list Tick) (th : KAThread) (q : list Response) (o : Outcome)
    (He : isCaptureOrNo (getStandardError command) = false)
    (H : optionReadSend command ppid chdir_ok lookup sec0 secHeart0 ticks th q = Some o) :
  (exists rest D,
     sent o = (q ++ syntheticMsgs command ppid chdir_ok lookup ++ rest)%list /\
     errSeen (final o) = errSeen th ++ D /\
     errPayloads rest ++ errBuff (final o) = errBuff th ++ D) /\
  (ret o = 1 -> readResult (errorStream (final o)) = 0 ->
   readResult (outputStream (final o)) = 0 -> errBuff (final o) = "").
Proof.
  unfold optionReadSend in H.
  pose proof (preChecks_spec command ppid chdir_ok lookup th q) as P.
  destruct (preChecks command ppid chdir_ok lookup th q) as [th4 q4].
  destruct P as (Eq4 & _ & _ & _ & _ & _ & S4 & B4 & _).
  match type of H with
  | match multiplex ?c ?ts ?s0 with _ => _ end = _ =>
      pose proof (multiplex_errcons c He ts s0) as M; destruct (multiplex c ts s0) as [[e s]|]
  end; [|discriminate].
  specialize (M e s eq_refl). cbn [thr queue] in M.
  assert (N : ErrCons th4 q4 (final o) (sent o) /\
              (ret o = 1 -> readResult (errorStream (final o)) = 0 ->
               readResult (outputStream (final o)) = 0 -> errBuff (final o) = "")).
  { destruct e; injection H as <-; simpl.
    - split; [exact (ErrCons_trans _ _ _ _ _ _ M (afterLoop_errcons command He _ _ _))|].
      intros _; apply afterLoop_flushed.
    - split; [exact M|]. intros R; discriminate R.
    - split; [exact (ErrCons_trans _ _ _ _ _ _ M (afterLoop_errcons command He _ _ _))|].
      intros _; apply afterLoop_flushed. }
  destruct N as [(rest & D & E & S & B) F]. split; [|exact F].
  exists rest, D. rewrite E, Eq4, <- app_assoc, S, S4, <- B4, B. repeat split.
Qed.

(** ** Sizes of the payloads over a run *)

Definition smallMsg (m : Response) : Prop :=
  (String.length (errOf m) <= MaxBuffSize)%nat /\
  (String.length (outOf m) <= MaxBuffSize)%nat.

(** Both buffers below [MaxBuffSize], both reader buffers at most
    [MaxBuffSize]. *)
Definition Small (th : KAThread) : Prop :=
  (String.length (outBuff th) < MaxBuffSize)%nat /\
  (String.length (errBuff th) < MaxBuffSize)%nat /\
  (String.length (buffer (outputStream th)) <= MaxBuffSize)%nat /\
  (String.length (buffer (errorStream th)) <= MaxBuffSize)%nat.

Definition readSmall (o : ReadOutcome) : Prop :=
  match o with ReadData s => (String.length s <= MaxBuffSize)%nat | ReadError => True end.

Definition tickSmall (t : Tick) : Prop := readSmall (readOut t) /\ readSmall (readErr t).

Definition SizeStep (th : KAThread) (q : list Response) (th' : KAThread)
    (q' : list Response) : Prop :=
  Small th -> Small th' /\ exists ext, q' = (q ++ ext)%list /\ Forall smallMsg ext.

Lemma SizeStep_refl (th : KAThread) (q : list Response) : SizeStep th q th q.
Proof. intros S. split; [exact S|]. exists []. rewrite app_nil_r. split; constructor. Qed.

Lemma SizeStep_trans (th1 th2 th3 : KAThread) (q1 q2 q3 : list Response) :
  SizeStep th1 q1 th2 q2 -> SizeStep th2 q2 th3 q3 -> SizeStep th1 q1 th3 q3.
Proof.
  intros A B S1. destruct (A S1) as [S2 [e1 [-> F1]]]. destruct (B S2) as [S3 [e2 [-> F2]]].
  split; [exact S3|]. exists (e1 ++ e2)%list. split; [symmetry; apply app_assoc|].
  apply Forall_app; split; assumption.
Qed.

Lemma checkAndWrite_msgs (command : KACommand) (th : KAThread) (q : list Response) :
  exists ext, snd (checkAndWrite command th q) = (q ++ ext)%list /\ Forall smallMsg ext.
Proof.
  unfold checkAndWrite, checkAndSend, sendProgress, try_send_spin, progressMessage,
    createResponseMessage, smallMsg. cbv beta zeta. simpl_thread.
  break_ifs; simpl; simpl_thread; cbn [orb andb] in *; bool_facts.
  all: first [ exists []; split; [rewrite app_nil_r; reflexivity|constructor]
             | eexists [_]; split; [reflexivity|constructor; [|constructor]] ];
       simpl; split; unfold substr;
       first [apply substring_length_le | lia].
Qed.

Lemma checkAndWrite_size (command : KACommand) (th : KAThread) (q : list Response) :
  SizeStep th q (fst (checkAndWrite command th q)) (snd (checkAndWrite command th q)).
Proof.
  intros S. split; [|apply checkAndWrite_msgs].
  unfold Small in *. destruct S as (S1 & S2 & S3 & S4).
  unfold checkAndWrite, checkAndSend, sendProgress. cbv beta zeta. simpl_thread.
  break_ifs; simpl; simpl_thread; cbn [orb andb] in *; bool_facts;
    rewrite ?str_length_app in *; unfold substr, MaxBuffSize in *;
    repeat split; simpl; try lia.
  all: eapply Nat.le_lt_trans; [apply substring_length_le|]; lia.
Qed.

Ltac size_tac :=
  split;
  [ unfold Small; simpl_thread; repeat split; simpl; lia
  | first [ exists []; split; [rewrite app_nil_r; reflexivity|constructor]
          | eexists [_]; split; [reflexivity|constructor; [|constructor]];
            unfold smallMsg; simpl; split; lia ] ].

Lemma lastCheckAndSend_size (command : KACommand) (th : KAThread) (q : list Response) :
  SizeStep th q (fst (lastCheckAndSend command th q)) (snd (lastCheckAndSend command th q)).
Proof.
  intros S. unfold Small in S. destruct S as (S1 & S2 & S3 & S4).
  unfold lastCheckAndSend, sendProgress, try_send_spin, progressMessage,
    createResponseMessage. cbv beta zeta.
  break_ifs; simpl; simpl_thread; size_tac.
Qed.

Lemma sendHeartbeat_size (command : KACommand) (th : KAThread) (q : list Response) :
  SizeStep th q (fst (sendHeartbeat command th q)) (snd (sendHeartbeat command th q)).
Proof.
  intros S. unfold Small in S. destruct S as (S1 & S2 & S3 & S4).
  unfold sendHeartbeat, try_send_spin, progressMessage, createResponseMessage.
  cbv beta zeta. break_ifs; simpl; simpl_thread; size_tac.
Qed.

Lemma heartbeatPhase_size (command : KACommand) (t : Tick) (th : KAThread)
    (q : list Response) (ht : Timer) :
  let '(th1, q1, _) := heartbeatPhase command t th q ht in SizeStep th q th1 q1.
Proof.
  unfold heartbeatPhase. destruct (ACTFLAG th).
  - intros S. split; [exact S|]. exists []. rewrite app_nil_r. split; constructor.
  - destruct (checkExecutionTimeout ht (secHeart t)) as [[|] ht1].
    + pose proof (sendHeartbeat_size command th q) as N.
      destruct (sendHeartbeat command th q); exact N.
    + apply SizeStep_refl.
Qed.

Lemma readPhase_size (t : Tick) (th : KAThread) (q : list Response) :
  tickSmall t -> SizeStep th q (readPhase t th) q.
Proof.
  intros [R1 R2] S. split; [|exists []; rewrite app_nil_r; split; constructor].
  unfold Small in *. destruct S as (S1 & S2 & S3 & S4).
  unfold readPhase, startReading, clearBuffer.
  destruct (readOut t) as [so|], (readErr t) as [se|]; simpl in R1, R2;
    break_ifs; simpl_thread; repeat split; simpl; lia.
Qed.

Lemma selectPhase_size (t : Tick) (th : KAThread) (q : list Response) :
  SizeStep th q (selectPhase t th) q.
Proof.
  intros S. split; [|exists []; rewrite app_nil_r; split; constructor].
  unfold Small, selectPhase in *. simpl_thread. exact S.
Qed.

Lemma loopStep_size (command : KACommand) (t : Tick) (s : LoopState) :
  tickSmall t ->
  let s' := stepState (loopStep command t s) in
  SizeStep (thr s) (queue s) (thr s') (queue s').
Proof.
  intros Ht. pose proof (selectPhase_size t (thr s) (queue s)) as C0.
  unfold loopStep.
  destruct (checkExecutionTimeout (execT s) (secExec t)) as [[|] et]; [exact C0|].
  pose proof (heartbeatPhase_size command t (selectPhase t (thr s)) (queue s) (heartT s)) as HB.
  destruct (heartbeatPhase command t (selectPhase t (thr s)) (queue s) (heartT s))
    as [[th1 q1] ht].
  pose proof (SizeStep_trans _ _ _ _ _ _ C0 HB) as N1.
  pose proof (readPhase_size t th1 q1 Ht) as R.
  destruct ((selOut t =? -1) || (selErr t =? -1)); [exact N1|].
  destruct ((0 <? readResult (outputStream (readPhase t th1)))
            || (0 <? readResult (errorStream (readPhase t th1)))).
  - pose proof (checkAndWrite_size command (readPhase t th1) q1) as N3.
    destruct (checkAndWrite command (readPhase t th1) q1) as [th5 q5]; simpl in *.
    exact (SizeStep_trans _ _ _ _ _ _ N1 (SizeStep_trans _ _ _ _ _ _ R N3)).
  - exact (SizeStep_trans _ _ _ _ _ _ N1 R).
Qed.

Lemma multiplex_size (command : KACommand) (ticks : list Tick) (s : LoopState)
    (e : LoopExit) (s' : LoopState) :
  Forall tickSmall ticks ->
  multiplex command ticks s = Some (e, s') -> SizeStep (thr s) (queue s) (thr s') (queue s').
Proof.
  revert s; induction ticks as [|t ts IH]; intros s Ht H; simpl in H; [discriminate|].
  inversion Ht as [|? ? Ht0 Hts]; subst.
  pose proof (loopStep_size command t s Ht0) as G.
  destruct (loopStep command t s) as [[e0 s0]|s1]; simpl in G.
  - injection H as <- <-. exact G.
  - exact (SizeStep_trans _ _ _ _ _ _ G (IH s1 Hts H)).
Qed.

Lemma afterLoop_size (command : KACommand) (e : LoopExit) (th : KAThread)
    (q : list Response) :
  SizeStep th q (final (afterLoop command e th q)) (sent (afterLoop command e th q)).
Proof.
  assert (One : forall th' q' m, smallMsg m -> SizeStep th' q' th' (try_send_spin q' m)).
  { intros th' q' m Sm S. split; [exact S|]. exists [m].
    split; [reflexivity|constructor; [exact Sm|constructor]]. }
  unfold afterLoop.
  assert (T : SizeStep th q (fst (timeoutBranch command e th q))
                            (snd (timeoutBranch command e th q))).
  { destruct e; simpl; try apply SizeStep_refl.
    pose proof (lastCheckAndSend_size command th q) as N.
    destruct (lastCheckAndSend command th q) as [th' q']; simpl in *.
    eapply SizeStep_trans; [exact N|]. apply One.
    unfold smallMsg, MaxBuffSize; simpl; lia. }
  destruct (timeoutBranch command e th q) as [th5 q5]; simpl in T.
  eapply SizeStep_trans; [exact T|].
  unfold exitBranch.
  destruct ((readResult (errorStream th5) =? 0) && (readResult (outputStream th5) =? 0));
    [|apply SizeStep_refl].
  pose proof (lastCheckAndSend_size command th5 q5) as N.
  destruct (lastCheckAndSend command th5 q5) as [th6 q6]; simpl in *.
  eapply SizeStep_trans; [exact N|]. apply One.
  unfold smallMsg, MaxBuffSize; simpl; lia.
Qed.

Lemma preChecks_size (command : KACommand) (ppid : Z) (chdir_ok : bool)
    (lookup : option (Z * Z)) (th : KAThread) (q : list Response) :
  SizeStep th q (fst (preChecks command ppid chdir_ok lookup th q))
                (snd (preChecks command ppid chdir_ok lookup th q)).
Proof.
  intros S. unfold Small in S. destruct S as (S1 & S2 & S3 & S4).
  unfold preChecks, checkCWD, checkUID, try_send_spin, createResponseMessage.
  destruct chdir_ok, lookup as [[r e]|]; simpl; simpl_thread.
  all: split; [unfold Small; simpl_thread; repeat split; lia|].
  all: first [ exists []; split; [rewrite app_nil_r; reflexivity|constructor]
             | eexists [_]; split; [reflexivity|]
             | eexists [_; _]; split; [rewrite <- app_assoc; reflexivity|] ];
       repeat constructor; unfold MaxBuffSize; simpl; lia.
Qed.

(** X7: if the reader buffers hold at most [MaxBuffSize] (1000) bytes and
    the two buffers fewer than 1000 when [optionReadSend] starts, and no
    [read] of the run returns more than 1000 bytes, then no response of
    the run carries more than 1000 bytes of stdout or of stderr, and both
    buffers still hold fewer than 1000 bytes at the end. *)
Theorem optionReadSend_payload_bound (command : KACommand) (ppid : Z)
    (chdir_ok : bool) (lookup : option (Z * Z)) (sec0 secHeart0 : Z)
    (ticks : list Tick) (th : KAThread) (q : list Response) (o : Outcome)
    (Hs : Small th) (Ht : Forall tickSmall ticks)
    (H : optionReadSend command ppid chdir_ok lookup sec0 secHeart0 ticks th q = Some o) :
  (exists rest, sent o = (q ++ rest)%list /\
     Forall (fun m => (String.length (errOf m) <= MaxBuffSize)%nat /\
                      (String.length (outOf m) <= MaxBuffSize)%nat) rest) /\
  (String.length (outBuff (final o)) < MaxBuffSize)%nat /\
  (String.length (errBuff (final o)) < MaxBuffSize)%nat.
Proof.
  unfold optionReadSend in H.
  pose proof (preChecks_size command ppid chdir_ok lookup th q) as P.
  destruct (preChecks command ppid chdir_ok lookup th q) as [th4 q4]; simpl in P.
  match type of H with
  | match multiplex ?c ?ts ?s0 with _ => _ end = _ =>
      pose proof (multiplex_size c ts s0) as M; destruct (multiplex c ts s0) as [[e s]|]
  end; [|discriminate].
  specialize (M e s Ht eq_refl). cbn [thr queue] in M.
  assert (N : SizeStep th4 q4 (final o) (sent o)).
  { destruct e; injection H as <-; simpl;
      try (eapply SizeStep_trans; [exact M|apply afterLoop_size]); exact M. }
  destruct (SizeStep_trans _ _ _ _ _ _ P N Hs) as [(S1 & S2 & _) R].
  split; [exact R|]. split; assumption.
Qed.

(** ** Logging *)

(** The tag [writeLog] puts before a message of a given level. *)
Definition tagOf (level : Z) : string :=
  if level =? 7 then " <DEBUG>"
  else if level =? 6 then " <INFO>"
  else if level =? 5 then " <NOTICE>"
  else if level =? 4 then " <WARNING>"
  else if level =? 3 then " <ERROR>"
  else if level =? 2 then " <CRITICAL>"
  else if level =? 1 then " <ALERT>"
  else if level =? 0 then " <EMERGENCY>"
  else "".

(** X8: the nested [switch] of [writeLog] is a threshold: a message is
    written exactly when [0 <= level <= loglevel <= 7], as one line made
    of the local time, the tag of its level, the message and a newline
    (cut at the first NUL byte by [fputs]); otherwise the log file is left
    as it is. *)
Theorem writeLog_threshold (loglevel : Z) (now : Clock) (level : Z) (log logFile : string) :
  writeLog loglevel now level log logFile =
  if (0 <=? level) && (level <=? loglevel) && (loglevel <=? 7)
  then logFile ++ cstr (getLocaltime now ++ tagOf level ++ log ++ newline)
  else logFile.
Proof.
  unfold writeLog, tagOf. cbv beta zeta.
  repeat (match goal with |- context [?x =? ?k] => destruct (Z.eqb_spec x k) end;
          cbv beta iota).
  all: try (subst; reflexivity).
  all: destruct (Z.leb_spec 0 level), (Z.leb_spec level loglevel), (Z.leb_spec loglevel 7);
       simpl; try reflexivity; exfalso; lia.
Qed.

(** ** Decimal numerals *)

Lemma digitsAcc_cons (acc : Z) (c : Ascii.ascii) (r : string) (v : Z) :
  digitValue c = Some v -> digitsAcc acc (String c r) = digitsAcc (acc * 10 + v) r.
Proof. intros H. simpl. rewrite H. reflexivity. Qed.

Ltac digit_value :=
  match goal with
  | |- context [Z.of_nat (Ascii.nat_of_ascii ?c) - 48] =>
      let v := eval vm_compute in (Z.of_nat (Ascii.nat_of_ascii c) - 48) in
      change (Z.of_nat (Ascii.nat_of_ascii c) - 48) with v
  end.

Lemma digitsAcc_pos (u : Decimal.uint) (p : positive) :
  digitsAcc (Zpos p) (uintString u) = Zpos (Pos.of_uint_acc u p).
Proof.
  revert p; induction u as [|u IH|u IH|u IH|u IH|u IH|u IH|u IH|u IH|u IH|u IH];
    intros p; cbn [uintString Pos.of_uint_acc]; [reflexivity|..];
    (erewrite digitsAcc_cons; [|reflexivity]); digit_value;
    match goal with |- digitsAcc ?a _ = Zpos (Pos.of_uint_acc _ ?b) =>
      replace a with (Zpos b) by lia; apply IH end.
Qed.

Lemma digitsAcc_uint (u : Decimal.uint) : digitsAcc 0 (uintString u) = Z.of_uint u.
Proof.
  induction u as [|u IH|u IH|u IH|u IH|u IH|u IH|u IH|u IH|u IH|u IH];
    cbn [uintString Pos.of_uint]; [reflexivity|..];
    (erewrite digitsAcc_cons; [|reflexivity]); digit_value;
    [exact IH|..]; apply digitsAcc_pos.
Qed.

Lemma strtolValue_toString (n : Z) : strtolValue (toString n) = n.
Proof.
  rewrite <- (DecimalZ.of_to n) at 2. unfold toString.
  destruct (Z.to_int n) as [u|u]; cbn [Z.of_int].
  - rewrite <- digitsAcc_uint. destruct u; reflexivity.
  - rewrite <- digitsAcc_uint. reflexivity.
Qed.

(** X9: [atoi] reads back what [toString] writes: for every [int] value
    [n], [atoi(toString(n).c_str()) == n]. *)
Theorem atoi_toString (n : Z) (Hn : - 2 ^ 31 <= n < 2 ^ 31) : atoi (toString n) = n.
Proof.
  unfold atoi. rewrite strtolValue_toString. unfold clampLong, wrapInt.
  rewrite Z.min_r, Z.max_r by lia.
  destruct (Z_lt_le_dec n 0) as [Hneg|Hpos].
  - replace (n mod 2 ^ 32) with (n + 2 ^ 32)
      by (first [symmetry; apply Z.mod_unique with (-1) | apply Z.mod_unique with (-1)]; lia).
    destruct (Z.leb_spec (2 ^ 31) (n + 2 ^ 32)); lia.
  - rewrite Z.mod_small by lia.
    destruct (Z.leb_spec (2 ^ 31) n); lia.
Qed.

Lemma atoi_toString_witness : - 2 ^ 31 <= -4711 < 2 ^ 31 /\ atoi (toString (-4711)) = -4711.
Proof. split; [lia|]. apply atoi_toString. lia. Defined.

(** ** Reading the output of [pgrep] *)

Fixpoint hasChar (c : Ascii.ascii) (s : string) : bool :=
  match s with
  | String d r => Ascii.eqb d c || hasChar c r
  | EmptyString => false
  end.

(** The output of a command that writes the lines [ls], each ended by a
    newline. *)
Fixpoint linesText (ls : list string) : string :=
  match ls with [] => "" | l :: r => l ++ newline ++ linesText r end.

Lemma fgetsChunk_line (k : nat) (l r : string) :
  hasChar "010" l = false -> (String.length l < k)%nat ->
  fgetsChunk k (l ++ newline ++ r) = (l ++ newline, r).
Proof.
  revert k; induction l as [|c l IH]; intros k Hn Hk; destruct k as [|k]; simpl in *;
    try lia; [reflexivity|].
  apply orb_false_iff in Hn. destruct Hn as [Hc Hn]. rewrite Hc.
  rewrite IH by (assumption || lia). reflexivity.
Qed.

Lemma fgetsChunk_tail (k : nat) (s : string) :
  hasChar "010" s = false -> (String.length s <= k)%nat -> fgetsChunk k s = (s, "").
Proof.
  revert k; induction s as [|c s IH]; intros k Hn Hk; destruct k as [|k]; simpl in *;
    try lia; try reflexivity.
  apply orb_false_iff in Hn. destruct Hn as [Hc Hn]. rewrite Hc.
  rewrite IH by (assumption || lia). reflexivity.
Qed.

Lemma fgetsChunks_S (f : nat) (s : string) :
  s <> "" -> fgetsChunks (S f) s = let '(a, b) := fgetsChunk 127 s in a :: fgetsChunks f b.
Proof. destruct s; [congruence|reflexivity]. Qed.

Lemma fgetsChunks_lines (ls : list string) (s : string) (f : nat) :
  Forall (fun l => hasChar "010" l = false /\ (String.length l < 127)%nat) ls ->
  hasChar "010" s = false -> (String.length s <= 127)%nat ->
  (String.length (linesText ls ++ s) <= f)%nat ->
  fgetsChunks f (linesText ls ++ s) =
  (map (fun l => String.append l newline) ls ++ (if String.eqb s "" then [] else [s]))%list.
Proof.
  revert f; induction ls as [|l ls IH]; intros f Hl Hn Hk Hf;
    cbn [linesText map String.append List.app] in *.
  - destruct s as [|c s']; [destruct f; reflexivity|].
    destruct f as [|f]; simpl in Hf; [lia|].
    rewrite fgetsChunks_S by discriminate. rewrite fgetsChunk_tail by assumption.
    destruct f; reflexivity.
  - inversion Hl as [|? ? [Hln Hll] Hls]; subst.
    rewrite <- !str_app_assoc in *.
    rewrite !str_length_app in Hf. cbn [String.length newline] in Hf.
    destruct f as [|f]; [lia|].
    rewrite fgetsChunks_S by (destruct l; discriminate).
    rewrite fgetsChunk_line by assumption.
    rewrite IH by (try assumption; rewrite str_length_app in *; lia).
    reflexivity.
Qed.

Lemma cstr_no_nul (s : string) : hasChar "000" s = false -> cstr s = s.
Proof.
  induction s as [|c s IH]; simpl; [reflexivity|].
  intros H. apply orb_false_iff in H. destruct H as [Hc H].
  rewrite (proj2 (Ascii.eqb_neq c "000") (fun E => Bool.diff_true_false
            (eq_trans (eq_sym (proj2 (Ascii.eqb_eq c "000") E)) Hc))).
  rewrite IH by exact H. reflexivity.
Qed.

Lemma dropLast_newline (l : string) : dropLast (l ++ newline) = l.
Proof.
  induction l as [|c l IH]; [reflexivity|].
  change (dropLast (String c (l ++ newline)) = String c l).
  destruct l as [|d l]; [reflexivity|].
  change (String c (dropLast (String d l ++ newline)) = String c (String d l)).
  rewrite IH. reflexivity.
Qed.

Lemma last_cons_default {A : Type} (a : A) (l : list A) (d d' : A) :
  last (a :: l) d = last (a :: l) d'.
Proof. revert a; induction l as [|b l IH]; intros a; [reflexivity|]. apply IH. Qed.

Lemma readLoop_lines (ls : list string) (x : string) (t : list string) :
  Forall (fun l => hasChar "000" l = false) ls ->
  readLoop (Some x) (map (fun l => String.append l newline) ls ++ t)%list =
  readLoop (Some (last ls x)) t.
Proof.
  revert x; induction ls as [|l ls IH]; intros x H; [reflexivity|].
  inversion H as [|? ? Hl Hls]; subst. cbn [map List.app readLoop].
  assert (Hc : cstr (l ++ newline) = l ++ newline).
  { apply cstr_no_nul. clear -Hl. induction l as [|c l IH]; [reflexivity|].
    simpl in *. apply orb_false_iff in Hl. destruct Hl as [A B]. rewrite A, IH by exact B.
    reflexivity. }
  assert (Hne : String.eqb (l ++ newline) "" = false) by (destruct l; reflexivity).
  rewrite Hc, Hne, dropLast_newline, IH by exact Hls.
  destruct ls; [reflexivity|rewrite (last_cons_default _ _ _ x); reflexivity].
Qed.

(** X10: what [getProcessPid] returns for a command whose output is lines
    of fewer than 127 bytes without NUL bytes, each ended by a newline,
    followed by a piece [s] of at most 127 bytes without newline or NUL:
    the last line without its newline when [s] is empty ([""] when there
    is no line either), and otherwise [s] without its last byte. *)
Theorem getProcessPid_lines (ls : list string) (s : string)
    (Hl : Forall (fun l => hasChar "010" l = false /\ hasChar "000" l = false /\
                           (String.length l < 127)%nat) ls)
    (Hn : hasChar "010" s = false) (Hz : hasChar "000" s = false)
    (Hk : (String.length s <= 127)%nat) :
  getProcessPid (PopenOut (linesText ls ++ s)) =
  Some (if String.eqb s "" then last ls "" else dropLast s).
Proof.
  unfold getProcessPid.
  rewrite fgetsChunks_lines;
    [| eapply Forall_impl; [|exact Hl]; intros l (A & _ & C); split; assumption
     | assumption | assumption | lia].
  rewrite readLoop_lines.
  2: { eapply Forall_impl; [|exact Hl]. intros l (_ & B & _). exact B. }
  destruct s as [|c s']; [reflexivity|].
  cbn [String.eqb readLoop]. rewrite cstr_no_nul by exact Hz. reflexivity.
Qed.

Lemma getProcessPid_lines_witness :
  Forall (fun l => hasChar "010" l = false /\ hasChar "000" l = false /\
                   (String.length l < 127)%nat) ["4242"; "4243"] /\
  hasChar "010" "" = false /\ hasChar "000" "" = false /\ (String.length "" <= 127)%nat /\
  getProcessPid (PopenOut (linesText ["4242"; "4243"] ++ "")) = Some "4243".
Proof.
  split; [repeat constructor; vm_compute; reflexivity|].
  split; [reflexivity|]. split; [reflexivity|]. split; [simpl; lia|].
  apply (getProcessPid_lines ["4242"; "4243"] "");
    [repeat constructor; vm_compute; reflexivity|reflexivity|reflexivity|simpl; lia].
Defined.

(** ** Finding the pid of the command *)

(** X11: the pid the discovery loop of [optionReadSend] ends with.  Either
    some [waitpid] returned nonzero after all earlier ones returned 0, and
    the pid is [newpid]; or, in an iteration whose [waitpid] returned 0,
    the second [pgrep] (on the pid printed by the first) was started by
    [popen] and its output read back by [getProcessPid] gives, through
    [atoi], a nonzero pid.  A failing [popen] of the second lookup never
    gives the pid: its ["ERROR"] reads as 0. *)
Theorem findPid_result (newpid : Z) (iters : list PidIter) (p : Z)
    (H : findPid newpid iters = Some p) :
  (exists pre it rest,
     iters = (pre ++ it :: rest)%list /\ Forall (fun i => waitResult i = 0) pre /\
     waitResult it <> 0 /\ p = newpid) \/
  (exists pre it rest cmd1 out cmd2,
     iters = (pre ++ it :: rest)%list /\ Forall (fun i => waitResult i = 0) pre /\
     waitResult it = 0 /\
     getProcessPid (popenOf it ("pgrep -P " ++ toString newpid)) = Some cmd1 /\
     popenOf it ("pgrep -P " ++ cmd1) = PopenOut out /\
     getProcessPid (PopenOut out) = Some cmd2 /\
     p = atoi cmd2 /\ p <> 0).
Proof.
  assert (AE : atoi "ERROR" = 0) by reflexivity.
  induction iters as [|it iters IH]; cbn [findPid] in H; [discriminate|].
  revert H; destruct (Z.eqb_spec (waitResult it) 0) as [W|W]; intros H.
  2: { assert (Ep0 : p = newpid) by congruence; subst p. left. exists [], it, iters. repeat split; auto. }
  revert H.
  destruct (getProcessPid (popenOf it ("pgrep -P " ++ toString newpid))) as [cmd1|] eqn:G1;
    intros H; [|discriminate].
  revert H. destruct (popenOf it ("pgrep -P " ++ cmd1)) as [|out] eqn:Ep; intros H.
  - cbn [getProcessPid] in H. rewrite AE in H. cbn [negb Z.eqb] in H.
    destruct (IH H) as [(pre & i & r & E & F & W' & P)|(pre & i & r & c1 & o & c2 & E & F & R)].
    + left. exists (it :: pre), i, r. rewrite E. repeat split; auto.
    + right. exists (it :: pre), i, r, c1, o, c2. rewrite E. split; [reflexivity|].
      split; [constructor; assumption|exact R].
  - revert H. destruct (getProcessPid (PopenOut out)) as [cmd2|] eqn:G2; intros H;
      [|discriminate].
    revert H; destruct (Z.eqb_spec (atoi cmd2) 0) as [A|A]; intros H; cbn [negb] in H.
    + destruct (IH H) as [(pre & i & r & E & F & W' & P)|(pre & i & r & c1 & o & c2 & E & F & R)].
      * left. exists (it :: pre), i, r. rewrite E. repeat split; auto.
      * right. exists (it :: pre), i, r, c1, o, c2. rewrite E. split; [reflexivity|].
        split; [constructor; assumption|exact R].
    + assert (Ep0 : p = atoi cmd2) by congruence; subst p. right. exists [], it, iters, cmd1, out, cmd2.
      repeat split; auto.
Qed.

Definition pidSample : list PidIter :=
  [mkPidIter 0 (fun _ => PopenOut ""); mkPidIter 0 (fun _ => PopenOut ("4243" ++ newline))].

Lemma findPid_result_witness :
  findPid 4242 pidSample = Some 4243 /\
  ((exists pre it rest,
      pidSample = (pre ++ it :: rest)%list /\ Forall (fun i => waitResult i = 0) pre /\
      waitResult it <> 0 /\ 4243 = 4242) \/
   (exists pre it rest cmd1 out cmd2,
      pidSample = (pre ++ it :: rest)%list /\ Forall (fun i => waitResult i = 0) pre /\
      waitResult it = 0 /\
      getProcessPid (popenOf it ("pgrep -P " ++ toString 4242)) = Some cmd1 /\
      popenOf it ("pgrep -P " ++ cmd1) = PopenOut out /\
      getProcessPid (PopenOut out) = Some cmd2 /\
      4243 = atoi cmd2 /\ 4243 <> 0)).
Proof.
  split; [vm_compute; reflexivity|].
  apply (findPid_result 4242 pidSample 4243). vm_compute. reflexivity.
Defined.

(** ** Log file names *)

Lemma str_app_inv_l (a x y : string) : a ++ x = a ++ y -> x = y.
Proof.
  induction a as [|c a IH]; simpl; [auto|]. intros H. injection H. exact IH.
Qed.

Lemma hasChar_uintString (u : Decimal.uint) : hasChar "-" (uintString u) = false.
Proof. induction u; simpl; auto. Qed.

Lemma toString_nonneg_no_dash (n : Z) : 0 <= n -> hasChar "-" (toString n) = false.
Proof.
  intros Hn. unfold toString. destruct n as [|p|p]; simpl; [reflexivity| |lia].
  apply hasChar_uintString.
Qed.

Lemma toString_inj (a b : Z) : toString a = toString b -> a = b.
Proof.
  intros H. rewrite <- (strtolValue_toString a), <- (strtolValue_toString b), H.
  reflexivity.
Qed.

Lemma split_first_dash (a b c d : string) :
  hasChar "-" a = false -> hasChar "-" c = false ->
  a ++ "-" ++ b = c ++ "-" ++ d -> a = c /\ b = d.
Proof.
  revert c; induction a as [|x a IH]; intros c Ha Hc H; destruct c as [|y c]; simpl in *.
  - injection H. auto.
  - injection H as Hy _. subst y. discriminate Hc.
  - injection H as Hx _. subst x. discriminate Ha.
  - apply orb_false_iff in Ha, Hc. injection H as Hxy H. subst y.
    destruct (IH c (proj2 Ha) (proj2 Hc) H) as [-> ->]. auto.
Qed.

(** X12: for one clock reading, [openLogFile] opens a different file for
    every pair of a process id (never negative) and a request sequence
    number: [logFileName] is injective in the two numbers. *)
Theorem logFileName_injective (now : Clock) (pid requestSequenceNumber pid'
    requestSequenceNumber' : Z) (Hp : 0 <= pid) (Hp' : 0 <= pid') :
  logFileName now pid requestSequenceNumber = logFileName now pid' requestSequenceNumber' ->
  pid = pid' /\ requestSequenceNumber = requestSequenceNumber'.
Proof.
  unfold logFileName. intros H.
  repeat (apply str_app_inv_l in H).
  apply split_first_dash in H; try (apply toString_nonneg_no_dash; assumption).
  destruct H as [H1 H2]. split; apply toString_inj; assumption.
Qed.

Lemma logFileName_injective_witness :
  0 <= 4242 /\ 0 <= 4243 /\
  (logFileName (mkClock 2014 1 11 3 4 5 6) 4242 7 =
   logFileName (mkClock 2014 1 11 3 4 5 6) 4243 7 -> 4242 = 4243 /\ 7 = 7).
Proof.
  split; [lia|]. split; [lia|].
  apply logFileName_injective; lia.
Defined.

(** ** The execution timer against a wall clock *)

(** The seconds-of-minute shown by [second_clock::local_time()] at the
    wall-clock times [times], fed to successive calls of
    [checkExecutionTimeout]. *)
Fixpoint timerRun (t : Timer) (times : list Z) : Timer :=
  match times with
  | [] => t
  | tm :: rest => timerRun (snd (checkExecutionTimeout t (tm mod 60))) rest
  end.

Fixpoint monotone (prev : Z) (l : list Z) : Prop :=
  match l with [] => True | x :: r => prev <= x /\ monotone x r end.

(** [count] never runs ahead of the wall clock: [A] is the time the
    stored [startsec] stands for. *)
Definition TimerInv (T0 Tp : Z) (t : Timer) : Prop :=
  exists A, startsec t = A mod 60 /\ 0 <= count t /\ count t <= A - T0 /\
    count t <= Tp - T0 /\
    (if overflag t then A = Tp + 1 /\ Tp mod 60 = 59 else A <= Tp).

Lemma mod60_next (T : Z) : T mod 60 = 59 -> (T + 1) mod 60 = 0.
Proof. intros H. rewrite Zplus_mod, H. reflexivity. Qed.

Lemma mod60_gap (A T : Z) :
  A <= T -> A mod 60 < T mod 60 -> T mod 60 - A mod 60 <= T - A.
Proof.
  intros H1 H2.
  pose proof (Z_div_mod_eq_full T 60). pose proof (Z_div_mod_eq_full A 60).
  pose proof (Z.div_le_mono A T 60 ltac:(lia) H1). lia.
Qed.

Lemma checkExecutionTimeout_inv (T0 Tp T : Z) (t : Timer) :
  exectimeout t <> 0 -> TimerInv T0 Tp t -> Tp <= T ->
  TimerInv T0 T (snd (checkExecutionTimeout t (T mod 60))) /\
  exectimeout (snd (checkExecutionTimeout t (T mod 60))) = exectimeout t.
Proof.
  intros He (A & HS & HC0 & HCA & HCT & HO) HT.
  pose proof (Z.mod_pos_bound T 60 ltac:(lia)) as HB.
  pose proof (Z.mod_pos_bound A 60 ltac:(lia)) as HBA.
  unfold checkExecutionTimeout.
  replace (exectimeout t =? 0) with false by (symmetry; apply Z.eqb_neq; exact He).
  cbn [negb].
  destruct t as [s o e c]; cbn [startsec overflag exectimeout count] in *.
  destruct (s <? T mod 60) eqn:Hlt.
  all: try rewrite Z.ltb_lt in Hlt; try rewrite Z.ltb_ge in Hlt.
  all: destruct o; cbn [andb negb] in *.
  all: destruct (T mod 60 =? 59) eqn:H59.
  all: try rewrite Z.eqb_eq in H59; try rewrite Z.eqb_neq in H59.
  all: cbn [negb snd startsec overflag exectimeout count]; (split; [|reflexivity]); unfold TimerInv; cbn [snd startsec overflag count].
  - (* latched at 59: nothing counted, armed again *)
    destruct HO as [HA H59p]. exists (T + 1).
    rewrite (mod60_next T H59). lia.
  - destruct HO as [HA H59p]. exists A.
    assert (T <> Tp) by (intro; subst; congruence). lia.
  - (* counted up to 59 *)
    assert (Hg := mod60_gap A T ltac:(lia) ltac:(lia)).
    assert (Hm : 0 <= (c + (T mod 60 - s)) mod UINT_MOD <= c + (T mod 60 - s))
      by (unfold UINT_MOD; split; [apply Z.mod_pos_bound | apply Z.mod_le]; lia).
    exists (T + 1). rewrite (mod60_next T H59). lia.
  - assert (Hg := mod60_gap A T ltac:(lia) ltac:(lia)).
    assert (Hm : 0 <= (c + (T mod 60 - s)) mod UINT_MOD <= c + (T mod 60 - s))
      by (unfold UINT_MOD; split; [apply Z.mod_pos_bound | apply Z.mod_le]; lia).
    exists T. lia.
  - destruct HO as [HA H59p]. exists (T + 1).
    rewrite (mod60_next T H59). lia.
  - destruct HO as [HA H59p]. exists A.
    assert (T <> Tp) by (intro; subst; congruence). lia.
  - exists (T + 1). rewrite (mod60_next T H59). lia.
  - exists A. lia.
Qed.

Lemma checkExecutionTimeout_exectimeout (t : Timer) (c : Z) :
  exectimeout (snd (checkExecutionTimeout t c)) = exectimeout t.
Proof.
  unfold checkExecutionTimeout.
  destruct (negb (exectimeout t =? 0)); [|reflexivity].
  destruct ((startsec t <? c) && negb (overflag t)); [destruct (negb (c =? 59))|];
    destruct (c =? 59); reflexivity.
Qed.

Lemma timerRun_inv (T0 Tp : Z) (t : Timer) (times : list Z) :
  exectimeout t <> 0 -> TimerInv T0 Tp t -> monotone Tp times ->
  TimerInv T0 (last times Tp) (timerRun t times) /\
  exectimeout (timerRun t times) = exectimeout t.
Proof.
  revert Tp t. induction times as [|x r IH]; intros Tp t He Hi Hm.
  - split; [exact Hi | reflexivity].
  - destruct Hm as [Hx Hr].
    destruct (checkExecutionTimeout_inv T0 Tp x t He Hi Hx) as [Hi' He'].
    destruct (IH x _ ltac:(rewrite He'; exact He) Hi' Hr) as [Hf Hfe].
    split.
    + cbn [timerRun]. replace (last (x :: r) Tp) with (last r x); [exact Hf|].
      destruct r as [|z r]; [reflexivity|].
      transitivity (last (z :: r) Tp); [apply last_cons_default | reflexivity].
    + cbn [timerRun]. rewrite Hfe, He'. reflexivity.
Qed.

Lemma monotone_snoc (p T : Z) (l : list Z) :
  monotone p (l ++ [T]) -> monotone p l /\ last l p <= T.
Proof.
  revert p. induction l as [|x r IH]; intros p Hm; cbn in Hm.
  - split; [exact I | cbn; lia].
  - destruct Hm as [Hx Hr]. destruct (IH x Hr) as [H1 H2].
    split; [split; assumption|].
    replace (last (x :: r) p) with (last r x); [exact H2|].
    destruct r as [|z r]; [reflexivity|].
      transitivity (last (z :: r) p); [apply last_cons_default | reflexivity].
Qed.

Lemma timerRun_exectimeout (t : Timer) (l : list Z) :
  exectimeout (timerRun t l) = exectimeout t.
Proof.
  revert t. induction l as [|y l IHl]; intros t; [reflexivity|].
  cbn [timerRun]. rewrite IHl. apply checkExecutionTimeout_exectimeout.
Qed.

Lemma checkExecutionTimeout_fired (t : Timer) (c : Z) :
  fst (checkExecutionTimeout t c) = true ->
  exectimeout t <> 0 /\ exectimeout t <= count (snd (checkExecutionTimeout t c)).
Proof.
  intros H. pose proof (checkExecutionTimeout_exectimeout t c) as E. revert H E.
  unfold checkExecutionTimeout.
  destruct (exectimeout t =? 0) eqn:Hz; cbn [negb fst snd]; [discriminate|].
  intros H E. apply Z.leb_le in H. apply Z.eqb_neq in Hz. split; lia.
Qed.

(** X13: [checkExecutionTimeout] never reports a timeout early: a timer armed
    as [optionReadSend] arms it, at wall-clock second [T0], and polled at
    non-decreasing wall-clock times, fires at time [T] only if at least
    [exectimeout] seconds have passed, [T - T0 >= exectimeout]. *)
Theorem checkExecutionTimeout_never_early (T0 e T : Z) (times : list Z)
    (Hm : monotone T0 (times ++ [T]))
    (Hf : fst (checkExecutionTimeout
                 (timerRun (mkTimer (T0 mod 60) false e 0) times) (T mod 60)) = true) :
  e <= T - T0.
Proof.
  destruct (monotone_snoc T0 T times Hm) as [Hm' HT].
  set (t0 := mkTimer (T0 mod 60) false e 0) in *.
  destruct (checkExecutionTimeout_fired _ _ Hf) as [He Hc].
  rewrite timerRun_exectimeout in He, Hc. cbn [t0 exectimeout] in He, Hc.
  assert (Hi0 : TimerInv T0 T0 t0) by (exists T0; cbn; lia).
  destruct (timerRun_inv T0 T0 t0 times He Hi0 Hm') as [Hi He'].
  destruct (checkExecutionTimeout_inv T0 _ T _ ltac:(rewrite He'; exact He) Hi HT)
    as [[A (_ & _ & _ & HC & _)] _].
  lia.
Qed.

Lemma checkExecutionTimeout_never_early_witness :
  monotone 100 ([110; 119; 125] ++ [200]) /\
  fst (checkExecutionTimeout
         (timerRun (mkTimer (100 mod 60) false 5 0) [110; 119; 125]) (200 mod 60)) = true /\
  5 <= 200 - 100.
Proof.
  assert (Hm : monotone 100 ([110; 119; 125] ++ [200])) by (cbn; lia).
  assert (Hf : fst (checkExecutionTimeout
         (timerRun (mkTimer (100 mod 60) false 5 0) [110; 119; 125]) (200 mod 60)) = true)
    by (vm_compute; reflexivity).
  split; [exact Hm|]. split; [exact Hf|].
  exact (checkExecutionTimeout_never_early 100 5 200 [110; 119; 125] Hm Hf).
Defined.

(** ** Concrete runs for the whole-run properties *)

(** Two iterations: both readers deliver four bytes, then both reach end
    of file. *)
Definition sampleTicks : list Tick :=
  [mkTick 1 1 (ReadData "out1") (ReadData "err1") 5 6 6;
   mkTick 1 1 (ReadData "") (ReadData "") 5 7 7].

Lemma optionReadSend_numbering_witness :
  exists o,
    optionReadSend (sampleCommand "root" RETURN RETURN) 42 true (Some (0, 0)) 5 5
      sampleTicks (sampleThread RETURN RETURN) [] = Some o /\
    exists rest,
      sent o = ([] ++ syntheticMsgs (sampleCommand "root" RETURN RETURN) 42 true
                        (Some (0, 0)) ++ rest)%list /\
      numbered (responsecount (sampleThread RETURN RETURN)) rest =
        Some (responsecount (final o)).
Proof.
  eexists. split; [vm_compute; reflexivity|].
  apply (optionReadSend_numbering (sampleCommand "root" RETURN RETURN) 42 true
           (Some (0, 0)) 5 5 sampleTicks (sampleThread RETURN RETURN) []).
  vm_compute; reflexivity.
Defined.

Lemma checkAndWrite_stdout_conserved_witness :
  isReturn (mode (outputStream
    (KAThread_new (mkReader RETURN 0 4 "abcd") (mkReader RETURN 0 0 "") 0 1000 1000)))
    = true /\
  exists ext,
    snd (checkAndWrite (sampleCommand "root" RETURN RETURN)
           (KAThread_new (mkReader RETURN 0 4 "abcd") (mkReader RETURN 0 0 "") 0 1000 1000) [])
      = ([] ++ ext)%list /\
    outPayloads ext ++ outBuff (fst (checkAndWrite (sampleCommand "root" RETURN RETURN)
           (KAThread_new (mkReader RETURN 0 4 "abcd") (mkReader RETURN 0 0 "") 0 1000 1000) []))
    = outBuff (KAThread_new (mkReader RETURN 0 4 "abcd") (mkReader RETURN 0 0 "") 0 1000 1000)
      ++ buffer (outputStream
           (KAThread_new (mkReader RETURN 0 4 "abcd") (mkReader RETURN 0 0 "") 0 1000 1000)).
Proof.
  split; [vm_compute; reflexivity|].
  apply (checkAndWrite_stdout_conserved (sampleCommand "root" RETURN RETURN)
           (KAThread_new (mkReader RETURN 0 4 "abcd") (mkReader RETURN 0 0 "") 0 1000 1000) []).
  vm_compute; reflexivity.
Defined.

Lemma optionReadSend_stderr_conserved_witness :
  exists o,
    optionReadSend (sampleCommand "root" RETURN RETURN) 42 true (Some (0, 0)) 5 5
      sampleTicks (sampleThread RETURN RETURN) [] = Some o /\
    isCaptureOrNo (getStandardError (sampleCommand "root" RETURN RETURN)) = false /\
    ((exists rest D,
       sent o = ([] ++ syntheticMsgs (sampleCommand "root" RETURN RETURN) 42 true
                         (Some (0, 0)) ++ rest)%list /\
       errSeen (final o) = errSeen (sampleThread RETURN RETURN) ++ D /\
       errPayloads rest ++ errBuff (final o) = errBuff (sampleThread RETURN RETURN) ++ D) /\
     (ret o = 1 -> readResult (errorStream (final o)) = 0 ->
      readResult (outputStream (final o)) = 0 -> errBuff (final o) = "")).
Proof.
  eexists. split; [vm_compute; reflexivity|]. split; [vm_compute; reflexivity|].
  apply (optionReadSend_stderr_conserved (sampleCommand "root" RETURN RETURN) 42 true
           (Some (0, 0)) 5 5 sampleTicks (sampleThread RETURN RETURN) []);
    vm_compute; reflexivity.
Defined.

Lemma optionReadSend_payload_bound_witness :
  exists o,
    optionReadSend (sampleCommand "root" RETURN RETURN) 42 true (Some (0, 0)) 5 5
      sampleTicks (sampleThread RETURN RETURN) [] = Some o /\
    Small (sampleThread RETURN RETURN) /\ Forall tickSmall sampleTicks /\
    ((exists rest, sent o = ([] ++ rest)%list /\
       Forall (fun m => (String.length (errOf m) <= MaxBuffSize)%nat /\
                        (String.length (outOf m) <= MaxBuffSize)%nat) rest) /\
     (String.length (outBuff (final o)) < MaxBuffSize)%nat /\
     (String.length (errBuff (final o)) < MaxBuffSize)%nat).
Proof.
  assert (Hs : Small (sampleThread RETURN RETURN))
    by (unfold Small, MaxBuffSize; cbn; repeat split; lia).
  assert (Ht : Forall tickSmall sampleTicks)
    by (unfold sampleTicks, tickSmall, MaxBuffSize; repeat constructor; cbn; lia).
  eexists. split; [vm_compute; reflexivity|]. split; [exact Hs|]. split; [exact Ht|].
  apply (optionReadSend_payload_bound (sampleCommand "root" RETURN RETURN) 42 true
           (Some (0, 0)) 5 5 sampleTicks (sampleThread RETURN RETURN) [] _ Hs Ht).
  vm_compute; reflexivity.
Defined.
